(** * MongoDB ReplicaSet Manager: a shallow embedding of [db-replica_ctrl.py]

    The controller keeps the membership of a MongoDB replica set in step with
    the tasks that Docker Swarm reports for the database service.  This file
    embeds the functions of [src/db-replica_ctrl.py] that build and mutate
    replica-set configurations, probe the members, reconfigure the set and
    wait for the service at start-up, and proves properties of them.

    Conventions of the embedding:
    - Python [int] is [Z]; [str] is [string]; a [set] of ips is a [gset string];
      [None] is the [None] of [option].
    - Iterating over a Python [set] visits its elements in an order the
      language does not fix.  The order is a parameter [set_iter] of the
      development: any function that enumerates each set without repetition.
    - Calls to the database driver and to the Docker SDK are answered by an
      environment [Env], a family of functions of the history of the run so
      far; every call appends one event, with the answer it got, to that
      history.  Exceptions are values of [Exn]; a computation either returns
      or raises.
    - The database driver answers a command with a value or with an
      exception.  The Docker SDK answers with a value: its transport errors,
      and with them the [backoff] decorator of [get_running_tasks] and the
      [except docker.errors.DockerException] of the entry point, are not
      modelled, so no statement below says which exceptions of the Docker
      SDK can or cannot leave a function.  A task that is not assigned to a
      node yet has no ['NodeID']: reading it raises [KeyError].  The other
      keys the controller reads from Docker objects are taken to be there.
    - Logging, the credentials, and the keyword arguments that only set driver
      time-outs are left out; so is the set [AUTH_WARNED_NODES], which only
      suppresses log lines. *)

From Stdlib Require Import ZArith Ascii String.
From stdpp Require Import base gmap sets list strings pretty.

Open Scope string_scope.
Open Scope list_scope.
Open Scope Z_scope.

(** ** Replica-set configuration documents *)

(** A member document as [replSetGetConfig] returns it: the keys ['_id'] and
    ['host'] that the controller reads and writes, and every other key
    ([priority], [votes], ...) kept as an opaque association list. *)
Record Member : Type := mkMember {
  member_id : Z;
  member_host : string;
  member_rest : list (string * string)
}.

(** The configuration document: ['_id'] is the set name. *)
Record Config : Type := mkConfig {
  cfg_id : string;
  cfg_members : list Member;
  cfg_version : Z;
  cfg_rest : list (string * string)
}.

#[global] Instance Member_eq_dec : EqDecision Member.
Proof. solve_decision. Defined.

#[global] Instance Config_eq_dec : EqDecision Config.
Proof. solve_decision. Defined.

(** [s.split(sep)[0]]: the part of [s] before the first [sep]. *)
Fixpoint split_head (sep : ascii) (s : string) : string :=
  match s with
  | EmptyString => EmptyString
  | String c r => if decide (c = sep) then EmptyString else String c (split_head sep r)
  end.

(** [m['host'].split(":")[0]] *)
Definition host_ip (m : Member) : string := split_head ":"%char (member_host m).

(** ["{}:{}".format(ip, mongo_port)] *)
Definition format_host (ip : string) (mongo_port : Z) : string :=
  ip +:+ ":" +:+ pretty mongo_port.

(** The dict literal [{'_id': i, 'host': "{}:{}".format(ip, mongo_port)}]. *)
Definition new_member (i : Z) (ip : string) (mongo_port : Z) : Member :=
  {| member_id := i; member_host := format_host ip mongo_port; member_rest := [] |}.

(** [for i, ip in enumerate(ips): members.append({'_id': offset + i, ...})];
    [create_mongo_config] runs it with [offset = 0]. *)
Fixpoint enumerate_members (offset : Z) (ips : list string) (mongo_port : Z) : list Member :=
  match ips with
  | [] => []
  | ip :: rest => new_member offset ip mongo_port :: enumerate_members (offset + 1) rest mongo_port
  end.

Definition create_mongo_config (tasks_ips : list string) (replicaset_name : string)
    (mongo_port : Z) : Config :=
  let members := enumerate_members 0 tasks_ips mongo_port in
  {| cfg_id := replicaset_name;
     cfg_members := members;
     cfg_version := 1;
     cfg_rest := [] |}.

(** [max([m['_id'] for m in members])] on a non-empty list. *)
Fixpoint max_list (d : Z) (l : list Z) : Z :=
  match l with
  | [] => d
  | x :: r => max_list (Z.max d x) r
  end.

Definition max_member_id (members : list Member) : option Z :=
  match members with
  | [] => None
  | m :: rest => Some (max_list (member_id m) (member_id <$> rest))
  end.

(** ** Exceptions, results and the environment *)

(** The exception classes the controller distinguishes.  [ServerSelectionTimeoutError]
    and [OperationFailure] are subclasses of [PyMongoError]; [OperationFailure]
    carries its [code] attribute and its rendering [str(of)].  [PyMongoError]
    stands for every other exception of the driver: the [NetworkTimeout] that
    a command raises when [socketTimeoutMS] passes, and the [AutoReconnect]
    of a connection that is reset, are of this kind.  [KeyError] carries the
    key that a dict of the Docker API does not have. *)
Inductive Exn : Type :=
| ServerSelectionTimeoutError (msg : string)
| OperationFailure (code : option Z) (str : string)
| PyMongoError (msg : string)
| AssertionError
| IndexError
| RuntimeError (msg : string)
| KeyError (key : string)
| OtherException (msg : string).

Inductive Res (A : Type) : Type :=
| Ok (a : A)
| Raise (e : Exn).
Arguments Ok {A} a.
Arguments Raise {A} e.

Definition is_ServerSelectionTimeoutError (e : Exn) : bool :=
  match e with ServerSelectionTimeoutError _ => true | _ => false end.

Definition is_OperationFailure (e : Exn) : bool :=
  match e with OperationFailure _ _ => true | _ => false end.

Definition is_PyMongoError (e : Exn) : bool :=
  match e with
  | ServerSelectionTimeoutError _ | OperationFailure _ _ | PyMongoError _ => true
  | _ => false
  end.

(** [except Exception] *)
Definition is_Exception (e : Exn) : bool := true.

(** [needle in s] on strings. *)
Definition contains (needle s : string) : bool :=
  match String.index 0 needle s with Some _ => true | None => false end.

(** The answer of the [hello] command, as far as the controller reads it:
    [topo.get('isWritablePrimary', False)], [topo.get('setName')] and
    [topo["primary"]] when the key is there. *)
Record Topology : Type := mkTopology {
  isWritablePrimary : bool;
  setName : option string;
  primary : option string
}.

(** Docker objects, with the attributes the controller reads. *)
Record NetworkAttachment : Type := mkNetworkAttachment {
  net_name : string;              (* n['Network']['Spec']['Name'] *)
  net_addresses : list string     (* n['Addresses'] *)
}.

Record Task : Type := mkTask {
  task_id : string;               (* t['ID'] *)
  task_node_id : option string;   (* t['NodeID']; the key is missing until
                                     the task is assigned to a node *)
  task_state : string;            (* t['Status']['State'] *)
  task_networks : list NetworkAttachment  (* t['NetworksAttachments'] *)
}.

Record Node : Type := mkNode {
  node_id : string;               (* node.id *)
  node_availability : string;     (* node.attrs['Spec']['Availability'] *)
  node_state : string             (* node.attrs['Status']['State'] *)
}.

(** [mongo_service.attrs['Spec']['Mode']]: a dict with one key. *)
Inductive ServiceMode : Type :=
| Replicated (replicas : Z)
| Global
| OtherMode (key : string).

Record Service : Type := mkService {
  svc_name : string;
  svc_mode : ServiceMode
}.

Record Container : Type := mkContainer {
  container_id : string;
  container_name : string
}.

(** The two commands the controller runs with [mongosh] inside a container. *)
Inductive ShellCommand : Type :=
| RsInitiate (config : Config)
| CreateRootUser (user pwd : string).

Record ExecResult : Type := mkExecResult {
  exit_code : Z;
  output : string
}.

(** One event per call that leaves the process, with the answer it received. *)
Inductive Event : Type :=
| EvSleep (seconds : Z)
| EvHello (host : string) (answer : Res Topology)
| EvGetConfig (host : string) (answer : Res Config)
| EvReconfig (host : string) (config : Config) (force : bool) (answer : Res unit)
| EvServices (answer : list Service)
| EvTasks (service : string) (desired_state : option string) (answer : list Task)
| EvNodes (answer : list Node)
| EvContainers (answer : list Container)
| EvExec (container : string) (cmd : ShellCommand) (answer : ExecResult).

Definition History : Type := list Event.

(** The world outside the process: each answer may depend on everything that
    happened before. *)
Record Env : Type := mkEnv {
  env_hello : History → string → Res Topology;
  env_get_config : History → string → Res Config;
  env_reconfig : History → string → Config → bool → Res unit;
  env_services : History → list Service;
  env_tasks : History → string → option string → list Task;
  env_nodes : History → list Node;
  env_containers : History → list Container;
  env_exec : History → string → ShellCommand → ExecResult
}.

(** ** The monad of the controller

    A computation reads the history of the run so far and yields its result
    together with the events it adds to the history, oldest first. *)

Definition M (A : Type) : Type := History → Res A * list Event.

Definition ret {A} (a : A) : M A := λ h, (Ok a, []).

Definition raise {A} (e : Exn) : M A := λ h, (Raise e, []).

Definition bind {A B} (m : M A) (k : A → M B) : M B :=
  λ h, match m h with
       | (Ok a, evs) => let '(r, evs') := k a (h ++ evs) in (r, evs ++ evs')
       | (Raise e, evs) => (Raise e, evs)
       end.

(** [try: body / except <classes>: handler]; an exception outside [classes]
    goes on. *)
Definition try_except {A} (body : M A) (classes : Exn → bool) (handler : Exn → M A) : M A :=
  λ h, match body h with
       | (Ok a, evs) => (Ok a, evs)
       | (Raise e, evs) =>
           if classes e
           then let '(r, evs') := handler e (h ++ evs) in (r, evs ++ evs')
           else (Raise e, evs)
       end.

(** A value or exception computed without leaving the process. *)
Definition lift {A} (r : Res A) : M A := λ h, (r, []).

Declare Scope ctrl_scope.
Delimit Scope ctrl_scope with ctrl.
Notation "x <- m ;; k" := (bind m (λ x, k))
  (at level 100, m at next level, right associativity) : ctrl_scope.
Notation "'let*' p := m 'in' k" := (bind m (λ p, k))
  (at level 10, p pattern, m at level 100, k at level 200) : ctrl_scope.
Open Scope ctrl_scope.

(** ** The controller *)

Section Controller.

(** The environment the controller runs in. *)
Variable E : Env.

(** The iteration order of Python sets. *)
Variable set_iter : gset string → list string.

(** *** Calls that leave the process *)

Definition sleep (seconds : Z) : M unit :=
  λ h, (Ok tt, [EvSleep seconds]).

(** [mc.admin.command('hello')] on a direct connection to [host]. *)
Definition hello (host : string) : M Topology :=
  λ h, let a := env_hello E h host in (a, [EvHello host a]).

(** [mc.admin.command("replSetGetConfig")['config']], authenticated. *)
Definition replSetGetConfig (host : string) : M Config :=
  λ h, let a := env_get_config E h host in (a, [EvGetConfig host a]).

(** [cli.admin.command("replSetReconfig", config, force=force)] *)
Definition replSetReconfig (host : string) (config : Config) (force : bool) : M unit :=
  λ h, let a := env_reconfig E h host config force in
       (a, [EvReconfig host config force a]).

(** [dc.services.list()] *)
Definition services_list : M (list Service) :=
  λ h, let a := env_services E h in (Ok a, [EvServices a]).

(** [mongo_service.tasks(filters=...)] *)
Definition service_tasks (svc : Service) (desired_state : option string) : M (list Task) :=
  λ h, let a := env_tasks E h (svc_name svc) desired_state in
       (Ok a, [EvTasks (svc_name svc) desired_state a]).

(** [dc.nodes.list()] *)
Definition nodes_list : M (list Node) :=
  λ h, let a := env_nodes E h in (Ok a, [EvNodes a]).

(** [dc.containers.list()] *)
Definition containers_list : M (list Container) :=
  λ h, let a := env_containers E h in (Ok a, [EvContainers a]).

(** [container.exec_run("mongosh --quiet --eval ...")] *)
Definition exec_run (container : string) (cmd : ShellCommand) : M ExecResult :=
  λ h, let a := env_exec E h container cmd in (Ok a, [EvExec container cmd a]).

(** *** ConfigBuilder: mutation of an existing configuration *)

(** Lines 794-813 of [update_config]: the configuration read from the
    database is changed in place. *)
Definition mutate_config (config : Config) (to_remove to_add : gset string)
    (mongo_port : Z) : Config :=
  (* if to_remove: config['members'] = [m for m in ... if ip not in to_remove] *)
  let members1 :=
    if decide (to_remove = ∅) then cfg_members config
    else filter (λ m, host_ip m ∉ to_remove) (cfg_members config) in
  (* if to_add: offset = max(ids) + 1 if config['members'] else 0; append *)
  let members2 :=
    if decide (to_add = ∅) then members1
    else
      let offset := match max_member_id members1 with
                    | Some mx => mx + 1
                    | None => 0
                    end in
      members1 ++ enumerate_members offset (set_iter to_add) mongo_port in
  (* config['version'] += 1 *)
  {| cfg_id := cfg_id config;
     cfg_members := members2;
     cfg_version := cfg_version config + 1;
     cfg_rest := cfg_rest config |}.

(** *** NodeProbe *)

(** [getattr(of, 'code', None) == 94 or 'NotYetInitialized' in str(of)] *)
Definition is_not_yet_initialized (e : Exn) : bool :=
  match e with
  | OperationFailure code str =>
      bool_decide (code = Some 94) || contains "NotYetInitialized" str
  | _ => false
  end.

(** What one pass through the body of [for t in mongo_tasks_ips] does to the
    loop: leave it with the configuration found, or go on to the next ip with
    the counter incremented or not. *)
Inductive ProbeStep : Type :=
| ConfigFound (current_ips : gset string)
| NotYetInitializedSeen
| Disregarded.

(** The inner loop of [gather_configured_members_ips]; its result is
    [(config_found, not_yet_initialized_count, current_ips)]. *)
Fixpoint probe_tasks (ips : list string) (not_yet_initialized_count : nat)
    (current_ips : gset string) : M (bool * nat * gset string) :=
  match ips with
  | [] => ret (false, not_yet_initialized_count, current_ips)
  | t :: rest =>
      step <- try_except
               (config <- replSetGetConfig t ;;
                ret (ConfigFound (current_ips ∪ list_to_set (host_ip <$> cfg_members config))))
               (λ e, is_ServerSelectionTimeoutError e || is_OperationFailure e)
               (λ e, ret (if is_not_yet_initialized e
                          then NotYetInitializedSeen else Disregarded)) ;;
      match step with
      | ConfigFound ips' => ret (true, not_yet_initialized_count, ips')
      | NotYetInitializedSeen => probe_tasks rest (S not_yet_initialized_count) current_ips
      | Disregarded => probe_tasks rest not_yet_initialized_count current_ips
      end
  end.

(** The outer loop, [for attempt in range(max_retries)], over the attempts
    still to run; [st] is the loop state before the iteration. *)
Fixpoint gather_attempts (attempts : list nat) (max_retries : nat) (retry_delay : Z)
    (mongo_tasks_ips : list string) (st : bool * nat * gset string)
    : M (bool * nat * gset string) :=
  match attempts with
  | [] => ret st
  | attempt :: later =>
      let* (config_found, not_yet_initialized_count, current_ips) :=
         probe_tasks mongo_tasks_ips 0 ∅ in
      let st' := (config_found, not_yet_initialized_count, current_ips) in
      if config_found then ret st'
      else if bool_decide (not_yet_initialized_count = length mongo_tasks_ips)
              && bool_decide (attempt < max_retries - 1)%nat
      then _ <- sleep retry_delay ;; gather_attempts later max_retries retry_delay mongo_tasks_ips st'
      else ret st'
  end.

Definition gather_configured_members_ips (mongo_tasks_ips : list string) : M (gset string) :=
  let max_retries := 3%nat in
  let retry_delay := 10 in
  let* (config_found, not_yet_initialized_count, current_ips) :=
     gather_attempts (seq 0 max_retries) max_retries retry_delay mongo_tasks_ips (false, 0%nat, ∅) in
  ret current_ips.

(** [get_primary_ip]: the first ip, in the order given, whose [hello] says
    [isWritablePrimary]; every exception of a probe is caught. *)
Fixpoint get_primary_ip (tasks_ips : list string) : M (option string) :=
  match tasks_ips with
  | [] => ret None
  | t :: rest =>
      is_writable <- try_except
                      (topo <- hello t ;; ret (isWritablePrimary topo))
                      is_Exception
                      (λ _, ret false) ;;
      if is_writable then ret (Some t) else get_primary_ip rest
  end.

(** *** Reconfigurer: [update_config] *)

(** [for t in new_ips: ... if topo.get('setName') is not None:
    all_nodes_uninitialized = False; break] *)
Fixpoint all_nodes_uninitialized (ips : list string) : M bool :=
  match ips with
  | [] => ret true
  | t :: rest =>
      has_set_name <- try_except
                       (topo <- hello t ;; ret (bool_decide (setName topo ≠ None)))
                       is_Exception
                       (λ _, ret false) ;;
      if has_set_name then ret false else all_nodes_uninitialized rest
  end.

(** Truth value of [primary_ip]: [None] and the empty string are false. *)
Definition truthy (primary_ip : option string) : bool :=
  match primary_ip with
  | None => false
  | Some s => negb (bool_decide (s = ""))
  end.

(** [while attempts and not primary_ip: time.sleep(10); primary_ip =
    get_primary_ip(list(new_ips), ...); attempts -= 1] *)
Fixpoint wait_for_primary (attempts : nat) (primary_ip : option string)
    (new_ips : gset string) : M (option string) :=
  match attempts with
  | O => ret primary_ip
  | S attempts' =>
      if truthy primary_ip then ret primary_ip
      else
        _ <- sleep 10 ;;
        primary_ip' <- get_primary_ip (set_iter new_ips) ;;
        wait_for_primary attempts' primary_ip' new_ips
  end.

(** The body of [if primary_ip in to_remove or primary_ip is None:], after
    [force = True]: the ip the reconfiguration will be sent to. *)
Definition choose_new_primary (new_ips to_add : gset string) : M string :=
  uninitialized <- all_nodes_uninitialized (set_iter new_ips) ;;
  primary_ip <-
    (if uninitialized && bool_decide (0 < size new_ips)%nat
     then ret None
     else wait_for_primary 6 None new_ips) ;;
  match primary_ip with
  | Some p => ret p
  | None =>
      (* old_members[0] if old_members else list(new_ips)[0] *)
      match set_iter (new_ips ∖ to_add) with
      | old :: _ => ret old
      | [] => match set_iter new_ips with
              | first :: _ => ret first
              | [] => raise IndexError
              end
      end
  end.

(** [attempts = 3; while attempts: try: replSetReconfig; break
    except OperationFailure: attempts -= 1; time.sleep(5)] *)
Fixpoint reconfig_with_retry (attempts : nat) (host : string) (config : Config)
    (force : bool) : M unit :=
  match attempts with
  | O => ret tt
  | S attempts' =>
      applied <- try_except
                  (_ <- replSetReconfig host config force ;; ret true)
                  is_OperationFailure
                  (λ _, _ <- sleep 5 ;; ret false) ;;
      if applied then ret tt else reconfig_with_retry attempts' host config force
  end.

Definition update_config (primary_ip : option string) (current_ips new_ips : gset string)
    (mongo_port : Z) : M unit :=
  let to_remove := current_ips ∖ new_ips in
  let to_add := new_ips ∖ current_ips in
  (* if not (to_remove or to_add) and current_ips: force = True
     else: assert to_remove or to_add; force = False *)
  force <-
    (if bool_decide (to_remove = ∅ ∧ to_add = ∅) && bool_decide (current_ips ≠ ∅)
     then ret true
     else if bool_decide (to_remove ≠ ∅ ∨ to_add ≠ ∅) then ret false
     else raise AssertionError) ;;
  (* force = len(to_remove) > 1 or len(to_add) > 1 *)
  let force := bool_decide (1 < size to_remove)%nat || bool_decide (1 < size to_add)%nat in
  let* (force, target) :=
    (match primary_ip with
     | Some p =>
         if bool_decide (p ∈ to_remove)
         then (p' <- choose_new_primary new_ips to_add ;; ret (true, p'))
         else ret (force, p)
     | None => p' <- choose_new_primary new_ips to_add ;; ret (true, p')
     end) in
  try_except
    (config <- replSetGetConfig target ;;
     let config := mutate_config config to_remove to_add mongo_port in
     reconfig_with_retry 3 target config force)
    is_Exception
    (λ _, ret tt).

(** *** OrchestratorView *)

(** [get_running_tasks(mongo_service, desired_state="running")] *)
Definition get_running_tasks (mongo_service : Service) : M (list Task) :=
  let desired_state := "running" in
  tasks <- service_tasks mongo_service (Some desired_state) ;;
  ret (filter (λ t, task_state t = desired_state) tasks).

(** The inner loop of [get_tasks_ips] over the attachments of one task;
    [n['Addresses'][0]] raises [IndexError] on an empty list.  The keys
    ['NetworksAttachments'] of a task and ['Addresses'] of an attachment are
    taken to be there. *)
Fixpoint attachment_ips (attachments : list NetworkAttachment)
    (overlay_network_name : string) : Res (list string) :=
  match attachments with
  | [] => Ok []
  | n :: rest =>
      if decide (net_name n = overlay_network_name)
      then match net_addresses n with
           | [] => Raise IndexError
           | address :: _ =>
               match attachment_ips rest overlay_network_name with
               | Ok ips => Ok (split_head "/"%char address :: ips)
               | Raise e => Raise e
               end
           end
      else attachment_ips rest overlay_network_name
  end.

Fixpoint get_tasks_ips (tasks : list Task) (overlay_network_name : string)
    : Res (list string) :=
  match tasks with
  | [] => Ok []
  | t :: rest =>
      match attachment_ips (task_networks t) overlay_network_name with
      | Ok here =>
          match get_tasks_ips rest overlay_network_name with
          | Ok there => Ok (here ++ there)
          | Raise e => Raise e
          end
      | Raise e => Raise e
      end
  end.

(** [for task in service_tasks: node_id = task['NodeID'];
    assigned_nodes.add(node_id)]: the first task without the key ['NodeID']
    raises [KeyError]. *)
Fixpoint assigned_node_ids (service_tasks' : list Task) : Res (gset string) :=
  match service_tasks' with
  | [] => Ok ∅
  | task :: rest =>
      match task_node_id task with
      | None => Raise (KeyError "NodeID")
      | Some node_id =>
          match assigned_node_ids rest with
          | Ok assigned_nodes => Ok ({[node_id]} ∪ assigned_nodes)
          | Raise e => Raise e
          end
      end
  end.

Definition get_assigned_nodes (mongo_service : Service) : M (gset string) :=
  service_tasks' <- service_tasks mongo_service None ;;
  lift (assigned_node_ids service_tasks').

(** The set comprehension of [is_service_up] over [dc.nodes.list()]. *)
Definition active_nodes_of (nodes : list Node) : gset string :=
  list_to_set (node_id <$>
    filter (λ node, node_availability node = "active" ∧ node_state node ≠ "down") nodes).

Definition is_service_up (mongo_service : option Service) : M bool :=
  match mongo_service with
  | None => ret false
  | Some svc =>
      running_tasks <- get_running_tasks svc ;;
      let running_tasks_count := length running_tasks in
      assigned_nodes <- get_assigned_nodes svc ;;
      nodes <- nodes_list ;;
      let active_nodes := active_nodes_of nodes in
      let assigned_active_nodes := active_nodes ∩ assigned_nodes in
      match svc_mode svc with
      | Replicated replicas =>
          ret (bool_decide (Z.of_nat running_tasks_count = replicas))
      | Global =>
          ret (bool_decide (running_tasks_count = size assigned_active_nodes))
      | OtherMode _ => ret false
      end
  end.

Definition get_mongo_service (mongo_service_name : string) : M Service :=
  services <- services_list ;;
  let mongo_services := filter (λ s, svc_name s = mongo_service_name) services in
  if bool_decide (1 < length mongo_services)%nat
  then raise (RuntimeError "Unexpected: multiple docker services with the name found")
  else match mongo_services with
       | [] => raise (RuntimeError "Error: Could not find mongo service")
       | svc :: _ => ret svc
       end.

(** *** Process entry point: the start-up wait *)

(** [while service_down and attempts > 0: time.sleep(10); mongo_service =
    get_mongo_service(...); service_down = not is_service_up(mongo_service);
    attempts -= 1]; the result is the state of the three variables after the
    loop. *)
Fixpoint wait_for_service (attempts : nat) (mongo_service_name : string)
    (mongo_service : option Service) (service_down : bool)
    : M (nat * option Service * bool) :=
  match attempts with
  | O => ret (O, mongo_service, service_down)
  | S attempts' =>
      if service_down then
        _ <- sleep 10 ;;
        svc <- get_mongo_service mongo_service_name ;;
        up <- is_service_up (Some svc) ;;
        wait_for_service attempts' mongo_service_name (Some svc) (negb up)
      else ret (attempts, mongo_service, service_down)
  end.

(** How the [__main__] block leaves the start-up wait: [sys.exit(code)], or
    the call [manage_replica(mongo_service, **envs)]. *)
Inductive Startup : Type :=
| Exit (code : Z)
| ManageReplica (mongo_service : Service).

Definition startup (mongo_service_name : string) : M Startup :=
  let* (attempts, mongo_service, service_down) :=
    wait_for_service 40 mongo_service_name None true in
  (* if attempts <= 0 or not mongo_service: sys.exit(1) *)
  match mongo_service with
  | None => ret (Exit 1)
  | Some svc =>
      if bool_decide (attempts ≤ 0)%nat then ret (Exit 1)
      else ret (ManageReplica svc)
  end.

(** *** Initiator *)

(** [str(e)] *)
Definition exn_str (e : Exn) : string :=
  match e with
  | ServerSelectionTimeoutError msg => msg
  | OperationFailure _ str => str
  | PyMongoError msg => msg
  | AssertionError => ""
  | IndexError => "list index out of range"
  | RuntimeError msg => msg
  | KeyError key => "'" +:+ key +:+ "'"
  | OtherException msg => msg
  end.

(** [next((c for c in dc.containers.list()
          if c.name.split('.')[0] == mongo_service_name), None)] *)
Definition first_container (mongo_service_name : string) : M (option Container) :=
  containers <- containers_list ;;
  ret (head (filter (λ c, split_head "."%char (container_name c) = mongo_service_name)
                    containers)).

(** [reconfigure_replica_set]: one forced [replSetReconfig] on [primary_ip];
    an [OperationFailure] is logged and dropped. *)
Definition reconfigure_replica_set (primary_ip : string) (config : Config) : M unit :=
  try_except
    (replSetReconfig primary_ip config true)
    is_OperationFailure
    (λ _, ret tt).

(** [create_mongodb_root_user]: the command runs in the container with the
    given id; every outcome is only logged. *)
Definition create_mongodb_root_user (containerId : string)
    (mongo_root_username mongo_root_password : string) : M unit :=
  try_except
    (_ <- exec_run containerId (CreateRootUser mongo_root_username mongo_root_password) ;;
     ret tt)
    is_Exception
    (λ _, ret tt).

(** [primaryIp] of [initialize_mongodb_admin]: set when the key ["primary"]
    is in the topology with a non-empty value. *)
Definition topology_primary_ip (topo : Topology) : option string :=
  match primary topo with
  | Some p => if bool_decide (p = "") then None else Some (split_head ":"%char p)
  | None => None
  end.

(** [for attempt in range(retry_attempts)] of [initialize_mongodb_admin]. *)
Fixpoint initialize_mongodb_admin_attempts (attempts : nat) (primary_ip : string)
    (mongo_root_username mongo_root_password mongo_service_name : string) : M unit :=
  match attempts with
  | O => ret tt
  | S attempts' =>
      created <- try_except
                   (_ <- sleep 10 ;;
                    replicaSetTopology <- hello primary_ip ;;
                    let primaryIp := topology_primary_ip replicaSetTopology in
                    if truthy primaryIp then
                      primary_container <- first_container mongo_service_name ;;
                      match primary_container with
                      | Some c =>
                          _ <- create_mongodb_root_user (container_id c)
                                 mongo_root_username mongo_root_password ;;
                          ret true
                      | None => ret false
                      end
                    else ret false)
                   is_Exception
                   (λ _, ret false) ;;
      if created then ret tt
      else initialize_mongodb_admin_attempts attempts' primary_ip
             mongo_root_username mongo_root_password mongo_service_name
  end.

Definition initialize_mongodb_admin (primary_ip : string)
    (mongo_root_username mongo_root_password mongo_service_name : string) : M unit :=
  let retry_attempts := 8%nat in
  initialize_mongodb_admin_attempts retry_attempts primary_ip
    mongo_root_username mongo_root_password mongo_service_name.

(** The first loop of [init_replica]: [true] when it is left by [break]. *)
Fixpoint wait_for_tasks (attempts : nat) (retry_delay : Z) (mongo_tasks : list Task)
    (mongo_tasks_ips : list string) : M bool :=
  match attempts with
  | O => ret false
  | S attempts' =>
      if bool_decide (mongo_tasks = [] ∨ mongo_tasks_ips = [])
      then _ <- sleep retry_delay ;;
           wait_for_tasks attempts' retry_delay mongo_tasks mongo_tasks_ips
      else ret true
  end.

(** How the [try] statement of [init_replica] is left. *)
Inductive InitStep : Type :=
| Returned
| FallThrough.

(** [init_replica]; [mongo_tasks_ips] is the sequence of ips in the order in
    which the argument is iterated ([manage_replica] passes a set), and
    [mongo_service_name] is the global variable of that name.  The loop that
    logs the tasks and the decoding of the output of [mongosh] are left
    out. *)
Definition init_replica (mongo_service_name : string) (mongo_tasks : list Task)
    (mongo_tasks_ips : list string) (replicaset_name : string) (mongo_port : Z)
    (mongo_root_username mongo_root_password : string) : M unit :=
  let retry_attempts := 6%nat in
  let retry_delay := 10 in
  found <- wait_for_tasks retry_attempts retry_delay mongo_tasks mongo_tasks_ips ;;
  if negb found then ret tt
  else
    let config := create_mongo_config mongo_tasks_ips replicaset_name mongo_port in
    (* primary_ip = list(mongo_tasks_ips)[0] *)
    match mongo_tasks_ips with
    | [] => raise IndexError
    | primary_ip :: _ =>
        _ <- sleep 15 ;;
        step <- try_except
                  (all_containers <- containers_list ;;
                   mongoContainer <- first_container mongo_service_name ;;
                   match mongoContainer with
                   | None => ret Returned
                   | Some c =>
                       clusterCreateExecRes <- exec_run (container_id c) (RsInitiate config) ;;
                       if bool_decide (exit_code clusterCreateExecRes ≠ 0)
                       then raise (PyMongoError (output clusterCreateExecRes))
                       else ret FallThrough
                   end)
                  is_PyMongoError
                  (λ e,
                     let error_message := exn_str e in
                     if contains "replSetInitiate requires authentication" error_message
                     then _ <- reconfigure_replica_set primary_ip config ;;
                          ret Returned
                     else ret FallThrough) ;;
        match step with
        | Returned => ret tt
        | FallThrough =>
            initialize_mongodb_admin primary_ip
              mongo_root_username mongo_root_password mongo_service_name
        end
    end.

(** *** Reconciler: one iteration of the watch loop of [manage_replica]

    The loop state is [(current_member_ips, primary_ip)]. *)
Definition watch_iteration (mongo_service : Service) (overlay_network_name : string)
    (mongo_port : Z) (current_member_ips : gset string) (primary_ip : option string)
    : M (gset string * option string) :=
  _ <- sleep 10 ;;
  tasks <- get_running_tasks mongo_service ;;
  ips <- lift (get_tasks_ips tasks overlay_network_name) ;;
  let new_member_ips : gset string := list_to_set ips in
  _ <- (if bool_decide ((current_member_ips ∖ new_member_ips)
                        ∪ (new_member_ips ∖ current_member_ips) ≠ ∅)
        then update_config primary_ip current_member_ips new_member_ips mongo_port
        else ret tt) ;;
  let current_member_ips := new_member_ips in
  primary_ip <- get_primary_ip (set_iter new_member_ips) ;;
  ret (current_member_ips, primary_ip).

(** *** Sequences of mutations

    The configurations a replica set goes through when [update_config]
    mutates it again and again, each mutation starting from the result of
    the one before; a step is the pair [(to_remove, to_add)]. *)
Fixpoint mutations (config : Config) (steps : list (gset string * gset string))
    (mongo_port : Z) : list Config :=
  match steps with
  | [] => [config]
  | (to_remove, to_add) :: later =>
      config :: mutations (mutate_config config to_remove to_add mongo_port) later mongo_port
  end.

End Controller.

(** ** Notions used in the statements *)

(** Along a sequence of configurations, the id of a member whose host has
    since been removed is never the id of a member with a different host. *)
Definition never_reused (trace : list Config) : Prop :=
  ∀ (i j : nat) ci cj m m',
    (i < j)%nat → trace !! i = Some ci → trace !! j = Some cj →
    m ∈ cfg_members ci →
    (∀ m'', m'' ∈ cfg_members cj → member_host m'' ≠ member_host m) →
    m' ∈ cfg_members cj →
    member_id m' ≠ member_id m.

(** Every event a computation emits satisfies [P], and every value it
    returns satisfies [Q], whatever the history it starts from. *)
Definition emits {A} (m : M A) (P : Event → Prop) (Q : A → Prop) : Prop :=
  ∀ h, (∀ ev, ev ∈ (m h).2 → P ev) ∧ (∀ a, (m h).1 = Ok a → Q a).

(** The calls by which the controller only looks at the members or waits. *)
Definition is_probe (ev : Event) : Prop :=
  match ev with
  | EvSleep _ | EvHello _ _ => True
  | _ => False
  end.

(** The value of [force] with which [update_config] reconfigures. *)
Definition expected_force (primary_ip : option string) (to_remove to_add : gset string)
    : bool :=
  bool_decide (1 < size to_remove)%nat
  || bool_decide (1 < size to_add)%nat
  || match primary_ip with
     | Some p => bool_decide (p ∈ to_remove)
     | None => true
     end.

(** The ips among which [update_config] picks the one it connects to when
    the primary it was given is gone or unknown: the new ips in the order in
    which they are probed, and the heads of the two lists the code falls back
    on.  (Which of them it picks is [chosen_target], below.) *)
Definition target_candidate (set_iter : gset string → list string)
    (new_ips to_add : gset string) (p : string) : Prop :=
  p ∈ set_iter new_ips
  ∨ head (set_iter (new_ips ∖ to_add)) = Some p
  ∨ (set_iter (new_ips ∖ to_add) = [] ∧ head (set_iter new_ips) = Some p).

(** The primary handed to [update_config] is unknown or about to be removed. *)
Definition primary_gone (primary_ip : option string) (to_remove : gset string) : Prop :=
  primary_ip = None ∨ ∃ p, primary_ip = Some p ∧ p ∈ to_remove.

(** The answers the [replSetReconfig] commands of a run received, in order. *)
Fixpoint reconfig_answers (evs : list Event) : list (Res unit) :=
  match evs with
  | [] => []
  | EvReconfig _ _ _ answer :: rest => answer :: reconfig_answers rest
  | _ :: rest => reconfig_answers rest
  end.







(** ** Scenarios

    A replica set [rs0] on port 27017 whose configuration lists the members
    [10.0.0.5], [10.0.0.6] and [10.0.0.7] with ids 0, 1 and 2, one task per
    node on the overlay network [mongo_net]. *)

Definition rs0_config : Config :=
  create_mongo_config ["10.0.0.5"; "10.0.0.6"; "10.0.0.7"] "rs0" 27017.

Definition rs0_task (ip : string) : Task :=
  {| task_id := "task-" +:+ ip;
     task_node_id := Some ("node-" +:+ ip);
     task_state := "running";
     task_networks := [ {| net_name := "mongo_net"; net_addresses := [ip +:+ "/24"] |} ] |}.

Definition rs0_node (ip : string) : Node :=
  {| node_id := "node-" +:+ ip; node_availability := "active"; node_state := "ready" |}.

Definition mongo_global : Service := {| svc_name := "mongo"; svc_mode := Global |}.

(** The world in which the tasks [task_ips] run, the member [primary_host]
    (if any) is the writable primary, every running member returns
    [rs0_config], every other ip times out, and [replSetReconfig] always gets
    [reconfig_answer]. *)
Definition rs0_env (task_ips : list string) (primary_host : option string)
    (reconfig_answer : Res unit) : Env :=
  {| env_hello := λ h host,
       if bool_decide (host ∈ task_ips)
       then Ok {| isWritablePrimary := bool_decide (primary_host = Some host);
                  setName := Some "rs0";
                  primary := (λ p, p +:+ ":27017") <$> primary_host |}
       else Raise (ServerSelectionTimeoutError "No servers found yet");
     env_get_config := λ h host,
       if bool_decide (host ∈ task_ips) then Ok rs0_config
       else Raise (ServerSelectionTimeoutError "No servers found yet");
     env_reconfig := λ h host config force, reconfig_answer;
     env_services := λ h, [mongo_global];
     env_tasks := λ h service desired_state, rs0_task <$> task_ips;
     env_nodes := λ h, rs0_node <$> task_ips;
     env_containers := λ h, [];
     env_exec := λ h container cmd, {| exit_code := 0; output := "" |} |}.

Definition rs0_ips : gset string := {["10.0.0.5"; "10.0.0.6"; "10.0.0.7"]}.

Definition scaled_out_ips : gset string :=
  {["10.0.0.5"; "10.0.0.6"; "10.0.0.7"; "10.0.0.8"]}.

(** Scenario S3: the task [10.0.0.8] has joined, [10.0.0.5] is primary. *)
Definition scale_out_env : Env :=
  rs0_env ["10.0.0.5"; "10.0.0.6"; "10.0.0.7"; "10.0.0.8"] (Some "10.0.0.5") (Ok tt).

(** Scenario S4: only [10.0.0.7] is left and no member is primary. *)
Definition primary_lost_env : Env :=
  rs0_env ["10.0.0.7"] None (Ok tt).

(** Scenario S2: the stack was redeployed on new ips; the members kept their
    data, so the in-container [rs.initiate] is refused for lack of
    authentication. *)
Definition redeployed_env : Env :=
  {| env_hello := λ h host,
       Ok {| isWritablePrimary := false; setName := Some "rs0"; primary := None |};
     env_get_config := λ h host,
       Raise (OperationFailure (Some 18) "Authentication failed.");
     env_reconfig := λ h host config force, Ok tt;
     env_services := λ h, [mongo_global];
     env_tasks := λ h service desired_state,
       rs0_task <$> ["10.0.1.5"; "10.0.1.6"; "10.0.1.7"];
     env_nodes := λ h, rs0_node <$> ["10.0.1.5"; "10.0.1.6"; "10.0.1.7"];
     env_containers := λ h,
       [ {| container_id := "3f2a"; container_name := "mongo.node-1.k8x2" |} ];
     env_exec := λ h container cmd,
       {| exit_code := 1;
          output := "MongoServerError: command replSetInitiate requires authentication" |} |}.

(** Scenario S6: [10.0.0.5] has not loaded its configuration yet, the other
    two members return it. *)
Definition one_not_yet_initialized_env : Env :=
  {| env_hello := env_hello (rs0_env ["10.0.0.5"; "10.0.0.6"; "10.0.0.7"] None (Ok tt));
     env_get_config := λ h host,
       if bool_decide (host = "10.0.0.5")
       then Raise (OperationFailure (Some 94) "no replset config has been received")
       else Ok rs0_config;
     env_reconfig := λ h host config force, Ok tt;
     env_services := λ h, [mongo_global];
     env_tasks := λ h service desired_state,
       rs0_task <$> ["10.0.0.5"; "10.0.0.6"; "10.0.0.7"];
     env_nodes := λ h, rs0_node <$> ["10.0.0.5"; "10.0.0.6"; "10.0.0.7"];
     env_containers := λ h, [];
     env_exec := λ h container cmd, {| exit_code := 0; output := "" |} |}.

(** A fresh deployment: no member has a configuration. *)
Definition fresh_env : Env :=
  {| env_hello := λ h host,
       Ok {| isWritablePrimary := false; setName := None; primary := None |};
     env_get_config := λ h host,
       Raise (OperationFailure (Some 94) "no replset config has been received");
     env_reconfig := λ h host config force, Ok tt;
     env_services := λ h, [mongo_global];
     env_tasks := λ h service desired_state,
       rs0_task <$> ["10.0.0.5"; "10.0.0.6"; "10.0.0.7"];
     env_nodes := λ h, rs0_node <$> ["10.0.0.5"; "10.0.0.6"; "10.0.0.7"];
     env_containers := λ h, [];
     env_exec := λ h container cmd, {| exit_code := 0; output := "" |} |}.

(** As S3, but the database rejects every reconfiguration. *)
Definition rejecting_env : Env :=
  rs0_env ["10.0.0.5"; "10.0.0.6"; "10.0.0.7"; "10.0.0.8"] (Some "10.0.0.5")
    (Raise (OperationFailure (Some 103) "NewReplicaSetConfigurationIncompatible")).

(** The durations of the [time.sleep] calls of a history, in order, and
    their number. *)
Fixpoint sleep_durations (h : History) : list Z :=
  match h with
  | [] => []
  | EvSleep seconds :: rest => seconds :: sleep_durations rest
  | _ :: rest => sleep_durations rest
  end.

Definition sleeps (h : History) : nat := length (sleep_durations h).

(** A start-up in which the three tasks of the service are assigned to their
    nodes from the beginning but only reach the state [running] at the
    [ready_at]-th poll of the start-up wait. *)
Definition starting_env (ready_at : nat) : Env :=
  {| env_hello := λ h host, Raise (ServerSelectionTimeoutError "No servers found yet");
     env_get_config := λ h host, Raise (ServerSelectionTimeoutError "No servers found yet");
     env_reconfig := λ h host config force, Ok tt;
     env_services := λ h, [mongo_global];
     env_tasks := λ h service desired_state,
       (λ ip, {| task_id := "task-" +:+ ip;
                 task_node_id := Some ("node-" +:+ ip);
                 task_state := if bool_decide (ready_at ≤ sleeps h)%nat
                               then "running" else "starting";
                 task_networks := [] |})
       <$> ["10.0.0.5"; "10.0.0.6"; "10.0.0.7"];
     env_nodes := λ h, rs0_node <$> ["10.0.0.5"; "10.0.0.6"; "10.0.0.7"];
     env_containers := λ h, [];
     env_exec := λ h container cmd, {| exit_code := 0; output := "" |} |}.

(** Events other than a reconfiguration and an in-container [rs.initiate]. *)
Definition quiet (ev : Event) : Prop :=
  match ev with
  | EvReconfig _ _ _ _ => False
  | EvExec _ (RsInitiate _) _ => False
  | _ => True
  end.

(** The in-container initiation failed and its output says that
    authentication is required. *)
Definition initiate_needs_auth (res : ExecResult) : Prop :=
  exit_code res ≠ 0
  ∧ contains "replSetInitiate requires authentication" (output res) = true.

(** Membership of an event in the events of a concrete run. *)
Ltac in_events :=
  vm_compute;
  repeat first [apply list_elem_of_here | apply list_elem_of_further].

(** ** Further functions of the controller *)

Section Uninitialized.

Variable E : Env.

(** The loop of [is_replica_set_uninitialized] with its two counters; the
    result is [(uninitialized_count, reachable_count)]. *)
Fixpoint initialization_check (tasks_ips : list string)
    (uninitialized_count reachable_count : nat) : M (nat * nat) :=
  match tasks_ips with
  | [] => ret (uninitialized_count, reachable_count)
  | t :: rest =>
      (* [Some set_name] when [hello] answers, [None] when it raises *)
      reached <- try_except
                   (topo <- hello E t ;; ret (Some (setName topo)))
                   is_Exception
                   (λ _, ret None) ;;
      match reached with
      | Some None =>
          initialization_check rest (S uninitialized_count) (S reachable_count)
      | Some (Some _) =>
          initialization_check rest uninitialized_count (S reachable_count)
      | None => initialization_check rest uninitialized_count reachable_count
      end
  end.

Definition is_replica_set_uninitialized (tasks_ips : list string) : M bool :=
  (* if not tasks_ips: return True *)
  match tasks_ips with
  | [] => ret true
  | _ =>
      let* (uninitialized_count, reachable_count) :=
        initialization_check tasks_ips 0%nat 0%nat in
      ret (bool_decide (0 < reachable_count)%nat
           && bool_decide (uninitialized_count = reachable_count))
  end.

End Uninitialized.

(** ** Further notions used in the statements *)

(** [c in s] for a character. *)
Fixpoint has_char (c : ascii) (s : string) : bool :=
  match s with
  | EmptyString => false
  | String c' r => bool_decide (c' = c) || has_char c r
  end.

(** The topologies among the answers to [hello]: those of the nodes that
    were reached. *)
Fixpoint reached_topologies (answers : list (Res Topology)) : list Topology :=
  match answers with
  | [] => []
  | Ok topo :: rest => topo :: reached_topologies rest
  | Raise _ :: rest => reached_topologies rest
  end.

(** An answer to [hello] that does not make [get_primary_ip] stop: an
    exception, or a topology that is not the writable primary. *)
Definition not_writable (a : Res Topology) : Prop :=
  match a with
  | Ok topo => isWritablePrimary topo = false
  | Raise _ => True
  end.

(** The exceptions a computation can raise all satisfy [R]. *)
Definition raises_only {A} (m : M A) (R : Exn → Prop) : Prop :=
  ∀ h e, (m h).1 = Raise e → R e.

(** An answer to [replSetReconfig] that makes [update_config] try again. *)
Definition operation_failure (a : Res unit) : Prop :=
  match a with
  | Raise e => is_OperationFailure e = true
  | Ok _ => False
  end.

(** The events of the retry loop of [update_config] when its commands get the
    given answers: the same command each time, and a sleep of 5 seconds after
    each answer that is an operation failure. *)
Fixpoint retry_events (host : string) (config : Config) (force : bool)
    (answers : list (Res unit)) : list Event :=
  match answers with
  | [] => []
  | a :: rest =>
      EvReconfig host config force a
      :: match a with
         | Raise e => if is_OperationFailure e then [EvSleep 5] else []
         | Ok _ => []
         end
      ++ retry_events host config force rest
  end.

(** The attachments of the tasks to the named overlay network, in the order
    in which [get_tasks_ips] visits them. *)
Definition overlay_attachments (tasks : list Task) (overlay_network_name : string)
    : list NetworkAttachment :=
  filter (λ n, net_name n = overlay_network_name) (tasks ≫= task_networks).

(** [n['Addresses'][0].split('/')[0]] of an attachment that has an address. *)
Definition attachment_ip (n : NetworkAttachment) : string :=
  split_head "/"%char (default "" (head (net_addresses n))).

(** The services with the given name among those listed. *)
Definition services_named (name : string) (services : list Service) : list Service :=
  filter (λ s, svc_name s = name) services.

(** Events other than a command run inside a container. *)
Definition no_exec (ev : Event) : Prop :=
  match ev with
  | EvExec _ _ _ => False
  | _ => True
  end.

(** As S2, but the first new ip does not answer the forced reconfiguration
    in time. *)
Definition redeployed_unreachable_env : Env :=
  {| env_hello := env_hello redeployed_env;
     env_get_config := env_get_config redeployed_env;
     env_reconfig := λ h host config force,
       Raise (ServerSelectionTimeoutError "No servers found yet");
     env_services := env_services redeployed_env;
     env_tasks := env_tasks redeployed_env;
     env_nodes := env_nodes redeployed_env;
     env_containers := env_containers redeployed_env;
     env_exec := env_exec redeployed_env |}.

(** Events other than a sleep of more than the 5 seconds between two
    reconfiguration attempts. *)
Definition short_wait (ev : Event) : Prop :=
  match ev with
  | EvSleep seconds => seconds = 5
  | _ => True
  end.

(** An answer to [hello] from which [update_config] does not conclude that
    the node belongs to a replica set: an exception, or a topology without a
    set name. *)
Definition reports_no_set (a : Res Topology) : Prop :=
  match a with
  | Ok topo => setName topo = None
  | Raise _ => True
  end.

(** The replica set of S3 with [10.0.0.5] as primary, whose three tasks are
    gone from the second tick of the watch loop on. *)
Definition vanishing_env : Env :=
  {| env_hello := env_hello (rs0_env ["10.0.0.5"; "10.0.0.6"; "10.0.0.7"]
                               (Some "10.0.0.5") (Ok tt));
     env_get_config := λ h host, Ok rs0_config;
     env_reconfig := λ h host config force, Ok tt;
     env_services := λ h, [mongo_global];
     env_tasks := λ h service desired_state,
       if bool_decide (sleeps h ≤ 1)%nat
       then rs0_task <$> ["10.0.0.5"; "10.0.0.6"; "10.0.0.7"]
       else [];
     env_nodes := λ h, rs0_node <$> ["10.0.0.5"; "10.0.0.6"; "10.0.0.7"];
     env_containers := λ h, [];
     env_exec := λ h container cmd, {| exit_code := 0; output := "" |} |}.

(** As S3, while the task for the fourth node is still pending: it is not
    assigned to a node yet and has no ['NodeID']. *)
Definition pending_task_env : Env :=
  {| env_hello := env_hello scale_out_env;
     env_get_config := env_get_config scale_out_env;
     env_reconfig := env_reconfig scale_out_env;
     env_services := env_services scale_out_env;
     env_tasks := λ h service desired_state,
       (rs0_task <$> ["10.0.0.5"; "10.0.0.6"; "10.0.0.7"])
       ++ [ {| task_id := "task-10.0.0.8"; task_node_id := None;
               task_state := "pending"; task_networks := [] |} ];
     env_nodes := env_nodes scale_out_env;
     env_containers := env_containers scale_out_env;
     env_exec := env_exec scale_out_env |}.

(** A service of the same name deployed as a replicated job. *)
Definition mongo_job : Service :=
  {| svc_name := "mongo"; svc_mode := OtherMode "ReplicatedJob" |}.


(** A [hello] probe. *)
Definition hello_event (ev : Event) : Prop :=
  match ev with
  | EvHello _ _ => True
  | _ => False
  end.

(** The ip on which a wait for a primary ends: [get_primary_ip] stops at the
    first [hello] that answers as writable primary, so the wait found a
    primary exactly when its last event is such an answer. *)
Definition elected (wait : list Event) : option string :=
  match last wait with
  | Some (EvHello t (Ok topo)) => if isWritablePrimary topo then Some t else None
  | _ => None
  end.

(** [old_members[0] if old_members else list(new_ips)[0]], when there is one. *)
Definition fallback_target (set_iter : gset string → list string)
    (new_ips to_add : gset string) : option string :=
  match set_iter (new_ips ∖ to_add) with
  | old :: _ => Some old
  | [] => head (set_iter new_ips)
  end.

(** A [hello] probe that found no member of a replica set. *)
Definition unjoined (ev : Event) : Prop :=
  match ev with
  | EvHello _ a => reports_no_set a
  | _ => False
  end.

(** How [update_config] picks the ip [p] it connects to when the primary it
    was given is gone or unknown, read off the events [evs] of the call.  The
    call first probes new ips with [hello], without sleeping, to see whether
    any of them belongs to a replica set ([check]).  It skips the wait for a
    primary only if none does; otherwise it polls the new ips after sleeps of
    ten seconds ([wait]).  Then it reads the configuration from [p].  If the
    wait ended on an ip that answered as writable primary, [p] is that ip: it
    was re-elected.  Otherwise the wait was skipped or has used its six
    sleeps, and [p] is the first old member that is still there, or, when
    there is none, the first new ip. *)
Definition chosen_target (set_iter : gset string → list string) (evs : list Event)
    (new_ips to_add : gset string) (p : string) : Prop :=
  ∃ check wait a rest,
    evs = check ++ wait ++ EvGetConfig p a :: rest
    ∧ Forall hello_event check
    ∧ Forall is_probe wait
    ∧ ((wait = [] ∧ Forall unjoined check) ∨ ∃ polls, wait = EvSleep 10 :: polls)
    ∧ match elected wait with
      | Some t => p = t
      | None => (wait = [] ∨ sleep_durations wait = replicate 6 10)
                ∧ fallback_target set_iter new_ips to_add = Some p
      end.

(** Scenario S4 after an election: the primary [10.0.0.5] is gone, the
    members [10.0.0.6] and [10.0.0.7] are left, and [10.0.0.6] has been
    elected primary. *)
Definition reelected_env : Env :=
  rs0_env ["10.0.0.6"; "10.0.0.7"] (Some "10.0.0.6") (Ok tt).

(** An attempt of [initialize_mongodb_admin] that changes nothing: after
    the sleep of ten seconds, the [hello] sent to [primary_ip] raises or
    names no primary; or it names one, and the containers, listed next,
    include none whose name up to the first dot is the service name. *)
Definition admin_retry (primary_ip mongo_service_name : string) (attempt : list Event)
    : Prop :=
  (∃ a, attempt = [EvSleep 10; EvHello primary_ip a]
        ∧ match a with
          | Ok topo => truthy (topology_primary_ip topo) = false
          | Raise _ => True
          end)
  ∨ (∃ topo containers,
       attempt = [EvSleep 10; EvHello primary_ip (Ok topo); EvContainers containers]
       ∧ truthy (topology_primary_ip topo) = true
       ∧ head (filter (λ c, split_head "."%char (container_name c) = mongo_service_name)
                 containers) = None).

(** The attempt of [initialize_mongodb_admin] that creates the root user:
    the [hello] sent to [primary_ip] names a primary, and the command runs in
    the first container of the listing whose name up to the first dot is the
    service name. *)
Definition admin_creation (primary_ip mongo_service_name : string)
    (mongo_root_username mongo_root_password : string) (attempt : list Event) : Prop :=
  ∃ topo containers c res,
    attempt = [EvSleep 10; EvHello primary_ip (Ok topo); EvContainers containers;
               EvExec (container_id c)
                 (CreateRootUser mongo_root_username mongo_root_password) res]
    ∧ truthy (topology_primary_ip topo) = true
    ∧ head (filter (λ c, split_head "."%char (container_name c) = mongo_service_name)
              containers) = Some c.

(** Scenario S1 after the initiation: [10.0.0.5] is primary, and the
    containers of this node are one of another service and two of the
    database service. *)
Definition elected_env : Env :=
  {| env_hello := env_hello (rs0_env ["10.0.0.5"; "10.0.0.6"; "10.0.0.7"]
                               (Some "10.0.0.5") (Ok tt));
     env_get_config := λ h host, Ok rs0_config;
     env_reconfig := λ h host config force, Ok tt;
     env_services := λ h, [mongo_global];
     env_tasks := λ h service desired_state,
       rs0_task <$> ["10.0.0.5"; "10.0.0.6"; "10.0.0.7"];
     env_nodes := λ h, rs0_node <$> ["10.0.0.5"; "10.0.0.6"; "10.0.0.7"];
     env_containers := λ h,
       [ {| container_id := "77aa"; container_name := "other.1.x" |};
         {| container_id := "3f2a"; container_name := "mongo.node-1.k8x2" |};
         {| container_id := "9c1d"; container_name := "mongo.node-2.p3q4" |} ];
     env_exec := λ h container cmd, {| exit_code := 0; output := "" |} |}.

(** A task attached to the ingress network and, with two addresses, to the
    overlay network of the database. *)
Definition mixed_task : Task :=
  {| task_id := "task-10.0.0.9";
     task_node_id := Some "node-10.0.0.9";
     task_state := "running";
     task_networks :=
       [ {| net_name := "ingress"; net_addresses := ["10.255.0.9/16"] |};
         {| net_name := "mongo_net"; net_addresses := ["10.0.0.9/24"; "10.0.0.10/24"] |} ] |}.

(** * Properties *)

(** ** ConfigBuilder *)

Lemma enumerate_members_imap offset ips mongo_port :
  enumerate_members offset ips mongo_port
  = imap (λ i ip, new_member (offset + Z.of_nat i) ip mongo_port) ips.
Proof.
  revert offset. induction ips as [|ip ips IH]; intros offset; simpl; [done|].
  f_equal.
  - f_equal. lia.
  - rewrite IH. apply imap_ext. intros i x _. simpl. f_equal. lia.
Qed.

Lemma enumerate_members_ids offset ips mongo_port m :
  m ∈ enumerate_members offset ips mongo_port → offset ≤ member_id m.
Proof.
  revert offset. induction ips as [|ip ips IH]; intros offset; simpl.
  - by intros ?%elem_of_nil.
  - intros [->|Hin]%elem_of_cons; simpl; [lia|].
    apply IH in Hin. lia.
Qed.

Lemma enumerate_members_NoDup offset ips mongo_port :
  NoDup (member_id <$> enumerate_members offset ips mongo_port).
Proof.
  revert offset. induction ips as [|ip ips IH]; intros offset; simpl.
  - constructor.
  - constructor; [|apply IH].
    intros (m & Hid & Hin)%list_elem_of_fmap.
    apply enumerate_members_ids in Hin. lia.
Qed.

Lemma max_list_ge d l : d ≤ max_list d l ∧ ∀ x, x ∈ l → x ≤ max_list d l.
Proof.
  revert d. induction l as [|y l IH]; intros d; simpl.
  - split; [lia|]. by intros x ?%elem_of_nil.
  - destruct (IH (Z.max d y)) as [H1 H2]. split; [lia|].
    intros x [->|Hin]%elem_of_cons; [lia|by apply H2].
Qed.

Lemma max_list_in d l : max_list d l ∈ d :: l.
Proof.
  revert d. induction l as [|y l IH]; intros d; simpl.
  - apply elem_of_cons; by left.
  - specialize (IH (Z.max d y)).
    apply elem_of_cons in IH as [Heq|Hin].
    + rewrite Heq. destruct (Z.max_spec d y) as [[_ ->]|[_ ->]].
      * apply elem_of_cons; right. apply elem_of_cons; by left.
      * apply elem_of_cons; by left.
    + apply elem_of_cons; right. apply elem_of_cons; by right.
Qed.

Lemma max_member_id_Some members mx :
  max_member_id members = Some mx →
  (∃ m, m ∈ members ∧ member_id m = mx) ∧ (∀ m, m ∈ members → member_id m ≤ mx).
Proof.
  destruct members as [|m0 rest]; simpl; [done|].
  intros [= <-]. split.
  - pose proof (max_list_in (member_id m0) (member_id <$> rest)) as Hin.
    apply elem_of_cons in Hin as [Heq|Hin].
    + exists m0. split; [apply elem_of_cons; by left|done].
    + apply list_elem_of_fmap in Hin as (m & Hm & Hin).
      exists m. split; [apply elem_of_cons; by right|done].
  - destruct (max_list_ge (member_id m0) (member_id <$> rest)) as [H1 H2].
    intros m [->|Hin]%elem_of_cons; [done|].
    apply H2. apply list_elem_of_fmap. by exists m.
Qed.

Lemma filter_all {A} (P : A → Prop) `{!∀ x, Decision (P x)} (l : list A) :
  (∀ x, x ∈ l → P x) → filter P l = l.
Proof.
  induction l as [|x l IH]; intros Hall; [done|].
  rewrite filter_cons_True; [|apply Hall, elem_of_cons; by left].
  rewrite IH; [done|]. intros y Hy. apply Hall, elem_of_cons. by right.
Qed.

(** C5.  For every sequence of ips (in particular every non-empty one), set
    name and port, the configuration [create_mongo_config] builds carries the
    set name as its [_id], has version 1, and has exactly one member per ip,
    in the order given: the member at position [i] has [_id = i] and host
    ["ip:port"], and no other key. *)
Theorem create_mongo_config_sequential_ids
    (tasks_ips : list string) (replicaset_name : string) (mongo_port : Z) :
  let config := create_mongo_config tasks_ips replicaset_name mongo_port in
  cfg_id config = replicaset_name ∧
  cfg_version config = 1 ∧
  length (cfg_members config) = length tasks_ips ∧
  ∀ (i : nat) (ip : string),
    tasks_ips !! i = Some ip →
    cfg_members config !! i
    = Some {| member_id := Z.of_nat i;
              member_host := ip +:+ ":" +:+ pretty mongo_port;
              member_rest := [] |}.
Proof.
  simpl. repeat split.
  - rewrite enumerate_members_imap. by rewrite length_imap.
  - intros i ip Hi. rewrite enumerate_members_imap, list_lookup_imap, Hi. done.
Qed.

Section ConfigBuilder.

Variable set_iter : gset string → list string.
(** The shape of the member list after a mutation; no assumption on the
    iteration order is needed for it. *)
Lemma mutate_config_members config to_remove to_add mongo_port :
  let kept := filter (λ m, host_ip m ∉ to_remove) (cfg_members config) in
  cfg_members (mutate_config set_iter config to_remove to_add mongo_port)
  = kept ++ (if decide (to_add = ∅) then []
             else enumerate_members
                    (match max_member_id kept with Some mx => mx + 1 | None => 0 end)
                    (set_iter to_add) mongo_port).
Proof.
  unfold mutate_config; simpl.
  destruct (decide (to_remove = ∅)) as [->|Hrm].
  - rewrite (filter_all _ (cfg_members config)) by set_solver.
    destruct (decide (to_add = ∅)); [by rewrite app_nil_r|done].
  - destruct (decide (to_add = ∅)); [by rewrite app_nil_r|done].
Qed.

(** Member ids stay pairwise distinct under a mutation. *)
Lemma mutate_config_NoDup config to_remove to_add mongo_port :
  NoDup (member_id <$> cfg_members config) →
  NoDup (member_id <$>
         cfg_members (mutate_config set_iter config to_remove to_add mongo_port)).
Proof.
  intros Hnd. rewrite mutate_config_members. cbv zeta.
  set (kept := filter (λ m, host_ip m ∉ to_remove) (cfg_members config)).
  assert (Hkept : NoDup (member_id <$> kept)).
  { apply (sublist_NoDup _ (member_id <$> cfg_members config)); [exact Hnd|].
    apply fmap_sublist, sublist_filter. }
  destruct (decide (to_add = ∅)); [by rewrite app_nil_r|].
  rewrite fmap_app. apply NoDup_app. split; [done|]. split.
  - intros x (m & -> & Hin)%list_elem_of_fmap (m' & Heq & Hin')%list_elem_of_fmap.
    apply enumerate_members_ids in Hin'.
    destruct (max_member_id kept) as [mx|] eqn:Hmax.
    + apply max_member_id_Some in Hmax as [_ Hle]. specialize (Hle m Hin). lia.
    + destruct kept; [by apply elem_of_nil in Hin|discriminate].
  - apply enumerate_members_NoDup.
Qed.

Lemma mutations_NoDup config steps mongo_port c :
  NoDup (member_id <$> cfg_members config) →
  c ∈ mutations set_iter config steps mongo_port →
  NoDup (member_id <$> cfg_members c).
Proof.
  revert config. induction steps as [|[rm add] later IH]; intros config Hnd; simpl.
  - by intros ->%list_elem_of_singleton.
  - intros [->|Hin]%elem_of_cons; [done|].
    eapply IH; [|exact Hin]. by apply mutate_config_NoDup.
Qed.

Lemma mutations_step config steps mongo_port (i : nat) c c' to_remove to_add :
  mutations set_iter config steps mongo_port !! i = Some c →
  mutations set_iter config steps mongo_port !! S i = Some c' →
  steps !! i = Some (to_remove, to_add) →
  c' = mutate_config set_iter c to_remove to_add mongo_port.
Proof.
  revert config i. induction steps as [|[rm add] later IH]; intros config i; [done|].
  destruct i as [|i]; simpl.
  - intros [= <-] Hc' [= <- <-].
    destruct later as [|[??] ?]; simpl in Hc'; by injection Hc'.
  - intros Hc Hc' Hs. by eapply IH.
Qed.

(** C4, as amended.  Along every sequence of mutations that starts from a
    fresh configuration: the member ids of each configuration are pairwise
    distinct; a member whose host ip is not removed by a step is in the next
    configuration unchanged, so it keeps its id; and every member of the next
    configuration is such a survivor or has an id greater than the id of
    every survivor. *)
Theorem member_ids_distinct_and_stable
    (tasks_ips : list string) (replicaset_name : string) (mongo_port : Z)
    (steps : list (gset string * gset string)) :
  let trace := mutations set_iter
                 (create_mongo_config tasks_ips replicaset_name mongo_port)
                 steps mongo_port in
  (∀ c, c ∈ trace → NoDup (member_id <$> cfg_members c)) ∧
  (∀ (i : nat) c c' to_remove to_add,
     trace !! i = Some c → trace !! S i = Some c' →
     steps !! i = Some (to_remove, to_add) →
     (∀ m, m ∈ cfg_members c → host_ip m ∉ to_remove → m ∈ cfg_members c') ∧
     (∀ m', m' ∈ cfg_members c' →
        (m' ∈ cfg_members c ∧ host_ip m' ∉ to_remove) ∨
        (∀ m, m ∈ cfg_members c → host_ip m ∉ to_remove →
              member_id m < member_id m'))).
Proof.
  intros trace. split.
  - intros c Hc. eapply mutations_NoDup; [|exact Hc].
    simpl. apply enumerate_members_NoDup.
  - intros i c c' rm add Hc Hc' Hs.
    rewrite (mutations_step _ _ _ _ _ _ _ _ Hc Hc' Hs).
    rewrite mutate_config_members. cbv zeta.
    set (kept := filter (λ m, host_ip m ∉ rm) (cfg_members c)).
    split.
    + intros m Hin Hip. apply elem_of_app. left.
      apply list_elem_of_filter. by split.
    + intros m' [Hin|Hin]%elem_of_app.
      * left. by apply list_elem_of_filter in Hin as [? ?].
      * right. intros m Hm Hip.
        assert (Hk : m ∈ kept) by (apply list_elem_of_filter; by split).
        destruct (decide (add = ∅)); [by apply elem_of_nil in Hin|].
        apply enumerate_members_ids in Hin.
        destruct (max_member_id kept) as [mx|] eqn:Hmax.
        -- apply max_member_id_Some in Hmax as [_ Hle]. specialize (Hle m Hk). lia.
        -- destruct kept; [by apply elem_of_nil in Hk|discriminate].
Qed.

(** From here on the iteration order is assumed to enumerate each set. *)
Hypothesis set_iter_perm : ∀ s, set_iter s ≡ₚ elements s.

(** C3.  The configuration [update_config] builds from an existing one keeps,
    in their order and as they were, exactly the members whose host ip is not
    in [to_remove]; appends one member per ip of [to_add] (in the iteration
    order of that set), with ids [base], [base + 1], ... where [base] is 0
    when no member is kept and one more than the largest kept id otherwise;
    adds 1 to the version; and leaves the set name and every other key of the
    document alone. *)
Theorem mutate_config_spec (config : Config) (to_remove to_add : gset string)
    (mongo_port : Z) :
  let config' := mutate_config set_iter config to_remove to_add mongo_port in
  let kept := filter (λ m, host_ip m ∉ to_remove) (cfg_members config) in
  ∃ (base : Z) (added_ips : list string),
    added_ips ≡ₚ elements to_add ∧
    (kept = [] → base = 0) ∧
    (kept ≠ [] → (∃ m, m ∈ kept ∧ base = member_id m + 1)
                 ∧ (∀ m, m ∈ kept → member_id m < base)) ∧
    cfg_members config'
    = kept ++ imap (λ i ip, {| member_id := base + Z.of_nat i;
                               member_host := ip +:+ ":" +:+ pretty mongo_port;
                               member_rest := [] |}) added_ips ∧
    cfg_version config' = cfg_version config + 1 ∧
    cfg_id config' = cfg_id config ∧
    cfg_rest config' = cfg_rest config.
Proof.
  intros config' kept.
  exists (match max_member_id kept with Some mx => mx + 1 | None => 0 end),
         (set_iter to_add).
  split; [apply set_iter_perm|].
  split; [by intros ->|].
  split.
  { intros Hne. destruct (max_member_id kept) as [mx|] eqn:Hmax.
    - apply max_member_id_Some in Hmax as [(m & Hin & Hid) Hle]. split.
      + exists m. split; [done|]. by rewrite Hid.
      + intros m' Hin'. specialize (Hle m' Hin'). lia.
    - destruct kept; [done|discriminate]. }
  split; [|done].
  subst config'. rewrite mutate_config_members. fold kept. f_equal.
  destruct (decide (to_add = ∅)) as [->|Hadd].
  - pose proof (set_iter_perm ∅) as Hp. rewrite elements_empty in Hp.
    apply Permutation_nil_r in Hp. by rewrite Hp.
  - apply enumerate_members_imap.
Qed.

End ConfigBuilder.

(** The fresh set of scenario S1 loses its last member and gains a new one in
    one mutation: the newcomer gets id 2, which [10.0.0.7] held before. *)
Example mutate_config_reuses_id :
  mutations elements
    (create_mongo_config ["10.0.0.5"; "10.0.0.6"; "10.0.0.7"] "rs0" 27017)
    [({["10.0.0.7"]}, {["10.0.0.8"]})] 27017
  = [ {| cfg_id := "rs0";
         cfg_members := [ mkMember 0 "10.0.0.5:27017" [];
                          mkMember 1 "10.0.0.6:27017" [];
                          mkMember 2 "10.0.0.7:27017" [] ];
         cfg_version := 1; cfg_rest := [] |};
      {| cfg_id := "rs0";
         cfg_members := [ mkMember 0 "10.0.0.5:27017" [];
                          mkMember 1 "10.0.0.6:27017" [];
                          mkMember 2 "10.0.0.8:27017" [] ];
         cfg_version := 2; cfg_rest := [] |} ].
Proof. vm_compute. reflexivity. Qed.

(** C4, as stated, fails: a member id that was assigned to one host and then
    removed is assigned again to a different host. *)
Lemma member_id_reused_after_removal :
  ¬ never_reused
      (mutations elements
         (create_mongo_config ["10.0.0.5"; "10.0.0.6"; "10.0.0.7"] "rs0" 27017)
         [({["10.0.0.7"]}, {["10.0.0.8"]})] 27017).
Proof.
  intros Hnever.
  apply (Hnever 0%nat 1%nat _ _
           (mkMember 2 "10.0.0.7:27017" []) (mkMember 2 "10.0.0.8:27017" [])
           ltac:(lia) eq_refl eq_refl); [| | |reflexivity].
  - vm_compute. do 2 apply list_elem_of_further. apply list_elem_of_here.
  - intros m'' Hin. vm_compute in Hin.
    repeat (apply elem_of_cons in Hin as [->|Hin]; [discriminate|]).
    by apply elem_of_nil in Hin.
  - vm_compute. do 2 apply list_elem_of_further. apply list_elem_of_here.
Qed.

(** The hypothesis and the statement of [mutate_config_spec] on the fresh set
    of scenario S1, when [10.0.0.6] leaves and [10.0.0.8] joins. *)
Lemma mutate_config_spec_witness :
  (∀ s : gset string, elements s ≡ₚ elements s) ∧
  let config := create_mongo_config ["10.0.0.5"; "10.0.0.6"; "10.0.0.7"] "rs0" 27017 in
  let config' := mutate_config elements config {["10.0.0.6"]} {["10.0.0.8"]} 27017 in
  let kept := filter (λ m, host_ip m ∉ ({["10.0.0.6"]} : gset string)) (cfg_members config) in
  ∃ (base : Z) (added_ips : list string),
    added_ips ≡ₚ elements ({["10.0.0.8"]} : gset string) ∧
    (kept = [] → base = 0) ∧
    (kept ≠ [] → (∃ m, m ∈ kept ∧ base = member_id m + 1)
                 ∧ (∀ m, m ∈ kept → member_id m < base)) ∧
    cfg_members config'
    = kept ++ imap (λ i ip, {| member_id := base + Z.of_nat i;
                               member_host := ip +:+ ":" +:+ pretty 27017;
                               member_rest := [] |}) added_ips ∧
    cfg_version config' = cfg_version config + 1 ∧
    cfg_id config' = cfg_id config ∧
    cfg_rest config' = cfg_rest config.
Proof.
  split; [reflexivity|].
  apply (mutate_config_spec elements (λ s, reflexivity (elements s))).
Defined.

(** ** Reasoning about computations *)

Section Emits.

Context {A B : Type}.

Lemma emits_ret (a : A) (P : Event → Prop) (Q : A → Prop) :
  Q a → emits (ret a) P Q.
Proof.
  intros Ha h. split; simpl.
  - by intros ev ?%elem_of_nil.
  - by intros a' [= <-].
Qed.

Lemma emits_raise (e : Exn) (P : Event → Prop) (Q : A → Prop) :
  emits (raise e) P Q.
Proof.
  intros h. split; simpl; [by intros ev ?%elem_of_nil|done].
Qed.

Lemma emits_weaken (m : M A) (P P' : Event → Prop) (Q Q' : A → Prop) :
  emits m P Q → (∀ ev, P ev → P' ev) → (∀ a, Q a → Q' a) → emits m P' Q'.
Proof.
  intros Hm HP HQ h. destruct (Hm h) as [H1 H2]. split.
  - intros ev Hev. by apply HP, H1.
  - intros a Ha. by apply HQ, H2.
Qed.

Lemma emits_bind (m : M A) (k : A → M B) (P : Event → Prop)
    (Q : A → Prop) (Q' : B → Prop) :
  emits m P Q → (∀ a, Q a → emits (k a) P Q') → emits (bind m k) P Q'.
Proof.
  intros Hm Hk h. unfold bind.
  destruct (Hm h) as [H1 H2].
  destruct (m h) as [[a|e] evs]; simpl in *.
  - destruct (Hk a (H2 a eq_refl) (h ++ evs)) as [H3 H4].
    destruct (k a (h ++ evs)) as [r evs']; simpl in *. split.
    + intros ev [?|?]%elem_of_app; auto.
    + done.
  - split; [done|]. intros b Hb. discriminate Hb.
Qed.

Lemma bind_run (m : M A) (k : A → M B) (h : History) :
  bind m k h = match m h with
               | (Ok a, evs) => let '(r, evs') := k a (h ++ evs) in (r, evs ++ evs')
               | (Raise e, evs) => (Raise e, evs)
               end.
Proof. reflexivity. Qed.

Lemma bind_Ok (m : M A) (k : A → M B) (h : History) (b : B) :
  (bind m k h).1 = Ok b →
  ∃ a, (m h).1 = Ok a ∧ (k a (h ++ (m h).2)).1 = Ok b.
Proof.
  unfold bind. destruct (m h) as [[a|e] evs]; simpl; [|done].
  destruct (k a (h ++ evs)) as [r evs'] eqn:Hk; simpl. intros ->.
  exists a. by rewrite Hk.
Qed.

End Emits.

Lemma emits_try_except {A} (body : M A) (classes : Exn → bool) (handler : Exn → M A)
    (P : Event → Prop) (Q : A → Prop) :
  emits body P Q → (∀ e, classes e = true → emits (handler e) P Q) →
  emits (try_except body classes handler) P Q.
Proof.
  intros Hb Hh h. unfold try_except.
  destruct (Hb h) as [H1 H2].
  destruct (body h) as [[a|e] evs]; simpl in *; [done|].
  destruct (classes e) eqn:Hc; simpl.
  - destruct (Hh e Hc (h ++ evs)) as [H3 H4].
    destruct (handler e (h ++ evs)) as [r evs']; simpl in *. split.
    + intros ev [?|?]%elem_of_app; auto.
    + done.
  - split; [done|]. intros b Hb'. discriminate Hb'.
Qed.

Section Calls.

Variable E : Env.

Lemma emits_sleep seconds (P : Event → Prop) (Q : unit → Prop) :
  P (EvSleep seconds) → Q tt → emits (sleep seconds) P Q.
Proof.
  intros HP HQ h. split; simpl.
  - by intros ev ->%list_elem_of_singleton.
  - by intros [] _.
Qed.

Lemma emits_hello host (P : Event → Prop) (Q : Topology → Prop) :
  (∀ a, P (EvHello host a)) → (∀ t, Q t) → emits (hello E host) P Q.
Proof.
  intros HP HQ h. split; simpl.
  - by intros ev ->%list_elem_of_singleton.
  - done.
Qed.

Lemma emits_replSetGetConfig host (P : Event → Prop) (Q : Config → Prop) :
  (∀ a, P (EvGetConfig host a)) → (∀ c, Q c) → emits (replSetGetConfig E host) P Q.
Proof.
  intros HP HQ h. split; simpl.
  - by intros ev ->%list_elem_of_singleton.
  - done.
Qed.

Lemma emits_replSetReconfig host config force (P : Event → Prop) (Q : unit → Prop) :
  (∀ a, P (EvReconfig host config force a)) → Q tt →
  emits (replSetReconfig E host config force) P Q.
Proof.
  intros HP HQ h. split; simpl.
  - by intros ev ->%list_elem_of_singleton.
  - by intros [] _.
Qed.

Lemma get_primary_ip_emits tasks_ips :
  emits (get_primary_ip E tasks_ips) is_probe
        (λ r, ∀ t, r = Some t → t ∈ tasks_ips).
Proof.
  induction tasks_ips as [|t rest IH]; simpl.
  - by apply emits_ret.
  - eapply emits_bind with (Q := λ _, True).
    + apply emits_try_except.
      * eapply emits_bind with (Q := λ _, True); [by apply emits_hello|].
        intros topo _. by apply emits_ret.
      * intros e _. by apply emits_ret.
    + intros [] _.
      * apply emits_ret. intros t' [= <-]. apply elem_of_cons; by left.
      * eapply emits_weaken; [exact IH|done|].
        intros r Hr t' Ht'. apply elem_of_cons; right. by apply Hr.
Qed.

Lemma all_nodes_uninitialized_emits ips :
  emits (all_nodes_uninitialized E ips) is_probe (λ _, True).
Proof.
  induction ips as [|t rest IH]; simpl.
  - by apply emits_ret.
  - eapply emits_bind with (Q := λ _, True).
    + apply emits_try_except.
      * eapply emits_bind with (Q := λ _, True); [by apply emits_hello|].
        intros topo _. by apply emits_ret.
      * intros e _. by apply emits_ret.
    + intros [] _; [by apply emits_ret|exact IH].
Qed.

Lemma reconfig_with_retry_emits attempts host config force :
  emits (reconfig_with_retry E attempts host config force)
        (λ ev, match ev with
               | EvSleep _ => True
               | EvReconfig host' config' force' _ =>
                   host' = host ∧ config' = config ∧ force' = force
               | _ => False
               end)
        (λ _, True).
Proof.
  induction attempts as [|n IH]; simpl.
  - by apply emits_ret.
  - eapply emits_bind with (Q := λ _, True).
    + apply emits_try_except.
      * eapply emits_bind with (Q := λ _, True); [by apply emits_replSetReconfig|].
        intros _ _. by apply emits_ret.
      * intros e _. eapply emits_bind with (Q := λ _, True); [by apply emits_sleep|].
        intros _ _. by apply emits_ret.
    + intros [] _; [by apply emits_ret|exact IH].
Qed.

End Calls.

(** ** Reconfigurer *)

Section Reconfigurer.

Variable E : Env.
Variable set_iter : gset string → list string.

Lemma wait_for_primary_emits attempts primary_ip new_ips :
  emits (wait_for_primary E set_iter attempts primary_ip new_ips) is_probe
        (λ r, ∀ t, r = Some t → primary_ip = Some t ∨ t ∈ set_iter new_ips).
Proof.
  revert primary_ip. induction attempts as [|n IH]; intros primary_ip; simpl.
  - apply emits_ret. intros t ->. by left.
  - destruct (truthy primary_ip).
    + apply emits_ret. intros t ->. by left.
    + eapply emits_bind with (Q := λ _, True); [by apply emits_sleep|].
      intros _ _. eapply emits_bind; [apply get_primary_ip_emits|].
      intros p' Hp'. eapply emits_weaken; [apply IH|done|].
      intros r Hr t Ht. right. destruct (Hr t Ht) as [Heq|Hin]; [by apply Hp'|done].
Qed.

Lemma choose_new_primary_emits new_ips to_add :
  emits (choose_new_primary E set_iter new_ips to_add) is_probe
        (target_candidate set_iter new_ips to_add).
Proof.
  unfold choose_new_primary.
  eapply emits_bind; [apply all_nodes_uninitialized_emits|].
  intros uninitialized _.
  eapply emits_bind with (Q := λ r, ∀ t, r = Some t → t ∈ set_iter new_ips).
  - destruct (uninitialized && bool_decide (0 < size new_ips)%nat).
    + by apply emits_ret.
    + eapply emits_weaken; [apply wait_for_primary_emits|done|].
      intros r Hr t Ht. by destruct (Hr t Ht).
  - intros [p|] Hp.
    + apply emits_ret. left. by apply Hp.
    + destruct (set_iter (new_ips ∖ to_add)) as [|old olds] eqn:Hold.
      * destruct (set_iter new_ips) as [|first others] eqn:Hnew.
        -- apply emits_raise.
        -- apply emits_ret. right. right. by rewrite Hold, Hnew.
      * apply emits_ret. right. left. by rewrite Hold.
Qed.

(** What [update_config] sends, for any property [T] of the ip it connects
    to that holds of the primary it was given, when that one stays, and of
    the ip it picks otherwise. *)
Lemma update_config_emits (T : string → Prop) primary_ip current_ips new_ips mongo_port :
  (∀ p, primary_ip = Some p → p ∉ current_ips ∖ new_ips → T p) →
  (∀ p, primary_gone primary_ip (current_ips ∖ new_ips) →
        target_candidate set_iter new_ips (new_ips ∖ current_ips) p → T p) →
  emits (update_config E set_iter primary_ip current_ips new_ips mongo_port)
        (λ ev, match ev with
               | EvSleep _ | EvHello _ _ => True
               | EvGetConfig host _ => T host
               | EvReconfig host _ force _ =>
                   T host ∧
                   force = expected_force primary_ip (current_ips ∖ new_ips)
                                          (new_ips ∖ current_ips)
               | _ => False
               end)
        (λ _, True).
Proof.
  intros Hstay Hpick. unfold update_config.
  set (to_remove := current_ips ∖ new_ips).
  set (to_add := new_ips ∖ current_ips).
  eapply emits_bind with (Q := λ _, True).
  { destruct (bool_decide (to_remove = ∅ ∧ to_add = ∅) && bool_decide (current_ips ≠ ∅));
      [by apply emits_ret|].
    destruct (bool_decide (to_remove ≠ ∅ ∨ to_add ≠ ∅));
      [by apply emits_ret|apply emits_raise]. }
  intros _ _.
  eapply emits_bind with
    (Q := λ ft, T ft.2 ∧ ft.1 = expected_force primary_ip to_remove to_add).
  { assert (Hchoose : primary_gone primary_ip to_remove → emits
      (p' <- choose_new_primary E set_iter new_ips to_add ;; ret (true, p'))
      is_probe (λ ft : bool * string, T ft.2 ∧ ft.1 = true)).
    { intros Hgone. eapply emits_bind; [apply choose_new_primary_emits|].
      intros p' Hp'. apply emits_ret. simpl. split; [by apply Hpick|done]. }
    unfold expected_force.
    destruct primary_ip as [p|].
    - destruct (bool_decide (p ∈ to_remove)) eqn:Hp.
      + apply bool_decide_eq_true in Hp.
        eapply emits_weaken; [apply Hchoose; right; by exists p|by intros []|].
        intros [f t] [HT ->]; simpl. split; [done|]. by rewrite orb_true_r.
      + apply emits_ret. simpl. split.
        * apply Hstay; [done|]. by apply bool_decide_eq_false in Hp.
        * by rewrite orb_false_r.
    - eapply emits_weaken; [apply Hchoose; by left|by intros []|].
      intros [f t] [HT ->]; simpl. split; [done|]. by rewrite orb_true_r. }
  intros [force target] [HT Hforce]; simpl in *.
  apply emits_try_except; [|intros e _; by apply emits_ret].
  eapply emits_bind with (Q := λ _, True); [by apply emits_replSetGetConfig|].
  intros config _.
  eapply emits_weaken; [exact (reconfig_with_retry_emits E 3 target _ force)| |done].
  intros [] Hev; try done. destruct Hev as (-> & _ & ->). done.
Qed.

(** C2.  Every [replSetReconfig] that a call of [update_config] sends carries
    [force = true] exactly when more than one ip is removed, or more than one
    is added, or the primary it was given is among the removed, or no primary
    was given; so adding one member with a known primary that stays sends
    [force = false]. *)
Theorem update_config_force
    (primary_ip : option string) (current_ips new_ips : gset string) (mongo_port : Z)
    (h : History) (host : string) (config : Config) (force : bool) (answer : Res unit) :
  EvReconfig host config force answer
    ∈ (update_config E set_iter primary_ip current_ips new_ips mongo_port h).2 →
  let to_remove := current_ips ∖ new_ips in
  let to_add := new_ips ∖ current_ips in
  (force = true ↔
     (1 < size to_remove)%nat ∨ (1 < size to_add)%nat
     ∨ (∃ p, primary_ip = Some p ∧ p ∈ to_remove) ∨ primary_ip = None)
  ∧ (size to_add = 1%nat → size to_remove = 0%nat →
     (∃ p, primary_ip = Some p) → force = false).
Proof.
  intros Hev to_remove to_add.
  destruct (update_config_emits (λ _, True) primary_ip current_ips new_ips mongo_port
              ltac:(done) ltac:(done) h) as [Hevs _].
  destruct (Hevs _ Hev) as [_ ->]. fold to_remove to_add.
  unfold expected_force. split.
  - rewrite !orb_true_iff, !bool_decide_eq_true.
    destruct primary_ip as [p|].
    + rewrite bool_decide_eq_true. split.
      * intros [[?|?]|?]; eauto 6.
      * intros [?|[?|[(p' & [= <-] & ?)|?]]]; auto; done.
    + split; [eauto|auto].
  - intros Hadd Hrm [p ->].
    apply size_empty_inv in Hrm. apply leibniz_equiv in Hrm.
    rewrite Hrm, Hadd.
    rewrite !bool_decide_eq_false_2; [done|set_solver|lia|].
    rewrite size_empty. lia.
Qed.

Hypothesis set_iter_perm : ∀ s, set_iter s ≡ₚ elements s.

Lemma target_candidate_in_new new_ips to_add p :
  target_candidate set_iter new_ips to_add p → p ∈ new_ips.
Proof.
  assert (Hin : ∀ s x, x ∈ set_iter s → x ∈ s).
  { intros s x Hx. rewrite set_iter_perm in Hx. by apply elem_of_elements in Hx. }
  intros [Hp|[Hp|[_ Hp]]].
  - by apply Hin.
  - pose proof (Hin _ _ (head_Some_elem_of _ _ Hp)) as Hold.
    by apply elem_of_difference in Hold as [? _].
  - exact (Hin _ _ (head_Some_elem_of _ _ Hp)).
Qed.

End Reconfigurer.

(** Scenario S3: one unforced
    reconfiguration, sent to the primary, with the new member at id 3. *)
Example update_config_scale_out :
  update_config scale_out_env elements (Some "10.0.0.5") rs0_ips scaled_out_ips 27017 []
  = (Ok tt,
     [ EvGetConfig "10.0.0.5" (Ok rs0_config);
       EvReconfig "10.0.0.5"
         {| cfg_id := "rs0";
            cfg_members := [ mkMember 0 "10.0.0.5:27017" [];
                             mkMember 1 "10.0.0.6:27017" [];
                             mkMember 2 "10.0.0.7:27017" [];
                             mkMember 3 "10.0.0.8:27017" [] ];
            cfg_version := 2; cfg_rest := [] |}
         false (Ok tt) ]).
Proof. vm_compute. reflexivity. Qed.

(** [update_config_force] at scenario S3. *)
Lemma update_config_force_witness :
  EvReconfig "10.0.0.5" (mutate_config elements rs0_config ∅ {["10.0.0.8"]} 27017)
             false (Ok tt)
    ∈ (update_config scale_out_env elements (Some "10.0.0.5")
         rs0_ips scaled_out_ips 27017 []).2
  ∧ (let to_remove := rs0_ips ∖ scaled_out_ips in
     let to_add := scaled_out_ips ∖ rs0_ips in
     (false = true ↔
        (1 < size to_remove)%nat ∨ (1 < size to_add)%nat
        ∨ (∃ p, Some "10.0.0.5" = Some p ∧ p ∈ to_remove)
        ∨ Some "10.0.0.5" = (None : option string))
     ∧ (size to_add = 1%nat → size to_remove = 0%nat →
        (∃ p, Some "10.0.0.5" = Some p) → false = false)).
Proof.
  assert (Hev : EvReconfig "10.0.0.5"
                  (mutate_config elements rs0_config ∅ {["10.0.0.8"]} 27017)
                  false (Ok tt)
                ∈ (update_config scale_out_env elements (Some "10.0.0.5")
                     rs0_ips scaled_out_ips 27017 []).2) by in_events.
  split; [exact Hev|].
  exact (update_config_force scale_out_env elements _ _ _ _ _ _ _ _ _ Hev).
Defined.

(** ** Reconciler *)

(** C6, as amended.  Every iteration of the watch loop that completes leaves
    [current_member_ips] equal to the set of task ips it has just read from
    the orchestrator, whether or not it called [update_config] and whatever
    the database answered to the reconfiguration. *)
Theorem watch_iteration_adopts_task_ips
    (E : Env) (set_iter : gset string → list string)
    (mongo_service : Service) (overlay_network_name : string) (mongo_port : Z)
    (current_member_ips : gset string) (primary_ip : option string) (h : History)
    (current_member_ips' : gset string) (primary_ip' : option string) :
  (watch_iteration E set_iter mongo_service overlay_network_name mongo_port
     current_member_ips primary_ip h).1 = Ok (current_member_ips', primary_ip') →
  let running := filter (λ t, task_state t = "running")
                   (env_tasks E (h ++ [EvSleep 10]) (svc_name mongo_service)
                      (Some "running")) in
  ∃ ips, get_tasks_ips running overlay_network_name = Ok ips
         ∧ current_member_ips' = list_to_set ips.
Proof.
  intros Hrun running. unfold watch_iteration in Hrun.
  apply bind_Ok in Hrun as ([] & _ & Hrun). simpl in Hrun.
  apply bind_Ok in Hrun as (tasks & Htasks & Hrun).
  apply bind_Ok in Htasks as (listed & Hlisted & Htasks).
  simpl in Hlisted, Htasks. injection Hlisted as <-. injection Htasks as <-.
  apply bind_Ok in Hrun as (ips & Hips & Hrun). simpl in Hips.
  exists ips. split; [exact Hips|].
  apply bind_Ok in Hrun as ([] & _ & Hrun).
  apply bind_Ok in Hrun as (p & _ & Hrun).
  simpl in Hrun. by injection Hrun as <- _.
Qed.

(** C6, as stated, fails: in an iteration whose reconfiguration is rejected
    three times, so that its retries are exhausted, [current_member_ips]
    still changes from the old membership to the new task ips. *)
Lemma known_member_ips_mutated_after_rejection :
  let run := watch_iteration rejecting_env elements mongo_global "mongo_net" 27017
               rs0_ips (Some "10.0.0.5") [] in
  reconfig_answers run.2
  = replicate 3 (Raise (OperationFailure (Some 103)
                          "NewReplicaSetConfigurationIncompatible"))
  ∧ run.1 = Ok (scaled_out_ips, Some "10.0.0.5")
  ∧ scaled_out_ips ≠ rs0_ips.
Proof.
  split; [vm_compute; reflexivity|].
  split; [vm_compute; reflexivity|].
  apply (bool_decide_eq_false_1 (scaled_out_ips = rs0_ips)).
  vm_compute. reflexivity.
Qed.

(** [watch_iteration_adopts_task_ips] in the same run. *)
Lemma watch_iteration_adopts_task_ips_witness :
  (watch_iteration rejecting_env elements mongo_global "mongo_net" 27017
     rs0_ips (Some "10.0.0.5") []).1 = Ok (scaled_out_ips, Some "10.0.0.5")
  ∧ (let running := filter (λ t, task_state t = "running")
                      (env_tasks rejecting_env ([] ++ [EvSleep 10])
                         (svc_name mongo_global) (Some "running")) in
     ∃ ips, get_tasks_ips running "mongo_net" = Ok ips
            ∧ scaled_out_ips = list_to_set ips).
Proof.
  assert (Hrun : (watch_iteration rejecting_env elements mongo_global "mongo_net" 27017
                    rs0_ips (Some "10.0.0.5") []).1
                 = Ok (scaled_out_ips, Some "10.0.0.5"))
    by (vm_compute; reflexivity).
  split; [exact Hrun|].
  exact (watch_iteration_adopts_task_ips rejecting_env elements mongo_global
           "mongo_net" 27017 rs0_ips (Some "10.0.0.5") [] _ _ Hrun).
Defined.

(** ** OrchestratorView *)

Lemma elem_of_active_nodes_of (nodes : list Node) (x : string) :
  x ∈ active_nodes_of nodes ↔
  ∃ node, node ∈ nodes ∧ node_id node = x
          ∧ node_availability node = "active" ∧ node_state node ≠ "down".
Proof.
  unfold active_nodes_of. rewrite elem_of_list_to_set, list_elem_of_fmap.
  split.
  - intros (node & -> & Hin). apply list_elem_of_filter in Hin as [[? ?] ?].
    by exists node.
  - intros (node & Hin & <- & Hav & Hst). exists node. split; [done|].
    apply list_elem_of_filter. by split.
Qed.

Lemma assigned_node_ids_all (tasks : list Task) :
  Forall (λ t, task_node_id t ≠ None) tasks →
  ∃ assigned_nodes : gset string,
    assigned_node_ids tasks = Ok assigned_nodes
    ∧ ∀ x, x ∈ assigned_nodes ↔ ∃ t, t ∈ tasks ∧ task_node_id t = Some x.
Proof.
  induction 1 as [|t rest Ht _ (nodes & Hrest & Hnodes)]; simpl.
  - exists ∅. split; [done|]. intros x. split; [by intros ?%not_elem_of_empty|].
    by intros (t & ?%elem_of_nil & _).
  - destruct (task_node_id t) as [n|] eqn:Hn; [|done]. rewrite Hrest.
    exists ({[n]} ∪ nodes). split; [done|]. intros x.
    rewrite elem_of_union, elem_of_singleton, Hnodes. split.
    + intros [->|(t' & Hin & Hx)].
      * exists t. split; [apply list_elem_of_here|done].
      * exists t'. split; [by apply list_elem_of_further|done].
    + intros (t' & Hin & Hx). apply elem_of_cons in Hin as [->|Hin].
      * left. congruence.
      * right. by exists t'.
Qed.

Lemma assigned_node_ids_unassigned (tasks : list Task) :
  Exists (λ t, task_node_id t = None) tasks →
  assigned_node_ids tasks = Raise (KeyError "NodeID").
Proof.
  induction 1 as [t rest Ht|t rest _ IH]; simpl.
  - by rewrite Ht.
  - rewrite IH. by destruct (task_node_id t).
Qed.

(** C10, as amended.  [is_service_up] returns [False], and asks the
    orchestrator nothing, when the service object is [None].  For a service
    object it lists the running tasks and then all tasks of the service, and
    reads the ['NodeID'] of each of these: when a task has none, because it
    is not assigned to a node yet, the call raises [KeyError], whatever the
    deployment mode, before it lists the nodes.  When every task has a node
    id it returns a boolean: [False] when the mode is neither [Replicated] nor
    [Global]; and for a [Global] service [True] exactly when the number of
    running tasks equals the number of nodes that have a task of the service
    assigned and are active and not down. *)
Theorem is_service_up_spec (E : Env) :
  (∀ h, is_service_up E None h = (Ok false, []))
  ∧ (∀ svc h,
       let listed := env_tasks E h (svc_name svc) (Some "running") in
       let running_tasks := filter (λ t, task_state t = "running") listed in
       let h1 := h ++ [EvTasks (svc_name svc) (Some "running") listed] in
       let all_tasks := env_tasks E h1 (svc_name svc) None in
       let h2 := h1 ++ [EvTasks (svc_name svc) None all_tasks] in
       let nodes := env_nodes E h2 in
       (Exists (λ t, task_node_id t = None) all_tasks →
        is_service_up E (Some svc) h
        = (Raise (KeyError "NodeID"),
           [EvTasks (svc_name svc) (Some "running") listed;
            EvTasks (svc_name svc) None all_tasks]))
       ∧ (Forall (λ t, task_node_id t ≠ None) all_tasks →
          ∃ up : bool,
            (is_service_up E (Some svc) h).1 = Ok up
            ∧ (∀ key, svc_mode svc = OtherMode key → up = false)
            ∧ (svc_mode svc = Global →
               ∃ assigned_active_nodes : gset string,
                 (∀ x, x ∈ assigned_active_nodes ↔
                       (∃ t, t ∈ all_tasks ∧ task_node_id t = Some x)
                       ∧ (∃ node, node ∈ nodes ∧ node_id node = x
                                  ∧ node_availability node = "active"
                                  ∧ node_state node ≠ "down"))
                 ∧ (up = true ↔ length running_tasks = size assigned_active_nodes)))).
Proof.
  split; [done|].
  intros svc h listed running_tasks h1 all_tasks h2 nodes. split.
  - intros Hnone.
    unfold is_service_up, get_running_tasks, get_assigned_nodes, service_tasks,
      nodes_list, lift, bind, ret; simpl.
    fold listed. fold h1. fold all_tasks.
    by rewrite (assigned_node_ids_unassigned all_tasks Hnone).
  - intros Hall.
    destruct (assigned_node_ids_all all_tasks Hall) as (assigned_nodes & Hids & Hin).
    assert (Hrun : (is_service_up E (Some svc) h).1
                   = Ok match svc_mode svc with
                        | Replicated replicas =>
                            bool_decide (Z.of_nat (length running_tasks) = replicas)
                        | Global =>
                            bool_decide (length running_tasks
                                         = size (active_nodes_of nodes ∩ assigned_nodes))
                        | OtherMode _ => false
                        end).
    { unfold is_service_up, get_running_tasks, get_assigned_nodes, service_tasks,
        nodes_list, lift, bind, ret; simpl.
      fold listed. fold h1. fold all_tasks. rewrite Hids. simpl.
      by destruct (svc_mode svc). }
    eexists. split; [exact Hrun|]. split.
    + intros key Hmode. by rewrite Hmode.
    + intros Hmode. rewrite Hmode.
      exists (active_nodes_of nodes ∩ assigned_nodes). split.
      * intros x. rewrite elem_of_intersection, elem_of_active_nodes_of, Hin. tauto.
      * apply bool_decide_eq_true.
Qed.

(** C10, as stated, fails.  While a task of the service is still pending, it
    has no ['NodeID']; [is_service_up] then raises [KeyError] for a service
    whose deployment mode is neither [Replicated] nor [Global], where the
    claim has it return [False] without raising. *)
Lemma is_service_up_raises_on_pending_task :
  svc_mode mongo_job = OtherMode "ReplicatedJob"
  ∧ is_service_up pending_task_env (Some mongo_job) []
    = (Raise (KeyError "NodeID"),
       [EvTasks "mongo" (Some "running")
          (env_tasks pending_task_env [] "mongo" (Some "running"));
        EvTasks "mongo" None (env_tasks pending_task_env [] "mongo" None)]).
Proof. split; [reflexivity|]. vm_compute. reflexivity. Qed.

(** A global service on the four nodes of scenario S3 is up. *)
Example is_service_up_scale_out :
  (is_service_up scale_out_env (Some mongo_global) []).1 = Ok true.
Proof. vm_compute. reflexivity. Qed.

(** ** Start-up wait *)

(** A service that is fully up at the 39th poll is handed to
    [manage_replica]. *)
Example startup_up_at_poll_39 :
  (startup (starting_env 39) "mongo" []).1 = Ok (ManageReplica mongo_global).
Proof. vm_compute. reflexivity. Qed.

(** C8 fails on the code.  When the service is fully up for the first time at
    the 40th poll, the last of the budget, the loop ends with
    [service_down = False] and [attempts = 0], the 40 sleeps of 10 seconds
    have been spent, and the process exits with code 1 although the service
    came up within the budget. *)
Theorem startup_exits_when_up_at_last_poll :
  let E := starting_env 40 in
  (wait_for_service E 40 "mongo" None true []).1 = Ok (0%nat, Some mongo_global, false)
  ∧ sleep_durations (wait_for_service E 40 "mongo" None true []).2 = replicate 40 10
  ∧ (startup E "mongo" []).1 = Ok (Exit 1).
Proof.
  split; [vm_compute; reflexivity|].
  split; [vm_compute; reflexivity|].
  vm_compute. reflexivity.
Qed.

(** ** Initiator *)

Section Initiator.

Variable E : Env.

Lemma emits_containers_list (P : Event → Prop) (Q : list Container → Prop) :
  (∀ a, P (EvContainers a)) → (∀ a, Q a) → emits (containers_list E) P Q.
Proof.
  intros HP HQ h. split; simpl.
  - by intros ev ->%list_elem_of_singleton.
  - done.
Qed.

Lemma emits_exec_run container cmd (P : Event → Prop) (Q : ExecResult → Prop) :
  (∀ a, P (EvExec container cmd a)) → (∀ a, Q a) → emits (exec_run E container cmd) P Q.
Proof.
  intros HP HQ h. split; simpl.
  - by intros ev ->%list_elem_of_singleton.
  - done.
Qed.

Lemma wait_for_tasks_emits attempts retry_delay mongo_tasks mongo_tasks_ips :
  emits (wait_for_tasks attempts retry_delay mongo_tasks mongo_tasks_ips) quiet
        (λ found, found = true → mongo_tasks_ips ≠ []).
Proof.
  induction attempts as [|n IH]; simpl.
  - by apply emits_ret.
  - destruct (bool_decide (mongo_tasks = [] ∨ mongo_tasks_ips = [])) eqn:Hempty.
    + eapply emits_bind with (Q := λ _, True); [by apply emits_sleep|].
      intros _ _. exact IH.
    + apply emits_ret. intros _ ->.
      apply bool_decide_eq_false in Hempty. apply Hempty. by right.
Qed.

Lemma initialize_mongodb_admin_emits primary_ip user pwd service_name :
  emits (initialize_mongodb_admin E primary_ip user pwd service_name) quiet (λ _, True).
Proof.
  unfold initialize_mongodb_admin. generalize 8%nat. intros attempts.
  induction attempts as [|n IH]; simpl.
  - by apply emits_ret.
  - eapply emits_bind with (Q := λ _, True).
    + apply emits_try_except; [|intros e _; by apply emits_ret].
      eapply emits_bind with (Q := λ _, True); [by apply emits_sleep|].
      intros _ _.
      eapply emits_bind with (Q := λ _, True); [by apply emits_hello|].
      intros topo _.
      destruct (truthy (topology_primary_ip topo)); [|by apply emits_ret].
      eapply emits_bind with (Q := λ _, True).
      { unfold first_container.
        eapply emits_bind with (Q := λ _, True); [by apply emits_containers_list|].
        intros cs _. by apply emits_ret. }
      intros [c|] _; [|by apply emits_ret].
      eapply emits_bind with (Q := λ _, True); [|intros _ _; by apply emits_ret].
      unfold create_mongodb_root_user.
      apply emits_try_except; [|intros e _; by apply emits_ret].
      eapply emits_bind with (Q := λ _, True); [by apply emits_exec_run|].
      intros _ _. by apply emits_ret.
    + intros [] _; [by apply emits_ret|exact IH].
Qed.

(** The two ways a run of [init_replica] can go: either its last two events
    are an initiation that failed for lack of authentication and the forced
    reconfiguration of the first ip with the fresh configuration, or it sends
    no reconfiguration at all and no initiation of it failed that way. *)
Lemma init_replica_events service_name mongo_tasks mongo_tasks_ips replicaset_name
    mongo_port user pwd h :
  let evs := (init_replica E service_name mongo_tasks mongo_tasks_ips replicaset_name
                mongo_port user pwd h).2 in
  let config := create_mongo_config mongo_tasks_ips replicaset_name mongo_port in
  (∃ before c res primary_ip answer,
     evs = before ++ [EvExec c (RsInitiate config) res;
                      EvReconfig primary_ip config true answer]
     ∧ (∀ ev, ev ∈ before → quiet ev)
     ∧ initiate_needs_auth res
     ∧ head mongo_tasks_ips = Some primary_ip)
  ∨ (∀ ev, ev ∈ evs →
       match ev with
       | EvReconfig _ _ _ _ => False
       | EvExec _ (RsInitiate _) res => ¬ initiate_needs_auth res
       | _ => True
       end).
Proof.
  intros evs config. subst evs. unfold init_replica.
  rewrite bind_run.
  destruct (wait_for_tasks_emits 6 10 mongo_tasks mongo_tasks_ips h) as [Hq0 Hfound].
  destruct (wait_for_tasks 6 10 mongo_tasks mongo_tasks_ips h) as [[found|e] evs0];
    simpl in Hq0, Hfound.
  2: { right. intros ev Hev. specialize (Hq0 ev Hev). by destruct ev as [| | | | | | | |? []]. }
  destruct found; simpl.
  2: { rewrite app_nil_r. right. intros ev Hev. specialize (Hq0 ev Hev). by destruct ev as [| | | | | | | |? []]. }
  destruct mongo_tasks_ips as [|primary_ip rest]; [by specialize (Hfound _ eq_refl eq_refl)|].
  fold config.
  rewrite bind_run. simpl. rewrite bind_run.
  unfold try_except. rewrite bind_run. simpl.
  unfold first_container. rewrite !bind_run. simpl.
  set (cs1 := env_containers E ((h ++ evs0) ++ [EvSleep 15])).
  set (cs2 := env_containers E _).
  match goal with |- context [head ?l] => destruct (head l) as [c|] end; simpl.
  2: { right. intros ev Hev. rewrite elem_of_app in Hev. destruct Hev as [Hev|Hev].
       - specialize (Hq0 ev Hev). by destruct ev as [| | | | | | | |? []].
       - repeat (apply elem_of_cons in Hev as [->|Hev]; [done|]). by apply elem_of_nil in Hev. }
  rewrite bind_run. simpl.
  set (res := env_exec E _ _ _).
  destruct (initialize_mongodb_admin_emits primary_ip user pwd service_name
              (((h ++ evs0) ++ [EvSleep 15]) ++
                 [EvContainers cs1; EvContainers cs2;
                  EvExec (container_id c) (RsInitiate config) res])) as [Hadmin _].
  destruct (bool_decide (exit_code res ≠ 0)) eqn:Hexit; simpl.
  - apply bool_decide_eq_true in Hexit.
    destruct (contains "replSetInitiate requires authentication" (output res)) eqn:Hauth;
      simpl.
    + rewrite bind_run. unfold reconfigure_replica_set, try_except, replSetReconfig. simpl.
      set (answer := env_reconfig E _ _ _ _).
      left. exists (evs0 ++ [EvSleep 15; EvContainers cs1; EvContainers cs2]),
              (container_id c), res, primary_ip, answer.
      split; [|split; [|by split; [split|]]].
      * clearbody answer.
        destruct answer as [[]|e]; simpl; [|destruct (is_OperationFailure e); simpl];
          by rewrite <- app_assoc.
      * intros ev [Hev|Hev]%elem_of_app; [by apply Hq0|].
        repeat (apply elem_of_cons in Hev as [->|Hev]; [done|]). by apply elem_of_nil in Hev.
    + destruct (initialize_mongodb_admin E primary_ip user pwd service_name _)
        as [r evsA]; simpl in *.
      right. intros ev [Hev|Hev]%elem_of_app.
      { specialize (Hq0 ev Hev). by destruct ev as [| | | | | | | |? []]. }
      repeat (apply elem_of_cons in Hev as [->|Hev]; [done|]).
      apply elem_of_cons in Hev as [->|Hev].
      { intros [_ Hc]. congruence. }
      specialize (Hadmin ev Hev). by destruct ev as [| | | | | | | |? []].
  - apply bool_decide_eq_false in Hexit.
    destruct (initialize_mongodb_admin E primary_ip user pwd service_name _)
      as [r evsA]; simpl in *.
    right. intros ev [Hev|Hev]%elem_of_app.
    { specialize (Hq0 ev Hev). by destruct ev as [| | | | | | | |? []]. }
    repeat (apply elem_of_cons in Hev as [->|Hev]; [done|]).
    apply elem_of_cons in Hev as [->|Hev].
    { intros [Hne _]. by apply Hexit. }
    specialize (Hadmin ev Hev). by destruct ev as [| | | | | | | |? []].
Qed.

(** C7.  In every run of [init_replica], an in-container initiation that
    fails with an output saying that [replSetInitiate] requires
    authentication is followed by a [replSetReconfig] with [force = true],
    sent to the first task ip with the freshly built configuration; and the
    run sends no other reconfiguration: each one it sends is that hand-off
    after such a failure. *)
Theorem init_replica_handoff
    (mongo_service_name : string) (mongo_tasks : list Task)
    (mongo_tasks_ips : list string) (replicaset_name : string) (mongo_port : Z)
    (mongo_root_username mongo_root_password : string) (h : History) :
  let evs := (init_replica E mongo_service_name mongo_tasks mongo_tasks_ips
                replicaset_name mongo_port mongo_root_username mongo_root_password
                h).2 in
  let config := create_mongo_config mongo_tasks_ips replicaset_name mongo_port in
  (∀ c cfg res,
     EvExec c (RsInitiate cfg) res ∈ evs → initiate_needs_auth res →
     ∃ primary_ip answer,
       head mongo_tasks_ips = Some primary_ip
       ∧ EvReconfig primary_ip config true answer ∈ evs)
  ∧ (∀ host cfg force answer,
       EvReconfig host cfg force answer ∈ evs →
       head mongo_tasks_ips = Some host ∧ cfg = config ∧ force = true
       ∧ ∃ c res, EvExec c (RsInitiate config) res ∈ evs ∧ initiate_needs_auth res).
Proof.
  intros evs config. subst evs config.
  destruct (init_replica_events mongo_service_name mongo_tasks mongo_tasks_ips
              replicaset_name mongo_port mongo_root_username mongo_root_password h)
    as [(before & c & res & p & answer & Hevs & Hquiet & Hauth & Hhead)|Hnone].
  - split.
    + intros _ _ _ _ _. exists p, answer. split; [done|].
      rewrite Hevs. apply elem_of_app. right.
      apply list_elem_of_further, list_elem_of_here.
    + intros host cfg force answer' Hin. rewrite Hevs in Hin.
      apply elem_of_app in Hin as [Hin|Hin]; [by apply Hquiet in Hin|].
      apply elem_of_cons in Hin as [Heq|Hin]; [discriminate Heq|].
      apply list_elem_of_singleton in Hin. injection Hin as -> -> -> ->.
      repeat split; [done|]. exists c, res. split; [|done].
      rewrite Hevs. apply elem_of_app. right. apply list_elem_of_here.
  - split.
    + intros c cfg res Hin Hauth. by apply Hnone in Hin.
    + intros host cfg force answer Hin. by apply Hnone in Hin.
Qed.

End Initiator.

(** Scenario S2: the refused initiation and the hand-off. *)
Example init_replica_redeployment :
  init_replica redeployed_env "mongo"
    (rs0_task <$> ["10.0.1.5"; "10.0.1.6"; "10.0.1.7"])
    ["10.0.1.5"; "10.0.1.6"; "10.0.1.7"] "rs0" 27017 "admin" "secret" []
  = (Ok tt,
     let config := create_mongo_config ["10.0.1.5"; "10.0.1.6"; "10.0.1.7"] "rs0" 27017 in
     [ EvSleep 15;
       EvContainers [ mkContainer "3f2a" "mongo.node-1.k8x2" ];
       EvContainers [ mkContainer "3f2a" "mongo.node-1.k8x2" ];
       EvExec "3f2a" (RsInitiate config)
         (mkExecResult 1
            "MongoServerError: command replSetInitiate requires authentication");
       EvReconfig "10.0.1.5" config true (Ok tt) ]).
Proof. vm_compute. reflexivity. Qed.

(** ** NodeProbe *)

Section NodeProbe.

Variable E : Env.











End NodeProbe.

(** Scenario S6: the second ip returns the configuration; the third is not
    probed. *)
Example gather_one_not_yet_initialized :
  gather_configured_members_ips one_not_yet_initialized_env
    ["10.0.0.5"; "10.0.0.6"; "10.0.0.7"] []
  = (Ok rs0_ips,
     [ EvGetConfig "10.0.0.5"
         (Raise (OperationFailure (Some 94) "no replset config has been received"));
       EvGetConfig "10.0.0.6" (Ok rs0_config) ]).
Proof. vm_compute. reflexivity. Qed.


(** A fresh deployment: three passes, two sleeps, the empty set. *)
Example gather_fresh :
  let nyi := Raise (OperationFailure (Some 94) "no replset config has been received") in
  gather_configured_members_ips fresh_env ["10.0.0.5"; "10.0.0.6"; "10.0.0.7"] []
  = (Ok ∅,
     [ EvGetConfig "10.0.0.5" nyi; EvGetConfig "10.0.0.6" nyi; EvGetConfig "10.0.0.7" nyi;
       EvSleep 10;
       EvGetConfig "10.0.0.5" nyi; EvGetConfig "10.0.0.6" nyi; EvGetConfig "10.0.0.7" nyi;
       EvSleep 10;
       EvGetConfig "10.0.0.5" nyi; EvGetConfig "10.0.0.6" nyi; EvGetConfig "10.0.0.7" nyi ]).
Proof. vm_compute. reflexivity. Qed.

(** Scenario S2: every probe fails authentication; one pass, the empty set. *)
Example gather_redeployed :
  let denied := Raise (OperationFailure (Some 18) "Authentication failed.") in
  gather_configured_members_ips redeployed_env ["10.0.1.5"; "10.0.1.6"; "10.0.1.7"] []
  = (Ok ∅,
     [ EvGetConfig "10.0.1.5" denied; EvGetConfig "10.0.1.6" denied;
       EvGetConfig "10.0.1.7" denied ]).
Proof. vm_compute. reflexivity. Qed.


(** [init_replica_handoff] at scenario S2. *)
Lemma init_replica_handoff_witness :
  let ips := ["10.0.1.5"; "10.0.1.6"; "10.0.1.7"] in
  let config := create_mongo_config ips "rs0" 27017 in
  let res := {| exit_code := 1;
                output := "MongoServerError: command replSetInitiate requires authentication" |} in
  let evs := (init_replica redeployed_env "mongo" (rs0_task <$> ips) ips
                "rs0" 27017 "admin" "secret" []).2 in
  EvExec "3f2a" (RsInitiate config) res ∈ evs
  ∧ initiate_needs_auth res
  ∧ ∃ primary_ip answer,
      head ips = Some primary_ip ∧ EvReconfig primary_ip config true answer ∈ evs.
Proof.
  intros ips config res evs.
  assert (Hexec : EvExec "3f2a" (RsInitiate config) res ∈ evs) by in_events.
  assert (Hauth : initiate_needs_auth res) by (split; [done|by vm_compute]).
  split; [exact Hexec|]. split; [exact Hauth|].
  exact (proj1 (init_replica_handoff redeployed_env "mongo" (rs0_task <$> ips) ips
                  "rs0" 27017 "admin" "secret" [])
           "3f2a" config res Hexec Hauth).
Defined.

(** [is_service_up_spec] for the global service of scenario S3, whose four
    tasks are assigned to nodes. *)
Lemma is_service_up_spec_witness :
  Forall (λ t, task_node_id t ≠ None)
    (env_tasks scale_out_env
       ([] ++ [EvTasks "mongo" (Some "running")
                 (env_tasks scale_out_env [] "mongo" (Some "running"))])
       "mongo" None)
  ∧ svc_mode mongo_global = Global
  ∧ ∃ up : bool,
      (is_service_up scale_out_env (Some mongo_global) []).1 = Ok up ∧ up = true.
Proof.
  assert (Hall : Forall (λ t, task_node_id t ≠ None)
                   (env_tasks scale_out_env
                      ([] ++ [EvTasks "mongo" (Some "running")
                                (env_tasks scale_out_env [] "mongo" (Some "running"))])
                      "mongo" None))
    by (repeat constructor; done).
  split; [exact Hall|]. split; [reflexivity|].
  destruct (proj2 (proj2 (is_service_up_spec scale_out_env) mongo_global []) Hall)
    as (up & Hup & _ & _).
  exists up. split; [exact Hup|].
  assert (Hrun : (is_service_up scale_out_env (Some mongo_global) []).1 = Ok true)
    by (vm_compute; reflexivity).
  rewrite Hrun in Hup. by injection Hup as <-.
Defined.

(** * Further properties *)

(** ** Host strings and member ips *)

Lemma split_head_app (c : ascii) (s rest : string) :
  has_char c s = false → split_head c (s +:+ String c rest) = s.
Proof.
  induction s as [|c' s IH]; simpl.
  - intros _. by rewrite decide_True.
  - intros [Hc Hs]%orb_false_iff. apply bool_decide_eq_false in Hc.
    rewrite decide_False by done. by rewrite IH.
Qed.

Lemma host_ip_new_member (i : Z) (ip : string) (mongo_port : Z) :
  has_char ":" ip = false → host_ip (new_member i ip mongo_port) = ip.
Proof. intros Hip. unfold host_ip, new_member, format_host. simpl. by apply split_head_app. Qed.

Lemma host_ip_enumerate_members offset ips mongo_port :
  Forall (λ ip, has_char ":" ip = false) ips →
  host_ip <$> enumerate_members offset ips mongo_port = ips.
Proof.
  revert offset. induction ips as [|ip ips IH]; intros offset Hips; [done|].
  apply Forall_cons in Hips as [Hip Hips]. simpl.
  rewrite (host_ip_new_member offset ip mongo_port Hip). f_equal. by apply IH.
Qed.

(** What the controller writes it reads back: the member ips that
    [gather_configured_members_ips] and [update_config] extract from the hosts
    of a configuration built by [create_mongo_config] are the ips it was built
    from, in order, provided no ip contains a colon. *)
Theorem create_mongo_config_host_ips
    (tasks_ips : list string) (replicaset_name : string) (mongo_port : Z) :
  Forall (λ ip, has_char ":" ip = false) tasks_ips →
  host_ip <$> cfg_members (create_mongo_config tasks_ips replicaset_name mongo_port)
  = tasks_ips.
Proof. intros Hips. simpl. by apply host_ip_enumerate_members. Qed.

(** With a colon in the ip (an IPv6 address) the round trip is lost. *)
Example host_ip_ipv6 : host_ip (new_member 0 "fe80::1" 27017) = "fe80".
Proof. reflexivity. Qed.

Lemma create_mongo_config_host_ips_witness :
  Forall (λ ip, has_char ":" ip = false) ["10.0.0.5"; "10.0.0.6"; "10.0.0.7"]
  ∧ host_ip <$> cfg_members
                  (create_mongo_config ["10.0.0.5"; "10.0.0.6"; "10.0.0.7"] "rs0" 27017)
    = ["10.0.0.5"; "10.0.0.6"; "10.0.0.7"].
Proof.
  assert (Hips : Forall (λ ip, has_char ":" ip = false)
                   ["10.0.0.5"; "10.0.0.6"; "10.0.0.7"])
    by (repeat constructor).
  split; [exact Hips|].
  exact (create_mongo_config_host_ips _ "rs0" 27017 Hips).
Defined.

Section Convergence.

Variable set_iter : gset string → list string.
Hypothesis set_iter_perm : ∀ s, set_iter s ≡ₚ elements s.

Lemma elem_of_set_iter (s : gset string) (x : string) : x ∈ set_iter s ↔ x ∈ s.
Proof. by rewrite set_iter_perm, elem_of_elements. Qed.

Lemma NoDup_set_iter (s : gset string) : NoDup (set_iter s).
Proof. rewrite set_iter_perm. apply NoDup_elements. Qed.

(** The host ips of the members after a mutation that removes [K ∖ T] and
    adds [T ∖ K]. *)
Lemma mutate_config_host_ips config (K T : gset string) mongo_port :
  (∀ ip, ip ∈ T ∖ K → has_char ":" ip = false) →
  host_ip <$> cfg_members (mutate_config set_iter config (K ∖ T) (T ∖ K) mongo_port)
  = filter (λ ip, ip ∉ K ∖ T) (host_ip <$> cfg_members config) ++ set_iter (T ∖ K).
Proof.
  intros Hcolon. rewrite mutate_config_members. cbv zeta.
  rewrite fmap_app. f_equal.
  - induction (cfg_members config) as [|m l IH]; [done|].
    rewrite fmap_cons.
    destruct (decide (host_ip m ∈ K ∖ T)) as [Hin|Hout].
    + rewrite !filter_cons_False by (intros Hn; by apply Hn). exact IH.
    + rewrite !filter_cons_True by done. rewrite fmap_cons. by f_equal.
  - destruct (decide (T ∖ K = ∅)) as [Hempty|_].
    + pose proof (set_iter_perm (T ∖ K)) as Hp. rewrite Hempty, elements_empty in Hp.
      rewrite Hempty. apply Permutation_nil_r in Hp. by rewrite Hp.
    + apply host_ip_enumerate_members. apply Forall_forall. intros ip Hip.
      apply Hcolon. by apply elem_of_set_iter.
Qed.

(** Membership convergence.  When the ips [update_config] takes for the
    current members are those of the configuration it reads, the member ips
    of the configuration it builds are exactly the new ips (none of the added
    ones containing a colon). *)
Theorem mutate_config_converges (config : Config) (K T : gset string) (mongo_port : Z) :
  list_to_set (host_ip <$> cfg_members config) = K →
  (∀ ip, ip ∈ T ∖ K → has_char ":" ip = false) →
  list_to_set (host_ip <$>
               cfg_members (mutate_config set_iter config (K ∖ T) (T ∖ K) mongo_port))
  = T.
Proof.
  intros HK Hcolon. rewrite mutate_config_host_ips by done.
  apply set_eq. intros x.
  rewrite elem_of_list_to_set, elem_of_app, list_elem_of_filter, elem_of_set_iter.
  rewrite <- (elem_of_list_to_set (C := gset string)), HK.
  rewrite !elem_of_difference.
  destruct (decide (x ∈ K)), (decide (x ∈ T)); tauto.
Qed.

(** No duplicate hosts.  Under the same conditions, if no two members of the
    configuration read have the same host ip, no two members of the
    configuration built have. *)
Theorem mutate_config_unique_hosts (config : Config) (K T : gset string) (mongo_port : Z) :
  list_to_set (host_ip <$> cfg_members config) = K →
  (∀ ip, ip ∈ T ∖ K → has_char ":" ip = false) →
  NoDup (host_ip <$> cfg_members config) →
  NoDup (host_ip <$>
         cfg_members (mutate_config set_iter config (K ∖ T) (T ∖ K) mongo_port)).
Proof.
  intros HK Hcolon Hnd. rewrite mutate_config_host_ips by done.
  apply NoDup_app. split; [by apply NoDup_filter|]. split; [|apply NoDup_set_iter].
  intros x [_ Hx]%list_elem_of_filter Hadd.
  apply elem_of_set_iter, elem_of_difference in Hadd as [_ HnK].
  apply HnK. rewrite <- HK. by apply elem_of_list_to_set.
Qed.

End Convergence.

(** The two theorems at scenario S3. *)
Lemma mutate_config_converges_witness :
  (∀ s : gset string, elements s ≡ₚ elements s)
  ∧ list_to_set (host_ip <$> cfg_members rs0_config) = rs0_ips
  ∧ (∀ ip, ip ∈ scaled_out_ips ∖ rs0_ips → has_char ":" ip = false)
  ∧ list_to_set (host_ip <$>
                 cfg_members (mutate_config elements rs0_config
                                (rs0_ips ∖ scaled_out_ips) (scaled_out_ips ∖ rs0_ips) 27017))
    = scaled_out_ips.
Proof.
  assert (HK : list_to_set (host_ip <$> cfg_members rs0_config) = rs0_ips)
    by (vm_compute; reflexivity).
  assert (Hcolon : ∀ ip, ip ∈ scaled_out_ips ∖ rs0_ips → has_char ":" ip = false).
  { assert (Hadd : scaled_out_ips ∖ rs0_ips = {["10.0.0.8"]}) by (vm_compute; reflexivity).
    intros ip Hip. rewrite Hadd in Hip. apply elem_of_singleton in Hip. by rewrite Hip. }
  split; [reflexivity|]. split; [exact HK|]. split; [exact Hcolon|].
  exact (mutate_config_converges elements (λ s, reflexivity (elements s))
           rs0_config rs0_ips scaled_out_ips 27017 HK Hcolon).
Defined.

Lemma mutate_config_unique_hosts_witness :
  (∀ s : gset string, elements s ≡ₚ elements s)
  ∧ list_to_set (host_ip <$> cfg_members rs0_config) = rs0_ips
  ∧ (∀ ip, ip ∈ scaled_out_ips ∖ rs0_ips → has_char ":" ip = false)
  ∧ NoDup (host_ip <$> cfg_members rs0_config)
  ∧ NoDup (host_ip <$>
           cfg_members (mutate_config elements rs0_config
                          (rs0_ips ∖ scaled_out_ips) (scaled_out_ips ∖ rs0_ips) 27017)).
Proof.
  assert (HK : list_to_set (host_ip <$> cfg_members rs0_config) = rs0_ips)
    by (vm_compute; reflexivity).
  assert (Hcolon : ∀ ip, ip ∈ scaled_out_ips ∖ rs0_ips → has_char ":" ip = false).
  { assert (Hadd : scaled_out_ips ∖ rs0_ips = {["10.0.0.8"]}) by (vm_compute; reflexivity).
    intros ip Hip. rewrite Hadd in Hip. apply elem_of_singleton in Hip. by rewrite Hip. }
  assert (Hnd : NoDup (host_ip <$> cfg_members rs0_config)).
  { apply (bool_decide_unpack _). vm_compute. exact I. }
  split; [reflexivity|]. split; [exact HK|]. split; [exact Hcolon|]. split; [exact Hnd|].
  exact (mutate_config_unique_hosts elements (λ s, reflexivity (elements s))
           rs0_config rs0_ips scaled_out_ips 27017 HK Hcolon Hnd).
Defined.

(** ** Version and set name along a sequence of mutations *)

Lemma mutations_version_name (set_iter : gset string → list string)
    config steps mongo_port (i : nat) c :
  mutations set_iter config steps mongo_port !! i = Some c →
  cfg_version c = cfg_version config + Z.of_nat i ∧ cfg_id c = cfg_id config.
Proof.
  revert config i. induction steps as [|[rm add] later IH]; intros config i.
  - destruct i as [|i]; simpl; [|done]. intros [= <-]. split; [lia|done].
  - destruct i as [|i]; simpl.
    + intros [= <-]. split; [lia|done].
    + intros Hc. apply IH in Hc as [Hv Hn]. simpl in Hv, Hn. split; [lia|done].
Qed.

(** Version monotonicity.  Along every sequence of mutations that starts from
    a fresh configuration, the configuration reached after [i] mutations has
    version [1 + i] and still the set name it was created with. *)
Theorem mutations_version_counts
    (set_iter : gset string → list string)
    (tasks_ips : list string) (replicaset_name : string) (mongo_port : Z)
    (steps : list (gset string * gset string)) (i : nat) (c : Config) :
  mutations set_iter (create_mongo_config tasks_ips replicaset_name mongo_port)
    steps mongo_port !! i = Some c →
  cfg_version c = 1 + Z.of_nat i ∧ cfg_id c = replicaset_name.
Proof. intros Hc. by apply mutations_version_name in Hc. Qed.

Lemma mutations_version_counts_witness :
  mutations elements (create_mongo_config ["10.0.0.5"; "10.0.0.6"; "10.0.0.7"] "rs0" 27017)
    [({["10.0.0.7"]}, {["10.0.0.8"]})] 27017 !! 1%nat
  = Some {| cfg_id := "rs0";
            cfg_members := [ mkMember 0 "10.0.0.5:27017" [];
                             mkMember 1 "10.0.0.6:27017" [];
                             mkMember 2 "10.0.0.8:27017" [] ];
            cfg_version := 2; cfg_rest := [] |}
  ∧ (2 = 1 + Z.of_nat 1 ∧ "rs0" = "rs0").
Proof.
  assert (Hc : mutations elements
                 (create_mongo_config ["10.0.0.5"; "10.0.0.6"; "10.0.0.7"] "rs0" 27017)
                 [({["10.0.0.7"]}, {["10.0.0.8"]})] 27017 !! 1%nat
               = Some {| cfg_id := "rs0";
                         cfg_members := [ mkMember 0 "10.0.0.5:27017" [];
                                          mkMember 1 "10.0.0.6:27017" [];
                                          mkMember 2 "10.0.0.8:27017" [] ];
                         cfg_version := 2; cfg_rest := [] |})
    by (vm_compute; reflexivity).
  split; [exact Hc|].
  exact (mutations_version_counts elements _ "rs0" 27017 _ 1%nat _ Hc).
Defined.

(** ** Probing for the primary and for initialization *)

Lemma length_filter_all {A} (P : A → Prop) `{!∀ x, Decision (P x)} (l : list A) :
  length (filter P l) = length l ↔ Forall P l.
Proof.
  induction l as [|x l IH].
  - split; [constructor|done].
  - pose proof (length_filter P l) as Hle.
    destruct (decide (P x)) as [HP|HP].
    + rewrite filter_cons_True by done. simpl. rewrite Forall_cons. split.
      * intros Hlen. split; [done|]. apply IH. lia.
      * intros [_ Hl]. apply IH in Hl. lia.
    + rewrite filter_cons_False by done. simpl. rewrite Forall_cons. split.
      * intros Hlen. lia.
      * by intros [? _].
Qed.

Section Probing.

Variable E : Env.

Lemma get_primary_ip_cons t rest h :
  get_primary_ip E (t :: rest) h
  = let a := env_hello E h t in
    if match a with Ok topo => isWritablePrimary topo | Raise _ => false end
    then (Ok (Some t), [EvHello t a])
    else let '(r, evs) := get_primary_ip E rest (h ++ [EvHello t a]) in
         (r, EvHello t a :: evs).
Proof.
  simpl. unfold bind, try_except, hello, ret. simpl.
  destruct (env_hello E h t) as [topo|e]; simpl.
  - destruct (isWritablePrimary topo); simpl; [done|].
    by destruct (get_primary_ip E rest _).
  - by destruct (get_primary_ip E rest _).
Qed.

(** [get_primary_ip] never raises.  It probes the ips in the order given with
    [hello] and stops at the first answer that says [isWritablePrimary]: that
    ip is the result, every probe before it raised or answered otherwise, and
    no ip after it is probed.  It returns [None] exactly when it has probed
    every ip and none answered as writable primary. *)
Theorem get_primary_ip_first_writable (tasks_ips : list string) (h : History) :
  ∃ answers,
    (get_primary_ip E tasks_ips h).2 = zip_with EvHello tasks_ips answers
    ∧ match (get_primary_ip E tasks_ips h).1 with
      | Ok (Some t) =>
          ∃ before after silent topo,
            tasks_ips = before ++ t :: after
            ∧ answers = silent ++ [Ok topo]
            ∧ length silent = length before
            ∧ Forall not_writable silent
            ∧ isWritablePrimary topo = true
      | Ok None => length answers = length tasks_ips ∧ Forall not_writable answers
      | Raise _ => False
      end.
Proof.
  revert h. induction tasks_ips as [|t rest IH]; intros h.
  - exists []. by split.
  - rewrite get_primary_ip_cons. cbv zeta.
    destruct (match env_hello E h t with
              | Ok topo => isWritablePrimary topo
              | Raise _ => false
              end) eqn:Hw.
    + destruct (env_hello E h t) as [topo|e] eqn:Ha; [|done].
      exists [Ok topo]. simpl. split; [by rewrite zip_with_nil_r|].
      exists [], rest, [], topo. by repeat split.
    + destruct (IH (h ++ [EvHello t (env_hello E h t)])) as (answers & Hevs & Hres).
      destruct (get_primary_ip E rest _) as [r evs]. simpl in Hevs, Hres.
      exists (env_hello E h t :: answers). simpl. split; [by rewrite Hevs|].
      assert (Hnw : not_writable (env_hello E h t))
        by (by destruct (env_hello E h t)).
      destruct r as [[t'|]|e]; [| |done].
      * destruct Hres as (before & after & silent & topo & -> & -> & Hlen & Hsil & Htopo).
        exists (t :: before), after, (env_hello E h t :: silent), topo.
        split; [done|]. split; [done|]. split; [by rewrite !length_cons, Hlen|].
        split; [by constructor|done].
      * destruct Hres as [Hlen Hall]. split; [by rewrite Hlen|by constructor].
Qed.

Lemma initialization_check_cons t rest u r h :
  initialization_check E (t :: rest) u r h
  = let a := env_hello E h t in
    let '(res, evs) :=
      initialization_check E rest
        (match a with
         | Ok topo => if bool_decide (setName topo = None) then S u else u
         | Raise _ => u
         end)
        (match a with Ok _ => S r | Raise _ => r end)
        (h ++ [EvHello t a]) in
    (res, EvHello t a :: evs).
Proof.
  simpl. unfold bind, try_except, hello, ret. simpl.
  destruct (env_hello E h t) as [topo|e]; simpl.
  - destruct (setName topo) as [name|]; simpl;
      by destruct (initialization_check E rest _ _ _).
  - by destruct (initialization_check E rest _ _ _).
Qed.

Lemma initialization_check_run tasks_ips u r h :
  ∃ answers,
    length answers = length tasks_ips
    ∧ initialization_check E tasks_ips u r h
      = (Ok ((u + length (filter (λ topo, setName topo = None)
                            (reached_topologies answers)))%nat,
             (r + length (reached_topologies answers))%nat),
         zip_with EvHello tasks_ips answers).
Proof.
  revert u r h. induction tasks_ips as [|t rest IH]; intros u r h.
  - exists []. split; [done|]. simpl. unfold ret. do 3 f_equal; lia.
  - rewrite initialization_check_cons. cbv zeta.
    set (a := env_hello E h t).
    destruct (IH (match a with
                  | Ok topo => if bool_decide (setName topo = None) then S u else u
                  | Raise _ => u
                  end)
                 (match a with Ok _ => S r | Raise _ => r end)
                 (h ++ [EvHello t a])) as (answers & Hlen & ->).
    exists (a :: answers). split; [by rewrite !length_cons, Hlen|].
    destruct a as [topo|e]; simpl; [|done].
    destruct (decide (setName topo = None)) as [Hnone|Hsome].
    + rewrite bool_decide_eq_true_2, filter_cons_True by done. simpl.
      do 3 f_equal; lia.
    + rewrite bool_decide_eq_false_2, filter_cons_False by done.
      do 3 f_equal; lia.
Qed.

(** [is_replica_set_uninitialized] never raises.  For an empty list it answers
    [True] without probing.  Otherwise it probes every ip once, in order, with
    [hello], and answers [True] exactly when at least one node was reached
    and every node reached reports no set name; so it answers [False] when no
    node could be reached. *)
Theorem is_replica_set_uninitialized_spec (tasks_ips : list string) (h : History) :
  ∃ answers,
    length answers = length tasks_ips
    ∧ (is_replica_set_uninitialized E tasks_ips h).2 = zip_with EvHello tasks_ips answers
    ∧ ∃ result : bool,
        (is_replica_set_uninitialized E tasks_ips h).1 = Ok result
        ∧ (result = true ↔
           tasks_ips = []
           ∨ (reached_topologies answers ≠ []
              ∧ Forall (λ topo, setName topo = None) (reached_topologies answers))).
Proof.
  destruct tasks_ips as [|t rest].
  - exists []. split; [done|]. split; [done|]. exists true. split; [done|]. by split; [left|].
  - destruct (initialization_check_run (t :: rest) 0 0 h) as (answers & Hlen & Hrun).
    exists answers. split; [done|].
    unfold is_replica_set_uninitialized. rewrite bind_run, Hrun. simpl.
    split; [by rewrite app_nil_r|].
    eexists. split; [reflexivity|].
    rewrite andb_true_iff, !bool_decide_eq_true, length_filter_all.
    split.
    + intros [Hpos Hall]. right. split; [|done].
      intros Hnil. rewrite Hnil in Hpos. simpl in Hpos. lia.
    + intros [?|[Hne Hall]]; [done|]. split; [|done].
      destruct (reached_topologies answers); [done|simpl; lia].
Qed.

End Probing.

(** In scenario S4 nobody is primary: the one ip left is probed and the
    result is [None]. *)
Example get_primary_ip_nobody :
  get_primary_ip primary_lost_env ["10.0.0.7"] []
  = (Ok None,
     [ EvHello "10.0.0.7"
         (Ok {| isWritablePrimary := false; setName := Some "rs0"; primary := None |}) ]).
Proof. vm_compute. reflexivity. Qed.

(** No node reachable: not reported as uninitialized. *)
Example is_replica_set_uninitialized_unreachable :
  (is_replica_set_uninitialized (starting_env 1) ["10.0.0.5"; "10.0.0.6"] []).1 = Ok false.
Proof. vm_compute. reflexivity. Qed.

(** A fresh deployment is reported as uninitialized. *)
Example is_replica_set_uninitialized_fresh :
  (is_replica_set_uninitialized fresh_env ["10.0.0.5"; "10.0.0.6"] []).1 = Ok true.
Proof. vm_compute. reflexivity. Qed.

(** ** Exceptions of computations *)

Section Raises.

Context {A B : Type}.

Lemma raises_ret (a : A) (R : Exn → Prop) : raises_only (ret a) R.
Proof. by intros h e. Qed.

Lemma raises_raise (e : Exn) (R : Exn → Prop) : R e → raises_only (raise (A := A) e) R.
Proof. intros He h e'. simpl. by intros [= <-]. Qed.

Lemma raises_weaken (m : M A) (R R' : Exn → Prop) :
  raises_only m R → (∀ e, R e → R' e) → raises_only m R'.
Proof. intros Hm HR h e He. by apply HR, (Hm h). Qed.

Lemma raises_bind (m : M A) (k : A → M B) (R : Exn → Prop) :
  raises_only m R → (∀ a, raises_only (k a) R) → raises_only (bind m k) R.
Proof.
  intros Hm Hk h e. rewrite bind_run.
  specialize (Hm h). destruct (m h) as [[a|e'] evs]; simpl in *.
  - specialize (Hk a (h ++ evs)). destruct (k a (h ++ evs)) as [r evs']; simpl in *.
    apply Hk.
  - intros [= <-]. by apply Hm.
Qed.

End Raises.

Lemma raises_try_except {A} (body : M A) (classes : Exn → bool) (handler : Exn → M A)
    (R : Exn → Prop) :
  raises_only body (λ e, classes e = true ∨ R e) →
  (∀ e, classes e = true → raises_only (handler e) R) →
  raises_only (try_except body classes handler) R.
Proof.
  intros Hb Hh h e. unfold try_except.
  specialize (Hb h). destruct (body h) as [[a|e'] evs]; simpl in *; [done|].
  destruct (classes e') eqn:Hc.
  - specialize (Hh e' Hc (h ++ evs)).
    destruct (handler e' (h ++ evs)) as [r evs']; simpl in *. apply Hh.
  - simpl. intros [= <-]. destruct (Hb e' eq_refl) as [?|?]; [congruence|done].
Qed.

Lemma emits_Forall {A} (m : M A) (P : Event → Prop) (Q : A → Prop) (h : History) :
  emits m P Q → Forall P (m h).2.
Proof. intros Hm. apply Forall_forall. apply (Hm h). Qed.

Section ReconfigurerRuns.

Variable E : Env.
Variable set_iter : gset string → list string.

Lemma all_nodes_uninitialized_never_raises ips :
  raises_only (all_nodes_uninitialized E ips) (λ _, False).
Proof.
  induction ips as [|t rest IH]; simpl; [apply raises_ret|].
  apply raises_bind.
  - apply raises_try_except; [|intros e _; apply raises_ret].
    intros h e _. by left.
  - intros []; [apply raises_ret|exact IH].
Qed.

Lemma get_primary_ip_never_raises ips :
  raises_only (get_primary_ip E ips) (λ _, False).
Proof.
  induction ips as [|t rest IH]; simpl; [apply raises_ret|].
  apply raises_bind.
  - apply raises_try_except; [|intros e _; apply raises_ret].
    intros h e _. by left.
  - intros []; [apply raises_ret|exact IH].
Qed.

Lemma wait_for_primary_never_raises attempts primary_ip new_ips :
  raises_only (wait_for_primary E set_iter attempts primary_ip new_ips) (λ _, False).
Proof.
  revert primary_ip. induction attempts as [|n IH]; intros primary_ip; simpl;
    [apply raises_ret|].
  destruct (truthy primary_ip); [apply raises_ret|].
  apply raises_bind; [by intros h e|]. intros _.
  apply raises_bind; [apply get_primary_ip_never_raises|]. intros p. apply IH.
Qed.

Lemma choose_new_primary_raises new_ips to_add :
  raises_only (choose_new_primary E set_iter new_ips to_add)
              (λ e, e = IndexError ∧ set_iter new_ips = []).
Proof.
  unfold choose_new_primary.
  apply raises_bind.
  { eapply raises_weaken; [apply all_nodes_uninitialized_never_raises|done]. }
  intros uninitialized. apply raises_bind.
  { destruct (uninitialized && bool_decide (0 < size new_ips)%nat); [apply raises_ret|].
    eapply raises_weaken; [apply wait_for_primary_never_raises|done]. }
  intros [p|]; [apply raises_ret|].
  destruct (set_iter (new_ips ∖ to_add)); [|apply raises_ret].
  destruct (set_iter new_ips); [by apply raises_raise|apply raises_ret].
Qed.

Lemma reconfig_with_retry_cons n host config force h :
  reconfig_with_retry E (S n) host config force h
  = let a := env_reconfig E h host config force in
    match a with
    | Ok _ => (Ok tt, [EvReconfig host config force a])
    | Raise e =>
        if is_OperationFailure e
        then let '(r, evs) := reconfig_with_retry E n host config force
                                (h ++ [EvReconfig host config force a; EvSleep 5]) in
             (r, EvReconfig host config force a :: EvSleep 5 :: evs)
        else (Raise e, [EvReconfig host config force a])
    end.
Proof.
  simpl. unfold bind, try_except, replSetReconfig, sleep, ret. simpl.
  destruct (env_reconfig E h host config force) as [[]|e]; simpl; [done|].
  destruct (is_OperationFailure e); simpl; [|done].
  by destruct (reconfig_with_retry E n host config force _).
Qed.

(** The retry loop: the answers it got are operation failures followed by
    nothing, when the attempts are used up, or by the one answer that ended
    the loop, a success or another exception. *)
Lemma reconfig_with_retry_run n host config force h :
  ∃ failures final,
    (reconfig_with_retry E n host config force h).2
    = retry_events host config force (failures ++ final)
    ∧ Forall operation_failure failures
    ∧ (length (failures ++ final) ≤ n)%nat
    ∧ ((final = [] ∧ length failures = n
        ∧ (reconfig_with_retry E n host config force h).1 = Ok tt)
       ∨ (final = [Ok tt]
          ∧ (reconfig_with_retry E n host config force h).1 = Ok tt)
       ∨ (∃ e, final = [Raise e] ∧ is_OperationFailure e = false
               ∧ (reconfig_with_retry E n host config force h).1 = Raise e)).
Proof.
  revert h. induction n as [|n IH]; intros h.
  - exists [], []. simpl. split; [done|]. split; [constructor|]. split; [lia|]. by left.
  - rewrite reconfig_with_retry_cons. cbv zeta.
    destruct (env_reconfig E h host config force) as [[]|e] eqn:Ha.
    + exists [], [Ok tt]. simpl. split; [done|]. split; [constructor|]. split; [lia|].
      right. by left.
    + destruct (is_OperationFailure e) eqn:Hof.
      * destruct (IH (h ++ [EvReconfig host config force (Raise e); EvSleep 5]))
          as (failures & final & Hevs & Hfail & Hlen & Hres).
        destruct (reconfig_with_retry E n host config force _) as [r evs].
        simpl in Hevs, Hres. subst evs.
        exists (Raise e :: failures), final. simpl. rewrite Hof. simpl.
        split; [done|]. split; [by constructor|]. split; [lia|].
        destruct Hres as [(-> & <- & ->)|[(-> & ->)|(e' & -> & He' & ->)]].
        -- by left.
        -- right. by left.
        -- right. right. by exists e'.
      * exists [], [Raise e]. simpl. rewrite Hof. simpl.
        split; [done|]. split; [constructor|]. split; [lia|].
        right. right. by exists e.
Qed.

(** The last part of [update_config]: read the configuration from the target,
    mutate it, send it with retries; whatever happens is caught. *)
Lemma send_config_run (n : nat) target to_remove to_add mongo_port force h :
  let run := try_except
               (config <- replSetGetConfig E target ;;
                reconfig_with_retry E n target
                  (mutate_config set_iter config to_remove to_add mongo_port) force)
               is_Exception (λ _, ret tt) h in
  (∃ e, run = (Ok tt, [EvGetConfig target (Raise e)]))
  ∨ (∃ config0 failures final,
       run = (Ok tt,
              EvGetConfig target (Ok config0)
              :: retry_events target
                   (mutate_config set_iter config0 to_remove to_add mongo_port)
                   force (failures ++ final))
       ∧ Forall operation_failure failures
       ∧ (length (failures ++ final) ≤ n)%nat
       ∧ (final = [] ∧ length failures = n
          ∨ final = [Ok tt]
          ∨ ∃ e, final = [Raise e] ∧ is_OperationFailure e = false)).
Proof.
  cbv zeta. unfold try_except. rewrite bind_run. unfold replSetGetConfig.
  cbn [fst snd].
  destruct (env_get_config E h target) as [config0|e].
  - right.
    destruct (reconfig_with_retry_run n target
                (mutate_config set_iter config0 to_remove to_add mongo_port) force
                (h ++ [EvGetConfig target (Ok config0)]))
      as (failures & final & Hevs & Hfail & Hlen & Hres).
    destruct (reconfig_with_retry E n target _ force _) as [r evs].
    simpl in Hevs, Hres. subst evs.
    exists config0, failures, final.
    destruct Hres as [(-> & Hl & ->)|[(-> & ->)|(e' & -> & He' & ->)]]; simpl.
    + split; [done|]. split; [done|]. split; [done|]. by left.
    + split; [done|]. split; [done|]. split; [done|]. right. by left.
    + rewrite app_nil_r. split; [done|]. split; [done|]. split; [done|].
      right. right. by exists e'.
  - left. by exists e.
Qed.

Lemma expected_force_gone primary_ip to_remove to_add :
  primary_gone primary_ip to_remove → expected_force primary_ip to_remove to_add = true.
Proof.
  unfold expected_force. intros [->|(p & -> & Hp)].
  - by rewrite orb_true_r.
  - rewrite (bool_decide_eq_true_2 _ Hp). by rewrite orb_true_r.
Qed.

Lemma expected_force_stays p to_remove to_add :
  p ∉ to_remove →
  expected_force (Some p) to_remove to_add
  = bool_decide (1 < size to_remove)%nat || bool_decide (1 < size to_add)%nat.
Proof.
  intros Hp. unfold expected_force.
  rewrite (bool_decide_eq_false_2 _ Hp). by rewrite orb_false_r.
Qed.

(** [update_config] once its first test is passed: the choice of the target
    and the reconfiguration. *)
Lemma update_config_tail primary_ip new_ips to_remove to_add mongo_port h :
  let run :=
    (let* (force, target) :=
       (match primary_ip with
        | Some p =>
            if bool_decide (p ∈ to_remove)
            then (p' <- choose_new_primary E set_iter new_ips to_add ;; ret (true, p'))
            else ret (bool_decide (1 < size to_remove)%nat
                      || bool_decide (1 < size to_add)%nat, p)
        | None => p' <- choose_new_primary E set_iter new_ips to_add ;; ret (true, p')
        end) in
     try_except
       (config <- replSetGetConfig E target ;;
        reconfig_with_retry E 3 target
          (mutate_config set_iter config to_remove to_add mongo_port) force)
       is_Exception (λ _, ret tt)) h in
  ∃ sel,
    Forall is_probe sel
    ∧ ((primary_gone primary_ip to_remove ∧ set_iter new_ips = []
        ∧ run = (Raise IndexError, sel))
       ∨ (∃ target e, run = (Ok tt, sel ++ [EvGetConfig target (Raise e)]))
       ∨ (∃ target config0 failures final,
            run = (Ok tt,
                   sel ++ EvGetConfig target (Ok config0)
                   :: retry_events target
                        (mutate_config set_iter config0 to_remove to_add mongo_port)
                        (expected_force primary_ip to_remove to_add)
                        (failures ++ final))
            ∧ Forall operation_failure failures
            ∧ (length (failures ++ final) ≤ 3)%nat
            ∧ (final = [] ∧ length failures = 3%nat
               ∨ final = [Ok tt]
               ∨ ∃ e, final = [Raise e] ∧ is_OperationFailure e = false))).
Proof.
  cbv zeta.
  assert (Hchoose : primary_gone primary_ip to_remove →
    ∃ sel,
      Forall is_probe sel
      ∧ ((primary_gone primary_ip to_remove ∧ set_iter new_ips = []
          ∧ (let* (force, target) :=
               (p' <- choose_new_primary E set_iter new_ips to_add ;; ret (true, p')) in
             try_except
               (config <- replSetGetConfig E target ;;
                reconfig_with_retry E 3 target
                  (mutate_config set_iter config to_remove to_add mongo_port) force)
               is_Exception (λ _, ret tt)) h = (Raise IndexError, sel))
         ∨ (∃ target e,
              (let* (force, target) :=
                 (p' <- choose_new_primary E set_iter new_ips to_add ;; ret (true, p')) in
               try_except
                 (config <- replSetGetConfig E target ;;
                  reconfig_with_retry E 3 target
                    (mutate_config set_iter config to_remove to_add mongo_port) force)
                 is_Exception (λ _, ret tt)) h
              = (Ok tt, sel ++ [EvGetConfig target (Raise e)]))
         ∨ (∃ target config0 failures final,
              (let* (force, target) :=
                 (p' <- choose_new_primary E set_iter new_ips to_add ;; ret (true, p')) in
               try_except
                 (config <- replSetGetConfig E target ;;
                  reconfig_with_retry E 3 target
                    (mutate_config set_iter config to_remove to_add mongo_port) force)
                 is_Exception (λ _, ret tt)) h
              = (Ok tt,
                 sel ++ EvGetConfig target (Ok config0)
                 :: retry_events target
                      (mutate_config set_iter config0 to_remove to_add mongo_port)
                      (expected_force primary_ip to_remove to_add)
                      (failures ++ final))
              ∧ Forall operation_failure failures
              ∧ (length (failures ++ final) ≤ 3)%nat
              ∧ (final = [] ∧ length failures = 3%nat
                 ∨ final = [Ok tt]
                 ∨ ∃ e, final = [Raise e] ∧ is_OperationFailure e = false)))).
  { intros Hgone. rewrite (expected_force_gone _ _ to_add Hgone).
    rewrite !bind_run.
    pose proof (emits_Forall _ _ _ h (choose_new_primary_emits E set_iter new_ips to_add))
      as Hsel.
    pose proof (choose_new_primary_raises new_ips to_add h) as Hraise.
    destruct (choose_new_primary E set_iter new_ips to_add h) as [[p'|e] sel];
      simpl in Hsel, Hraise; exists sel; (split; [exact Hsel|]).
    - cbn [ret fst snd]. rewrite app_nil_r.
      pose proof (send_config_run 3 p' to_remove to_add mongo_port true (h ++ sel))
        as Hsend. cbv zeta in Hsend.
      destruct Hsend as [(e & ->)|(config0 & failures & final & -> & ?)].
      + right. left. by exists p', e.
      + right. right. by exists p', config0, failures, final.
    - left. destruct (Hraise e eq_refl) as [-> Hnew]. by repeat split. }
  destruct primary_ip as [p|].
  - destruct (bool_decide (p ∈ to_remove)) eqn:Hp.
    + apply bool_decide_eq_true in Hp. apply Hchoose. right. by exists p.
    + apply bool_decide_eq_false in Hp. exists []. split; [constructor|].
      rewrite (expected_force_stays _ _ to_add Hp). rewrite bind_run. cbn [ret fst snd].
      rewrite app_nil_r.
      pose proof (send_config_run 3 p to_remove to_add mongo_port
                    (bool_decide (1 < size to_remove)%nat
                     || bool_decide (1 < size to_add)%nat) h) as Hsend.
      cbv zeta in Hsend.
      destruct Hsend as [(e & ->)|(config0 & failures & final & -> & ?)].
      * right. left. by exists p, e.
      * right. right. by exists p, config0, failures, final.
  - apply Hchoose. by left.
Qed.

(** The ways a call of [update_config] can go: it raises [AssertionError]
    at once; or, after probes and sleeps only, it raises [IndexError], or
    fails to read the configuration of its target, or reads it and sends the
    mutated configuration, with retries. *)
Lemma update_config_run primary_ip current_ips new_ips mongo_port h :
  let to_remove := current_ips ∖ new_ips in
  let to_add := new_ips ∖ current_ips in
  let run := update_config E set_iter primary_ip current_ips new_ips mongo_port h in
  (current_ips = ∅ ∧ new_ips = ∅ ∧ run = (Raise AssertionError, []))
  ∨ ((current_ips ≠ ∅ ∨ new_ips ≠ ∅)
     ∧ ∃ sel,
         Forall is_probe sel
         ∧ ((primary_gone primary_ip to_remove ∧ set_iter new_ips = []
             ∧ run = (Raise IndexError, sel))
            ∨ (∃ target e, run = (Ok tt, sel ++ [EvGetConfig target (Raise e)]))
            ∨ (∃ target config0 failures final,
                 run = (Ok tt,
                        sel ++ EvGetConfig target (Ok config0)
                        :: retry_events target
                             (mutate_config set_iter config0 to_remove to_add mongo_port)
                             (expected_force primary_ip to_remove to_add)
                             (failures ++ final))
                 ∧ Forall operation_failure failures
                 ∧ (length (failures ++ final) ≤ 3)%nat
                 ∧ (final = [] ∧ length failures = 3%nat
                    ∨ final = [Ok tt]
                    ∨ ∃ e, final = [Raise e] ∧ is_OperationFailure e = false)))).
Proof.
  cbv zeta. unfold update_config. cbv zeta. rewrite bind_run.
  pose proof (update_config_tail primary_ip new_ips (current_ips ∖ new_ips)
                (new_ips ∖ current_ips) mongo_port (h ++ [])) as Htail.
  cbv zeta in Htail. destruct Htail as (sel & Hsel & Htail).
  destruct (bool_decide (current_ips ∖ new_ips = ∅ ∧ new_ips ∖ current_ips = ∅)
            && bool_decide (current_ips ≠ ∅)) eqn:H1.
  - apply andb_true_iff in H1 as [_ Hc]. apply bool_decide_eq_true in Hc.
    right. split; [by left|]. exists sel. split; [done|]. cbn [ret fst snd].
    destruct Htail as [(? & ? & ->)|[(t & e & ->)|(t & c0 & fs & fin & -> & ?)]].
    + by left.
    + right. left. by exists t, e.
    + right. right. by exists t, c0, fs, fin.
  - destruct (bool_decide (current_ips ∖ new_ips ≠ ∅ ∨ new_ips ∖ current_ips ≠ ∅)) eqn:H2.
    + apply bool_decide_eq_true in H2.
      right. split.
      { destruct H2 as [Hrm|Hadd].
        - left. intros ->. apply Hrm. apply set_eq. intros x.
          rewrite elem_of_difference. split; [intros [[]%not_elem_of_empty _]|].
          by intros ?%not_elem_of_empty.
        - right. intros ->. apply Hadd. apply set_eq. intros x.
          rewrite elem_of_difference. split; [intros [[]%not_elem_of_empty _]|].
          by intros ?%not_elem_of_empty. }
      exists sel. split; [done|]. cbn [ret fst snd].
      destruct Htail as [(? & ? & ->)|[(t & e & ->)|(t & c0 & fs & fin & -> & ?)]].
      * by left.
      * right. left. by exists t, e.
      * right. right. by exists t, c0, fs, fin.
    + apply bool_decide_eq_false in H2. left.
      assert (Hrm : current_ips ∖ new_ips = ∅).
      { destruct (decide (current_ips ∖ new_ips = ∅)); [done|]. exfalso. apply H2. by left. }
      assert (Hadd : new_ips ∖ current_ips = ∅).
      { destruct (decide (new_ips ∖ current_ips = ∅)); [done|]. exfalso. apply H2. by right. }
      assert (Hcur : current_ips = ∅).
      { apply andb_false_iff in H1 as [H1|H1]; apply bool_decide_eq_false in H1.
        - exfalso. by apply H1.
        - destruct (decide (current_ips = ∅)); [done|]. exfalso. by apply H1. }
      split; [done|]. split; [|done].
      rewrite Hcur in Hadd. apply set_eq. intros x. split; [|by intros ?%not_elem_of_empty].
      intros Hx. rewrite <- Hadd. apply elem_of_difference. split; [done|].
      apply not_elem_of_empty.
Qed.

End ReconfigurerRuns.

(** ** What [update_config] raises, sends and retries *)

Lemma reconfig_answers_app evs evs' :
  reconfig_answers (evs ++ evs') = reconfig_answers evs ++ reconfig_answers evs'.
Proof.
  induction evs as [|ev evs IH]; [done|].
  destruct ev; simpl; by rewrite IH.
Qed.

Lemma reconfig_answers_probes sel : Forall is_probe sel → reconfig_answers sel = [].
Proof.
  induction 1 as [|ev sel Hev _ IH]; [done|]. by destruct ev.
Qed.

Lemma reconfig_answers_retry_events host config force answers :
  reconfig_answers (retry_events host config force answers) = answers.
Proof.
  induction answers as [|a answers IH]; [done|]. simpl.
  destruct a as [[]|e]; simpl; [by rewrite IH|].
  destruct (is_OperationFailure e); simpl; by rewrite IH.
Qed.

Lemma elem_of_retry_events host config force answers ev :
  ev ∈ retry_events host config force answers →
  ev = EvSleep 5 ∨ ∃ a, ev = EvReconfig host config force a.
Proof.
  induction answers as [|a answers IH]; simpl; [by intros ?%elem_of_nil|].
  intros [->|Hin]%elem_of_cons; [right; by exists a|].
  apply elem_of_app in Hin as [Hin|Hin]; [|by apply IH].
  destruct a as [[]|e]; [by apply elem_of_nil in Hin|].
  destruct (is_OperationFailure e); [|by apply elem_of_nil in Hin].
  apply list_elem_of_singleton in Hin. by left.
Qed.

Section UpdateConfig.

Variable E : Env.
Variable set_iter : gset string → list string.

(** No exception of the database driver leaves [update_config]: it returns,
    or raises [AssertionError], or raises [IndexError].  It raises
    [AssertionError] exactly when the current and the new ip sets are both
    empty, and then before any call. *)
Theorem update_config_exceptions
    (primary_ip : option string) (current_ips new_ips : gset string) (mongo_port : Z)
    (h : History) :
  let run := update_config E set_iter primary_ip current_ips new_ips mongo_port h in
  (run.1 = Ok tt ∨ run.1 = Raise AssertionError ∨ run.1 = Raise IndexError)
  ∧ (run.1 = Raise AssertionError ↔ current_ips = ∅ ∧ new_ips = ∅)
  ∧ (run.1 = Raise AssertionError → run.2 = []).
Proof.
  intros run.
  destruct (update_config_run E set_iter primary_ip current_ips new_ips mongo_port h)
    as [(Hc & Hn & Hrun)|(Hne & sel & Hsel & Hrun)]; fold run in Hrun.
  - rewrite Hrun. simpl. split; [right; by left|]. by split.
  - assert (Hres : run.1 = Ok tt ∨ run.1 = Raise IndexError).
    { destruct Hrun as [(_ & _ & ->)|[(t & e & ->)|(t & c0 & fs & fin & -> & _)]];
        [by right|by left|by left]. }
    split; [destruct Hres; [by left|by right; right]|].
    split; [split|].
    + intros Ha. destruct Hres as [Hr|Hr]; rewrite Hr in Ha; discriminate Ha.
    + intros [-> ->]. by destruct Hne.
    + intros Ha. destruct Hres as [Hr|Hr]; rewrite Hr in Ha; discriminate Ha.
Qed.

(** The retry window of [update_config]: it sends at most three
    [replSetReconfig] commands, all to the same host with the same
    configuration and the same [force]; only the last one can have an answer
    other than an operation failure, so a command that succeeds is the last;
    and the configuration was read from that host before the first command. *)
Theorem update_config_retries
    (primary_ip : option string) (current_ips new_ips : gset string) (mongo_port : Z)
    (h : History) :
  let evs := (update_config E set_iter primary_ip current_ips new_ips mongo_port h).2 in
  let answers := reconfig_answers evs in
  (length answers ≤ 3)%nat
  ∧ (∀ (i : nat) a, answers !! i = Some a → (S i < length answers)%nat →
                    operation_failure a)
  ∧ (answers ≠ [] →
     ∃ host config force before config0,
       evs = before ++ EvGetConfig host (Ok config0)
                    :: retry_events host config force answers
       ∧ Forall is_probe before).
Proof.
  intros evs answers.
  destruct (update_config_run E set_iter primary_ip current_ips new_ips mongo_port h)
    as [(_ & _ & Hrun)|(_ & sel & Hsel & Hrun)].
  - subst answers evs. rewrite Hrun. simpl. split; [lia|]. by split.
  - destruct Hrun as [(_ & _ & Hrun)|[(t & e & Hrun)|(t & c0 & fs & fin & Hrun & Hfs & Hlen & Hfin)]];
      subst answers evs; rewrite Hrun; cbn [snd].
    + rewrite reconfig_answers_probes by done. simpl. split; [lia|]. by split.
    + rewrite reconfig_answers_app, reconfig_answers_probes by done. simpl.
      split; [lia|]. by split.
    + rewrite reconfig_answers_app, reconfig_answers_probes by done. simpl.
      rewrite reconfig_answers_retry_events.
      split; [done|]. split.
      * intros i a Hi Hlast.
        rewrite lookup_app_l in Hi.
        { eapply Forall_lookup_1; [exact Hfs|exact Hi]. }
        rewrite length_app in Hlast.
        destruct Hfin as [[-> _]|[->|(e & -> & _)]]; simpl in Hlast; lia.
      * intros _. eexists t, _, _, sel, c0. by split.
Qed.

(** What [update_config] sends is what it has read, mutated: every
    [replSetReconfig] of a call carries the configuration that the call read
    from the same host with [replSetGetConfig], changed by [mutate_config];
    so it has the version read plus 1 and the set name read. *)
Theorem update_config_sends_mutation
    (primary_ip : option string) (current_ips new_ips : gset string) (mongo_port : Z)
    (h : History) (host : string) (config : Config) (force : bool) (answer : Res unit) :
  EvReconfig host config force answer
    ∈ (update_config E set_iter primary_ip current_ips new_ips mongo_port h).2 →
  ∃ config0,
    EvGetConfig host (Ok config0)
      ∈ (update_config E set_iter primary_ip current_ips new_ips mongo_port h).2
    ∧ config = mutate_config set_iter config0 (current_ips ∖ new_ips)
                 (new_ips ∖ current_ips) mongo_port
    ∧ cfg_version config = cfg_version config0 + 1
    ∧ cfg_id config = cfg_id config0.
Proof.
  destruct (update_config_run E set_iter primary_ip current_ips new_ips mongo_port h)
    as [(_ & _ & Hrun)|(_ & sel & Hsel & Hrun)].
  { rewrite Hrun. by intros ?%elem_of_nil. }
  assert (Hprobe : ¬ EvReconfig host config force answer ∈ sel).
  { intros Hin. eapply Forall_forall in Hsel; [|exact Hin]. done. }
  destruct Hrun as [(_ & _ & Hrun)|[(t & e & Hrun)|(t & c0 & fs & fin & Hrun & _)]];
    rewrite Hrun; cbn [snd].
  - done.
  - intros [Hin|Hin]%elem_of_app; [done|].
    apply list_elem_of_singleton in Hin. discriminate Hin.
  - intros [Hin|Hin]%elem_of_app; [done|].
    apply elem_of_cons in Hin as [Heq|Hin]; [discriminate Heq|].
    apply elem_of_retry_events in Hin as [Heq|(a & Heq)]; [discriminate Heq|].
    injection Heq as -> -> -> ->.
    exists c0. split; [|by split].
    apply elem_of_app. right. apply list_elem_of_here.
Qed.

End UpdateConfig.

Lemma update_config_sends_mutation_witness :
  EvReconfig "10.0.0.5" (mutate_config elements rs0_config ∅ {["10.0.0.8"]} 27017)
             false (Ok tt)
    ∈ (update_config scale_out_env elements (Some "10.0.0.5")
         rs0_ips scaled_out_ips 27017 []).2
  ∧ ∃ config0,
      EvGetConfig "10.0.0.5" (Ok config0)
        ∈ (update_config scale_out_env elements (Some "10.0.0.5")
             rs0_ips scaled_out_ips 27017 []).2
      ∧ mutate_config elements rs0_config ∅ {["10.0.0.8"]} 27017
        = mutate_config elements config0 (rs0_ips ∖ scaled_out_ips)
            (scaled_out_ips ∖ rs0_ips) 27017
      ∧ cfg_version (mutate_config elements rs0_config ∅ {["10.0.0.8"]} 27017)
        = cfg_version config0 + 1
      ∧ cfg_id (mutate_config elements rs0_config ∅ {["10.0.0.8"]} 27017)
        = cfg_id config0.
Proof.
  assert (Hev : EvReconfig "10.0.0.5"
                  (mutate_config elements rs0_config ∅ {["10.0.0.8"]} 27017)
                  false (Ok tt)
                ∈ (update_config scale_out_env elements (Some "10.0.0.5")
                     rs0_ips scaled_out_ips 27017 []).2) by in_events.
  split; [exact Hev|].
  exact (update_config_sends_mutation scale_out_env elements _ _ _ _ _ _ _ _ _ Hev).
Defined.

(** The database rejects every reconfiguration: three commands, three sleeps
    of 5 seconds, and the call returns. *)
Example update_config_rejected :
  let run := update_config rejecting_env elements (Some "10.0.0.5")
               rs0_ips scaled_out_ips 27017 [] in
  run.1 = Ok tt
  ∧ length (reconfig_answers run.2) = 3%nat
  ∧ sleep_durations run.2 = [5; 5; 5].
Proof. repeat split; vm_compute; reflexivity. Qed.

(** ** Scaling the service to zero *)

Section ScaleToZero.

Variable E : Env.
Variable set_iter : gset string → list string.

Lemma wait_for_primary_nobody attempts new_ips h :
  set_iter new_ips = [] →
  wait_for_primary E set_iter attempts None new_ips h
  = (Ok None, replicate attempts (EvSleep 10)).
Proof.
  intros Hnew. revert h. induction attempts as [|n IH]; intros h; [done|].
  cbn [wait_for_primary truthy]. rewrite bind_run. cbn [sleep].
  rewrite bind_run, Hnew. cbn [get_primary_ip ret].
  rewrite IH. done.
Qed.

Lemma choose_new_primary_nobody new_ips to_add h :
  set_iter new_ips = [] → size new_ips = 0%nat → set_iter (new_ips ∖ to_add) = [] →
  choose_new_primary E set_iter new_ips to_add h
  = (Raise IndexError, replicate 6 (EvSleep 10)).
Proof.
  intros Hnew Hsize Hold. unfold choose_new_primary.
  rewrite bind_run, Hnew. cbn [all_nodes_uninitialized ret].
  rewrite Hsize, bind_run.
  rewrite bool_decide_eq_false_2 by lia. cbn [andb].
  rewrite wait_for_primary_nobody by done.
  rewrite Hold. unfold raise. by rewrite app_nil_r.
Qed.

Lemma update_config_nobody_left primary_ip current_ips mongo_port h :
  set_iter ∅ = [] → current_ips ≠ ∅ → primary_gone primary_ip current_ips →
  update_config E set_iter primary_ip current_ips ∅ mongo_port h
  = (Raise IndexError, replicate 6 (EvSleep 10)).
Proof.
  intros Hnone Hcur Hgone. unfold update_config. cbv zeta.
  assert (Hrm : current_ips ∖ ∅ = current_ips) by apply difference_empty_L.
  assert (Hadd : (∅ : gset string) ∖ current_ips = ∅)
    by apply subseteq_empty_difference_L, empty_subseteq.
  rewrite Hrm, Hadd, bind_run.
  rewrite (bool_decide_eq_false_2 (current_ips = ∅ ∧ _)) by (by intros [? _]).
  cbn [andb]. rewrite bool_decide_eq_true_2 by (by left). cbn [ret].
  rewrite bind_run.
  assert (Hchoose : ∀ h', choose_new_primary E set_iter ∅ ∅ h'
                          = (Raise IndexError, replicate 6 (EvSleep 10))).
  { intros h'. apply choose_new_primary_nobody.
    - done.
    - apply size_empty.
    - by rewrite difference_empty_L. }
  destruct Hgone as [->|(p & -> & Hp)].
  - by rewrite bind_run, Hchoose.
  - rewrite bool_decide_eq_true_2 by done. by rewrite bind_run, Hchoose.
Qed.

(** When the service is scaled to zero while the primary is unknown or was
    one of the members, [update_config] fails: it waits six times ten
    seconds for a primary among no ips, then takes the first element of an
    empty list.  The [IndexError] is not caught in [update_config], and this
    is the only way it raises one. *)
Theorem update_config_scale_to_zero
    (primary_ip : option string) (current_ips new_ips : gset string) (mongo_port : Z)
    (h : History) :
  (∀ s, set_iter s ≡ₚ elements s) →
  let run := update_config E set_iter primary_ip current_ips new_ips mongo_port h in
  (run.1 = Raise IndexError
   ↔ new_ips = ∅ ∧ current_ips ≠ ∅ ∧ primary_gone primary_ip current_ips)
  ∧ (run.1 = Raise IndexError → run.2 = replicate 6 (EvSleep 10)).
Proof.
  intros set_iter_perm run.
  assert (Hempty : ∀ s, set_iter s = [] ↔ s = ∅).
  { intros s. split.
    - intros Hs. apply leibniz_equiv, elements_empty_inv.
      apply Permutation_nil_r. by rewrite <- set_iter_perm, Hs.
    - intros ->. apply Permutation_nil_r. by rewrite set_iter_perm, elements_empty. }
  assert (Hzero : new_ips = ∅ → current_ips ≠ ∅ → primary_gone primary_ip current_ips →
                  run = (Raise IndexError, replicate 6 (EvSleep 10))).
  { intros -> Hcur Hgone. apply update_config_nobody_left; [|done..]. by apply Hempty. }
  assert (Hiff : run.1 = Raise IndexError
                 → new_ips = ∅ ∧ current_ips ≠ ∅ ∧ primary_gone primary_ip current_ips).
  { intros Hraise.
    destruct (update_config_run E set_iter primary_ip current_ips new_ips mongo_port h)
      as [(_ & _ & Hrun)|(Hne & sel & Hsel & Hrun)]; fold run in Hrun.
    { rewrite Hrun in Hraise. discriminate Hraise. }
    destruct Hrun as [(Hgone & Hnew & _)|[(t & e & Hrun)|(t & c0 & fs & fin & Hrun & _)]];
      [|rewrite Hrun in Hraise; discriminate Hraise..].
    apply Hempty in Hnew. subst new_ips.
    assert (Hrm : current_ips ∖ ∅ = current_ips) by apply difference_empty_L.
    rewrite Hrm in Hgone.
    split; [done|]. split; [|done]. by destruct Hne. }
  split; [split; [exact Hiff|]|].
  - intros (Hn & Hc & Hg). by rewrite Hzero.
  - intros Hraise. destruct (Hiff Hraise) as (Hn & Hc & Hg). by rewrite Hzero.
Qed.

End ScaleToZero.

Lemma update_config_scale_to_zero_witness :
  (∀ s : gset string, elements s ≡ₚ elements s)
  ∧ (update_config primary_lost_env elements (Some "10.0.0.5") rs0_ips ∅ 27017 []).1
    = Raise IndexError
  ∧ (update_config primary_lost_env elements (Some "10.0.0.5") rs0_ips ∅ 27017 []).2
    = replicate 6 (EvSleep 10).
Proof.
  assert (Hperm : ∀ s : gset string, elements s ≡ₚ elements s) by done.
  split; [exact Hperm|].
  pose proof (update_config_scale_to_zero primary_lost_env elements
                (Some "10.0.0.5") rs0_ips ∅ 27017 [] Hperm) as [Hiff Hevs].
  assert (Hraise : (update_config primary_lost_env elements (Some "10.0.0.5")
                      rs0_ips ∅ 27017 []).1 = Raise IndexError).
  { apply Hiff. split; [done|]. split.
    - intros Heq. assert (Hin : "10.0.0.5" ∈ rs0_ips) by (by vm_compute).
      rewrite Heq in Hin. by apply not_elem_of_empty in Hin.
    - right. exists "10.0.0.5". split; [done|]. by vm_compute. }
  split; [exact Hraise|exact (Hevs Hraise)].
Defined.

(** ** OrchestratorView: task ips and the service object *)

Lemma attachment_ips_run attachments net :
  match attachment_ips attachments net with
  | Ok ips =>
      ips = attachment_ip <$> filter (λ n, net_name n = net) attachments
      ∧ Forall (λ n, net_addresses n ≠ []) (filter (λ n, net_name n = net) attachments)
  | Raise e =>
      e = IndexError
      ∧ Exists (λ n, net_addresses n = []) (filter (λ n, net_name n = net) attachments)
  end.
Proof.
  induction attachments as [|n rest IH]; simpl; [by split|].
  destruct (decide (net_name n = net)) as [Hn|Hn].
  - rewrite filter_cons_True by done.
    destruct (net_addresses n) as [|address others] eqn:Haddr.
    { split; [done|]. by apply Exists_cons_hd. }
    destruct (attachment_ips rest net) as [ips|e].
    + destruct IH as [-> Hall]. split.
      * rewrite fmap_cons. unfold attachment_ip at 2. by rewrite Haddr.
      * apply Forall_cons. split; [by rewrite Haddr|done].
    + destruct IH as [-> Hex]. split; [done|]. by apply Exists_cons_tl.
  - rewrite filter_cons_False by done. exact IH.
Qed.

Lemma get_tasks_ips_run tasks net :
  match get_tasks_ips tasks net with
  | Ok ips =>
      ips = attachment_ip <$> overlay_attachments tasks net
      ∧ Forall (λ n, net_addresses n ≠ []) (overlay_attachments tasks net)
  | Raise e =>
      e = IndexError
      ∧ Exists (λ n, net_addresses n = []) (overlay_attachments tasks net)
  end.
Proof.
  unfold overlay_attachments.
  induction tasks as [|t rest IH]; simpl; [by split|].
  rewrite filter_app.
  pose proof (attachment_ips_run (task_networks t) net) as Hhere.
  destruct (attachment_ips (task_networks t) net) as [here|e].
  - destruct Hhere as [-> Hall].
    destruct (get_tasks_ips rest net) as [there|e].
    + destruct IH as [-> Hall']. split; [by rewrite fmap_app|].
      apply Forall_app. by split.
    + destruct IH as [-> Hex]. split; [done|]. apply Exists_app. by right.
  - destruct Hhere as [-> Hex]. split; [done|]. apply Exists_app. by left.
Qed.

(** What [get_tasks_ips] returns.  Whenever it returns, every attachment of
    the tasks to the named overlay network has an address, and the result
    has one ip per such attachment, in task order and attachment order: its
    first address up to the first slash.  Attachments to other networks play
    no part. *)
Theorem get_tasks_ips_returns (tasks : list Task) (overlay_network_name : string)
    (ips : list string) :
  get_tasks_ips tasks overlay_network_name = Ok ips →
  Forall (λ n, net_addresses n ≠ []) (overlay_attachments tasks overlay_network_name)
  ∧ ips = attachment_ip <$> overlay_attachments tasks overlay_network_name.
Proof.
  intros Hips.
  pose proof (get_tasks_ips_run tasks overlay_network_name) as Hrun.
  rewrite Hips in Hrun. by destruct Hrun as [-> Hall].
Qed.

Lemma get_tasks_ips_returns_witness :
  get_tasks_ips [rs0_task "10.0.0.5"; mixed_task] "mongo_net"
  = Ok ["10.0.0.5"; "10.0.0.9"]
  ∧ Forall (λ n, net_addresses n ≠ [])
      (overlay_attachments [rs0_task "10.0.0.5"; mixed_task] "mongo_net")
  ∧ ["10.0.0.5"; "10.0.0.9"]
    = attachment_ip <$> overlay_attachments [rs0_task "10.0.0.5"; mixed_task] "mongo_net".
Proof.
  assert (Hips : get_tasks_ips [rs0_task "10.0.0.5"; mixed_task] "mongo_net"
                 = Ok ["10.0.0.5"; "10.0.0.9"]) by reflexivity.
  split; [exact Hips|].
  exact (get_tasks_ips_returns _ _ _ Hips).
Defined.

(** Addresses in CIDR notation: when the attachments of the tasks to the
    overlay network have first addresses [ip/len], with no slash in [ip],
    [get_tasks_ips] returns these [ip]s. *)
Theorem get_tasks_ips_cidr (tasks : list Task) (overlay_network_name : string)
    (ips : list string) :
  Forall2 (λ n ip, has_char "/" ip = false
                   ∧ ∃ len others, net_addresses n = (ip +:+ String "/" len) :: others)
          (overlay_attachments tasks overlay_network_name) ips →
  get_tasks_ips tasks overlay_network_name = Ok ips.
Proof.
  intros Hcidr.
  pose proof (get_tasks_ips_run tasks overlay_network_name) as Hrun.
  destruct (get_tasks_ips tasks overlay_network_name) as [ips0|e0].
  - destruct Hrun as [-> _]. f_equal.
    induction Hcidr as [|n ip atts ips [Hip (len & others & Haddr)] _ IH]; [done|].
    rewrite fmap_cons, IH. f_equal.
    unfold attachment_ip. rewrite Haddr. simpl. by apply split_head_app.
  - destruct Hrun as [_ Hex]. exfalso.
    apply Exists_exists in Hex as (n & Hn & Hempty).
    apply list_elem_of_lookup in Hn as [i Hi].
    destruct (Forall2_lookup_l _ _ _ _ _ Hcidr Hi) as (ip & _ & _ & len & others & Haddr).
    by rewrite Hempty in Haddr.
Qed.

Lemma get_tasks_ips_cidr_witness :
  Forall2 (λ n ip, has_char "/" ip = false
                   ∧ ∃ len others, net_addresses n = (ip +:+ String "/" len) :: others)
          (overlay_attachments (rs0_task <$> ["10.0.0.5"; "10.0.0.6"]) "mongo_net")
          ["10.0.0.5"; "10.0.0.6"]
  ∧ get_tasks_ips (rs0_task <$> ["10.0.0.5"; "10.0.0.6"]) "mongo_net"
    = Ok ["10.0.0.5"; "10.0.0.6"].
Proof.
  assert (Hcidr : Forall2
            (λ n ip, has_char "/" ip = false
                     ∧ ∃ len others, net_addresses n = (ip +:+ String "/" len) :: others)
            (overlay_attachments (rs0_task <$> ["10.0.0.5"; "10.0.0.6"]) "mongo_net")
            ["10.0.0.5"; "10.0.0.6"]).
  { vm_compute overlay_attachments.
    repeat (constructor; [split; [reflexivity|by exists "24", []]|]).
    constructor. }
  split; [exact Hcidr|exact (get_tasks_ips_cidr _ _ _ Hcidr)].
Defined.

(** An attachment to the overlay network without an address makes
    [get_tasks_ips] raise, whatever the other tasks are. *)
Example get_tasks_ips_no_address :
  get_tasks_ips
    [ rs0_task "10.0.0.5";
      {| task_id := "task-new"; task_node_id := Some "node-new";
         task_state := "running";
         task_networks := [ {| net_name := "mongo_net"; net_addresses := [] |} ] |} ]
    "mongo_net"
  = Raise IndexError.
Proof. reflexivity. Qed.

Section ServiceObject.

Variable E : Env.

Lemma get_mongo_service_run name h :
  get_mongo_service E name h
  = (match services_named name (env_services E h) with
     | [svc] => Ok svc
     | [] => Raise (RuntimeError "Error: Could not find mongo service")
     | _ => Raise (RuntimeError "Unexpected: multiple docker services with the name found")
     end,
     [EvServices (env_services E h)]).
Proof.
  unfold get_mongo_service, services_list, services_named. rewrite bind_run. cbv zeta.
  destruct (filter _ (env_services E h)) as [|svc [|svc' more]]; simpl; done.
Qed.

(** [get_mongo_service] lists the services once.  It returns a service
    exactly when that service is the only one listed with the given name;
    with none or several it raises [RuntimeError]. *)
Theorem get_mongo_service_unique (mongo_service_name : string) (h : History) :
  (∀ svc, (get_mongo_service E mongo_service_name h).1 = Ok svc
          ↔ services_named mongo_service_name (env_services E h) = [svc])
  ∧ (∀ e, (get_mongo_service E mongo_service_name h).1 = Raise e →
          ∃ msg, e = RuntimeError msg)
  ∧ (get_mongo_service E mongo_service_name h).2 = [EvServices (env_services E h)].
Proof.
  rewrite get_mongo_service_run.
  destruct (services_named mongo_service_name (env_services E h))
    as [|svc0 [|svc1 more]]; simpl.
  - split; [by split|]. split; [|done]. intros e [= <-]. by eexists.
  - split; [|by split]. intros svc. split; by intros [= ->].
  - split; [by split|]. split; [|done]. intros e [= <-]. by eexists.
Qed.

Lemma services_named_name name services svc :
  svc ∈ services_named name services → svc_name svc = name.
Proof. unfold services_named. by intros [? _]%list_elem_of_filter. Qed.

Lemma sleep_durations_app evs evs' :
  sleep_durations (evs ++ evs') = sleep_durations evs ++ sleep_durations evs'.
Proof.
  induction evs as [|ev evs IH]; [done|]. destruct ev; simpl; by rewrite IH.
Qed.

Lemma is_service_up_quiet svc h :
  sleep_durations (is_service_up E (Some svc) h).2 = [].
Proof.
  unfold is_service_up, get_running_tasks, get_assigned_nodes, service_tasks,
    nodes_list, lift, bind, ret; simpl.
  destruct (assigned_node_ids _); simpl; [|done].
  by destruct (svc_mode svc).
Qed.

Lemma wait_for_service_up attempts name svc h :
  wait_for_service E attempts name svc false h = (Ok (attempts, svc, false), []).
Proof. by destruct attempts. Qed.

(** The start-up loop entered with [service_down = True]: when it is left
    with [service_down = False], the last poll found the service, alone
    under its name, and [is_service_up] said [True]; and it is left with
    [service_down = True] only with no attempts remaining. *)
Lemma wait_for_service_run attempts name svc0 h :
  match wait_for_service E attempts name svc0 true h with
  | (Ok (remaining, svc, service_down), evs) =>
      sleep_durations evs = replicate (attempts - remaining) 10
      ∧ (remaining ≤ attempts)%nat
      ∧ (if service_down then remaining = 0%nat
         else (remaining < attempts)%nat
              ∧ ∃ s before checks,
                  svc = Some s
                  ∧ evs = before
                          ++ EvSleep 10
                          :: EvServices (env_services E ((h ++ before) ++ [EvSleep 10]))
                          :: checks
                  ∧ services_named name (env_services E ((h ++ before) ++ [EvSleep 10]))
                    = [s]
                  ∧ is_service_up E (Some s)
                      (((h ++ before) ++ [EvSleep 10])
                       ++ [EvServices (env_services E ((h ++ before) ++ [EvSleep 10]))])
                    = (Ok true, checks))
  | (Raise e, evs) => True
  end.
Proof.
  revert svc0 h. induction attempts as [|n IH]; intros svc0 h.
  { simpl. split; [done|]. by split. }
  cbn [wait_for_service]. rewrite bind_run. cbn [sleep].
  rewrite bind_run, get_mongo_service_run.
  set (listing := env_services E (h ++ [EvSleep 10])).
  destruct (services_named name listing) as [|svc [|svc' more]] eqn:Hnamed; [done| |done].
  rewrite bind_run.
  pose proof (is_service_up_quiet svc ((h ++ [EvSleep 10]) ++ [EvServices listing]))
    as Hquiet.
  destruct (is_service_up E (Some svc) ((h ++ [EvSleep 10]) ++ [EvServices listing]))
    as [[up|e] checks] eqn:Hup; [|done].
  cbn [snd] in Hquiet.
  destruct up; cbn [negb].
  - rewrite wait_for_service_up. cbn [app].
    rewrite app_nil_r. cbn [sleep_durations]. rewrite Hquiet.
    replace (S n - n)%nat with 1%nat by lia.
    split; [done|]. split; [lia|]. split; [lia|].
    exists svc, [], checks. rewrite app_nil_r. fold listing. by rewrite Hup.
  - specialize (IH (Some svc) (((h ++ [EvSleep 10]) ++ [EvServices listing]) ++ checks)).
    destruct (wait_for_service E n name (Some svc) true _)
      as [[[[remaining svc1] down]|e] evs1]; [|done].
    destruct IH as (Hsl & Hle & Hdown). cbn [app sleep_durations].
    rewrite sleep_durations_app, Hquiet, Hsl. cbn [app].
    replace (S n - remaining)%nat with (S (n - remaining)) by lia.
    split; [done|]. split; [lia|].
    destruct down; [done|].
    destruct Hdown as (Hlt & s & before & checks' & -> & -> & Hone & Hlast).
    split; [lia|].
    exists s, (EvSleep 10 :: EvServices listing :: checks ++ before), checks'.
    assert (Hh : (((h ++ [EvSleep 10]) ++ [EvServices listing]) ++ checks) ++ before
                 = h ++ EvSleep 10 :: EvServices listing :: checks ++ before)
      by (by rewrite <- !app_assoc).
    rewrite Hh in Hone, Hlast.
    split; [done|]. split; [|by split].
    rewrite Hh. cbn [app]. do 2 f_equal. apply app_assoc.
Qed.

End ServiceObject.

(** The hand-over of the start-up wait.  Whenever the entry point calls
    [manage_replica], it does so after between 1 and 39 polls, each after a
    sleep of 10 seconds; in the last of them [get_mongo_service] found the
    service object it hands over, the only one with the configured name, and
    [is_service_up] returned [True] for it. *)
Theorem startup_hand_over (E : Env) (mongo_service_name : string) (h : History)
    (mongo_service : Service) (evs : list Event) :
  startup E mongo_service_name h = (Ok (ManageReplica mongo_service), evs) →
  svc_name mongo_service = mongo_service_name
  ∧ (∃ polls, (1 ≤ polls ≤ 39)%nat ∧ sleep_durations evs = replicate polls 10)
  ∧ ∃ before checks,
      evs = before
            ++ EvSleep 10
            :: EvServices (env_services E ((h ++ before) ++ [EvSleep 10]))
            :: checks
      ∧ services_named mongo_service_name
          (env_services E ((h ++ before) ++ [EvSleep 10])) = [mongo_service]
      ∧ is_service_up E (Some mongo_service)
          (((h ++ before) ++ [EvSleep 10])
           ++ [EvServices (env_services E ((h ++ before) ++ [EvSleep 10]))])
        = (Ok true, checks).
Proof.
  unfold startup. rewrite bind_run.
  pose proof (wait_for_service_run E 40 mongo_service_name None h) as Hwait.
  destruct (wait_for_service E 40 mongo_service_name None true h)
    as [[[[remaining svc] down]|e] evs0]; [|done].
  destruct Hwait as (Hsl & Hle & Hdown).
  destruct svc as [s|]; [|done].
  destruct (decide (remaining ≤ 0)%nat) as [Hzero|Hpos].
  { by rewrite bool_decide_eq_true_2. }
  rewrite bool_decide_eq_false_2 by done. cbn [ret]. rewrite app_nil_r.
  intros [= <- <-].
  destruct down; [lia|].
  destruct Hdown as (Hlt & s' & before & checks & [= ->] & Hevs & Hone & Hlast).
  split.
  { apply (services_named_name mongo_service_name
             (env_services E ((h ++ before) ++ [EvSleep 10]))).
    rewrite Hone. apply list_elem_of_here. }
  split; [exists (40 - remaining)%nat; split; [lia|done]|].
  by exists before, checks.
Qed.

Lemma startup_hand_over_witness :
  startup (starting_env 39) "mongo" []
  = (Ok (ManageReplica mongo_global), (startup (starting_env 39) "mongo" []).2)
  ∧ svc_name mongo_global = "mongo"
  ∧ ∃ polls, (1 ≤ polls ≤ 39)%nat
             ∧ sleep_durations (startup (starting_env 39) "mongo" []).2
               = replicate polls 10.
Proof.
  assert (Hrun : startup (starting_env 39) "mongo" []
                 = (Ok (ManageReplica mongo_global),
                    (startup (starting_env 39) "mongo" []).2)).
  { assert (Hres : (startup (starting_env 39) "mongo" []).1
                   = Ok (ManageReplica mongo_global)) by (vm_compute; reflexivity).
    rewrite <- Hres. apply surjective_pairing. }
  split; [exact Hrun|].
  destruct (startup_hand_over (starting_env 39) "mongo" [] mongo_global _ Hrun)
    as (Hname & Hpolls & _).
  by split.
Defined.

(** ** Reconciler: what a tick of the watch loop does and raises *)

Section WatchLoop.

Variable E : Env.
Variable set_iter : gset string → list string.

Lemma get_primary_ip_hellos ips h :
  ∃ p answers,
    get_primary_ip E ips h = (Ok p, zip_with EvHello ips answers)
    ∧ (∀ t, p = Some t → t ∈ ips).
Proof.
  revert h. induction ips as [|t rest IH]; intros h.
  { exists None, []. by split. }
  rewrite get_primary_ip_cons. cbv zeta.
  destruct (match env_hello E h t with
            | Ok topo => isWritablePrimary topo
            | Raise _ => false
            end).
  - exists (Some t), [env_hello E h t]. simpl. rewrite zip_with_nil_r.
    split; [done|]. intros t' [= <-]. apply list_elem_of_here.
  - destruct (IH (h ++ [EvHello t (env_hello E h t)])) as (p & answers & -> & Hp).
    exists p, (env_hello E h t :: answers). split; [done|].
    intros t' Ht'. apply list_elem_of_further. by apply Hp.
Qed.

Lemma watch_iteration_observes mongo_service overlay_network_name mongo_port
    current_member_ips primary_ip h :
  let listed := env_tasks E (h ++ [EvSleep 10]) (svc_name mongo_service)
                  (Some "running") in
  let running := filter (λ t, task_state t = "running") listed in
  let h' := (h ++ [EvSleep 10])
            ++ [EvTasks (svc_name mongo_service) (Some "running") listed] in
  watch_iteration E set_iter mongo_service overlay_network_name mongo_port
    current_member_ips primary_ip h
  = match get_tasks_ips running overlay_network_name with
    | Raise e =>
        (Raise e, [EvSleep 10; EvTasks (svc_name mongo_service) (Some "running") listed])
    | Ok ips =>
        let new_member_ips : gset string := list_to_set ips in
        let '(r, evs) :=
          (_ <- (if bool_decide ((current_member_ips ∖ new_member_ips)
                                 ∪ (new_member_ips ∖ current_member_ips) ≠ ∅)
                 then update_config E set_iter primary_ip current_member_ips
                        new_member_ips mongo_port
                 else ret tt) ;;
           primary_ip <- get_primary_ip E (set_iter new_member_ips) ;;
           ret (new_member_ips, primary_ip)) h' in
        (r, EvSleep 10 :: EvTasks (svc_name mongo_service) (Some "running") listed :: evs)
    end.
Proof.
  intros listed running h'.
  unfold watch_iteration. rewrite bind_run. cbn [sleep].
  rewrite bind_run. unfold get_running_tasks at 1. rewrite bind_run.
  unfold service_tasks at 1. cbv zeta. cbn [ret]. fold listed. fold running.
  rewrite app_nil_r, bind_run. unfold lift at 1.
  destruct (get_tasks_ips running overlay_network_name) as [ips|e]; [|done].
  rewrite !app_nil_r. fold h'.
  by destruct (bind _ _ h').
Qed.

(** A tick of the watch loop that finds the task ips it already knows only
    sleeps, lists the running tasks and probes the members with [hello] for
    the primary: it reads and writes no configuration, keeps the ips, and
    the primary it reports is one of them. *)
Theorem watch_iteration_unchanged
    (mongo_service : Service) (overlay_network_name : string) (mongo_port : Z)
    (current_member_ips : gset string) (primary_ip : option string) (h : History)
    (ips : list string) :
  let listed := env_tasks E (h ++ [EvSleep 10]) (svc_name mongo_service)
                  (Some "running") in
  get_tasks_ips (filter (λ t, task_state t = "running") listed) overlay_network_name
  = Ok ips →
  list_to_set ips = current_member_ips →
  ∃ primary_ip' answers,
    watch_iteration E set_iter mongo_service overlay_network_name mongo_port
      current_member_ips primary_ip h
    = (Ok (current_member_ips, primary_ip'),
       EvSleep 10 :: EvTasks (svc_name mongo_service) (Some "running") listed
       :: zip_with EvHello (set_iter current_member_ips) answers)
    ∧ (∀ t, primary_ip' = Some t → t ∈ set_iter current_member_ips).
Proof.
  intros listed Hips Hsame.
  rewrite watch_iteration_observes. cbv zeta. fold listed. rewrite Hips, Hsame.
  rewrite (difference_diag_L current_member_ips), (union_empty_l_L (C := gset string) ∅).
  rewrite bool_decide_eq_false_2 by (intros Hne; by apply Hne).
  rewrite bind_run. cbn [ret]. rewrite bind_run.
  destruct (get_primary_ip_hellos (set_iter current_member_ips)
              (((h ++ [EvSleep 10])
                ++ [EvTasks (svc_name mongo_service) (Some "running") listed]) ++ []))
    as (p & answers & -> & Hp).
  exists p, answers. cbn [ret app]. rewrite app_nil_r. by split.
Qed.

(** When the running tasks have no ip on the overlay network while members
    are known and the primary is unknown or one of them, the tick ends the
    watch loop: [update_config] raises [IndexError] after its six waits of
    ten seconds, and nothing in the loop catches it. *)
Theorem watch_iteration_scale_to_zero
    (mongo_service : Service) (overlay_network_name : string) (mongo_port : Z)
    (current_member_ips : gset string) (primary_ip : option string) (h : History) :
  let listed := env_tasks E (h ++ [EvSleep 10]) (svc_name mongo_service)
                  (Some "running") in
  set_iter ∅ = [] →
  get_tasks_ips (filter (λ t, task_state t = "running") listed) overlay_network_name
  = Ok [] →
  current_member_ips ≠ ∅ →
  primary_gone primary_ip current_member_ips →
  watch_iteration E set_iter mongo_service overlay_network_name mongo_port
    current_member_ips primary_ip h
  = (Raise IndexError,
     EvSleep 10 :: EvTasks (svc_name mongo_service) (Some "running") listed
     :: replicate 6 (EvSleep 10)).
Proof.
  intros listed Hnone Hips Hcur Hgone.
  rewrite watch_iteration_observes. cbv zeta. fold listed. rewrite Hips.
  cbn [list_to_set foldr].
  rewrite difference_empty_L.
  rewrite bool_decide_eq_true_2.
  2:{ intros Hempty. apply Hcur.
      by destruct (proj1 (empty_union_L _ _) Hempty) as [Hc _]. }
  rewrite bind_run, update_config_nobody_left by done. done.
Qed.

(** A tick of the watch loop never raises [AssertionError], and no exception
    of the database driver leaves it: the loop calls [update_config] only
    when the ip sets differ, so that its assertion cannot fail, and
    [update_config] and [get_primary_ip] catch what the driver raises. *)
Theorem watch_iteration_no_assertion_no_driver_error
    (mongo_service : Service) (overlay_network_name : string) (mongo_port : Z)
    (current_member_ips : gset string) (primary_ip : option string) :
  raises_only (watch_iteration E set_iter mongo_service overlay_network_name
                 mongo_port current_member_ips primary_ip)
              (λ e, e ≠ AssertionError ∧ is_PyMongoError e = false).
Proof.
  eapply raises_weaken with (R := λ e, e = IndexError); [|by intros e ->].
  unfold watch_iteration.
  apply raises_bind; [by intros h e|]. intros _.
  apply raises_bind; [by intros h e|]. intros tasks.
  apply raises_bind.
  { intros h e. unfold lift. simpl.
    pose proof (get_tasks_ips_run tasks overlay_network_name) as Hrun.
    destruct (get_tasks_ips tasks overlay_network_name); [done|].
    intros [= <-]. by destruct Hrun. }
  intros ips. apply raises_bind.
  - destruct (bool_decide _) eqn:Hdiff; [|apply raises_ret].
    apply bool_decide_eq_true in Hdiff.
    intros h e He.
    destruct (update_config_run E set_iter primary_ip current_member_ips
                (list_to_set ips) mongo_port h)
      as [(Hc & Hn & _)|(_ & sel & _ & Hrun)].
    + exfalso. apply Hdiff. rewrite Hc, Hn.
      by rewrite (difference_diag_L (C := gset string) ∅),
        (union_empty_l_L (C := gset string) ∅).
    + destruct Hrun as [(_ & _ & Hrun)|[(t & e' & Hrun)|(t & c0 & fs & fin & Hrun & _)]];
        rewrite Hrun in He; simpl in He; [by injection He as <-|discriminate He..].
  - intros _. apply raises_bind; [|intros p; apply raises_ret].
    eapply raises_weaken; [apply get_primary_ip_never_raises|done].
Qed.

End WatchLoop.

Lemma watch_iteration_unchanged_witness :
  get_tasks_ips
    (filter (λ t, task_state t = "running")
       (env_tasks scale_out_env ([] ++ [EvSleep 10]) (svc_name mongo_global)
          (Some "running")))
    "mongo_net"
  = Ok ["10.0.0.5"; "10.0.0.6"; "10.0.0.7"; "10.0.0.8"]
  ∧ list_to_set ["10.0.0.5"; "10.0.0.6"; "10.0.0.7"; "10.0.0.8"] = scaled_out_ips
  ∧ ∃ primary_ip' answers,
      watch_iteration scale_out_env elements mongo_global "mongo_net" 27017
        scaled_out_ips (Some "10.0.0.5") []
      = (Ok (scaled_out_ips, primary_ip'),
         EvSleep 10
         :: EvTasks (svc_name mongo_global) (Some "running")
              (env_tasks scale_out_env ([] ++ [EvSleep 10]) (svc_name mongo_global)
                 (Some "running"))
         :: zip_with EvHello (elements scaled_out_ips) answers)
      ∧ (∀ t, primary_ip' = Some t → t ∈ elements scaled_out_ips).
Proof.
  assert (Hips : get_tasks_ips
                   (filter (λ t, task_state t = "running")
                      (env_tasks scale_out_env ([] ++ [EvSleep 10])
                         (svc_name mongo_global) (Some "running")))
                   "mongo_net"
                 = Ok ["10.0.0.5"; "10.0.0.6"; "10.0.0.7"; "10.0.0.8"])
    by (vm_compute; reflexivity).
  assert (Hsame : list_to_set ["10.0.0.5"; "10.0.0.6"; "10.0.0.7"; "10.0.0.8"]
                  = scaled_out_ips).
  { apply (bool_decide_eq_true_1
             (list_to_set ["10.0.0.5"; "10.0.0.6"; "10.0.0.7"; "10.0.0.8"]
              = scaled_out_ips)).
    vm_compute. reflexivity. }
  split; [exact Hips|]. split; [exact Hsame|].
  exact (watch_iteration_unchanged scale_out_env elements mongo_global "mongo_net"
           27017 scaled_out_ips (Some "10.0.0.5") [] _ Hips Hsame).
Defined.

Lemma watch_iteration_scale_to_zero_witness :
  elements (∅ : gset string) = []
  ∧ get_tasks_ips
      (filter (λ t, task_state t = "running")
         (env_tasks (rs0_env [] None (Ok tt)) ([] ++ [EvSleep 10])
            (svc_name mongo_global) (Some "running")))
      "mongo_net"
    = Ok []
  ∧ rs0_ips ≠ ∅
  ∧ primary_gone (Some "10.0.0.5") rs0_ips
  ∧ watch_iteration (rs0_env [] None (Ok tt)) elements mongo_global "mongo_net" 27017
      rs0_ips (Some "10.0.0.5") []
    = (Raise IndexError,
       EvSleep 10
       :: EvTasks (svc_name mongo_global) (Some "running")
            (env_tasks (rs0_env [] None (Ok tt)) ([] ++ [EvSleep 10])
               (svc_name mongo_global) (Some "running"))
       :: replicate 6 (EvSleep 10)).
Proof.
  assert (Hin : "10.0.0.5" ∈ rs0_ips) by (by vm_compute).
  assert (Hcur : rs0_ips ≠ ∅).
  { intros Heq. rewrite Heq in Hin. by apply not_elem_of_empty in Hin. }
  assert (Hgone : primary_gone (Some "10.0.0.5") rs0_ips).
  { right. by exists "10.0.0.5". }
  split; [apply elements_empty|]. split; [reflexivity|].
  split; [exact Hcur|]. split; [exact Hgone|].
  exact (watch_iteration_scale_to_zero (rs0_env [] None (Ok tt)) elements mongo_global
           "mongo_net" 27017 rs0_ips (Some "10.0.0.5") []
           elements_empty eq_refl Hcur Hgone).
Defined.

(** ** Initiator: the root user and the ways [init_replica] ends *)

Section RootUser.

Variable E : Env.

(** The attempts of [initialize_mongodb_admin]: retries that change nothing,
    and then either nothing more, all attempts being used, or the attempt
    that creates the root user. *)
Lemma initialize_mongodb_admin_attempts_run attempts primary_ip user pwd service_name h :
  ∃ retries final,
    initialize_mongodb_admin_attempts E attempts primary_ip user pwd service_name h
    = (Ok tt, concat retries ++ final)
    ∧ Forall (admin_retry primary_ip service_name) retries
    ∧ ((final = [] ∧ length retries = attempts)
       ∨ (admin_creation primary_ip service_name user pwd final
          ∧ (length retries < attempts)%nat)).
Proof.
  revert h. induction attempts as [|n IH]; intros h.
  { exists [], []. split; [done|]. split; [constructor|]. by left. }
  cbn [initialize_mongodb_admin_attempts].
  unfold bind, try_except, sleep, hello, first_container, containers_list,
    create_mongodb_root_user, exec_run, try_except, bind, ret. simpl.
  set (a := env_hello E (h ++ [EvSleep 10]) primary_ip).
  assert (Hretry : ∀ poll h',
            admin_retry primary_ip service_name poll →
            ∃ retries final,
              (let '(r, evs') := initialize_mongodb_admin_attempts E n primary_ip user pwd
                                   service_name h' in
               (r, poll ++ evs'))
              = (Ok tt, concat retries ++ final)
              ∧ Forall (admin_retry primary_ip service_name) retries
              ∧ ((final = [] ∧ length retries = S n)
                 ∨ (admin_creation primary_ip service_name user pwd final
                    ∧ (length retries < S n)%nat))).
  { intros poll h' Hpoll.
    destruct (IH h') as (retries & final & -> & Hretries & Hcases).
    exists (poll :: retries), final. split; [cbn [concat]; by rewrite app_assoc|].
    split; [by constructor|].
    destruct Hcases as [[-> Hlen]|[Hfinal Hlen]].
    - left. split; [done|]. simpl. by rewrite Hlen.
    - right. split; [done|]. simpl. lia. }
  destruct a as [topo|e] eqn:Ha; simpl.
  - destruct (truthy (topology_primary_ip topo)) eqn:Hprimary; simpl.
    + match goal with |- context [head ?l] => destruct (head l) as [c|] eqn:Hhead end;
        simpl.
      * exists []. eexists. split; [reflexivity|]. split; [constructor|].
        right. split; [|simpl; lia].
        exists topo. eexists. exists c. eexists. split; [reflexivity|]. split; [done|].
        exact Hhead.
      * match goal with
        | |- context [initialize_mongodb_admin_attempts E n _ _ _ _ ?h'] =>
            destruct (Hretry [EvSleep 10; EvHello primary_ip (Ok topo);
                              EvContainers (env_containers E
                                ((h ++ [EvSleep 10])
                                 ++ [EvHello primary_ip (Ok topo)]))] h')
              as (retries & final & Hrun & Hrest)
        end.
        { right. exists topo. eexists. split; [reflexivity|]. split; [done|].
          exact Hhead. }
        exists retries, final. split; [|exact Hrest].
        rewrite <- Hrun. clear.
        rewrite <- !app_assoc. simpl.
        by destruct (initialize_mongodb_admin_attempts E n _ _ _ _ _).
    + match goal with
      | |- context [initialize_mongodb_admin_attempts E n _ _ _ _ ?h'] =>
          destruct (Hretry [EvSleep 10; EvHello primary_ip (Ok topo)] h')
            as (retries & final & Hrun & Hrest)
      end.
      { left. by exists (Ok topo). }
      exists retries, final. split; [|exact Hrest].
      rewrite <- Hrun. clear.
      rewrite <- ?app_assoc. simpl.
      by destruct (initialize_mongodb_admin_attempts E n _ _ _ _ _).
  - match goal with
    | |- context [initialize_mongodb_admin_attempts E n _ _ _ _ ?h'] =>
        destruct (Hretry [EvSleep 10; EvHello primary_ip (Raise e)] h')
          as (retries & final & Hrun & Hrest)
    end.
    { left. by exists (Raise e). }
    exists retries, final. split; [|exact Hrest].
    rewrite <- Hrun. clear.
    rewrite <- ?app_assoc. simpl.
    by destruct (initialize_mongodb_admin_attempts E n _ _ _ _ _).
Qed.

End RootUser.

(** [initialize_mongodb_admin] never raises, and its run is a sequence of at
    most 8 attempts.  Each attempt sleeps ten seconds and sends [hello] to the
    ip it was given.  An attempt is a retry when the answer is an exception
    or names no primary, or when the containers, listed next, include none
    whose name up to the first dot is the service name.  The first attempt
    that is no retry is the last: it creates the root user in the first such
    container of the listing, and this is the only command the call runs in
    a container.  Without such an attempt, all 8 are used. *)
Theorem initialize_mongodb_admin_bounded (E : Env) (primary_ip : string)
    (mongo_root_username mongo_root_password mongo_service_name : string) (h : History) :
  ∃ retries final,
    initialize_mongodb_admin E primary_ip mongo_root_username mongo_root_password
      mongo_service_name h
    = (Ok tt, concat retries ++ final)
    ∧ Forall (admin_retry primary_ip mongo_service_name) retries
    ∧ ((final = [] ∧ length retries = 8%nat)
       ∨ (admin_creation primary_ip mongo_service_name
            mongo_root_username mongo_root_password final
          ∧ (length retries < 8)%nat)).
Proof.
  exact (initialize_mongodb_admin_attempts_run E 8 primary_ip mongo_root_username
           mongo_root_password mongo_service_name h).
Qed.

(** Scenario S1 once [10.0.0.5] is primary: the first attempt finds the
    container of the service and creates the root user in it. *)
Example initialize_mongodb_admin_creates :
  initialize_mongodb_admin elected_env "10.0.0.5" "admin" "secret" "mongo" []
  = (Ok tt,
     [ EvSleep 10;
       EvHello "10.0.0.5"
         (Ok {| isWritablePrimary := true; setName := Some "rs0";
                primary := Some "10.0.0.5:27017" |});
       EvContainers [ mkContainer "77aa" "other.1.x"; mkContainer "3f2a" "mongo.node-1.k8x2";
                      mkContainer "9c1d" "mongo.node-2.p3q4" ];
       EvExec "3f2a" (CreateRootUser "admin" "secret") (mkExecResult 0 "") ]).
Proof. vm_compute. reflexivity. Qed.

Section InitiatorRuns.

Variable E : Env.

Lemma wait_for_tasks_nothing attempts retry_delay (mongo_tasks : list Task)
    (mongo_tasks_ips : list string) h :
  mongo_tasks = [] ∨ mongo_tasks_ips = [] →
  wait_for_tasks attempts retry_delay mongo_tasks mongo_tasks_ips h
  = (Ok false, replicate attempts (EvSleep retry_delay)).
Proof.
  intros Hnone. revert h. induction attempts as [|n IH]; intros h; [done|].
  cbn [wait_for_tasks]. rewrite bool_decide_eq_true_2 by done.
  rewrite bind_run. cbn [sleep]. by rewrite IH.
Qed.

Lemma wait_for_tasks_found attempts retry_delay (mongo_tasks : list Task)
    (mongo_tasks_ips : list string) h :
  ¬ (mongo_tasks = [] ∨ mongo_tasks_ips = []) →
  wait_for_tasks (S attempts) retry_delay mongo_tasks mongo_tasks_ips h = (Ok true, []).
Proof. intros Hsome. cbn [wait_for_tasks]. by rewrite bool_decide_eq_false_2. Qed.

(** Without tasks or without task ips [init_replica] waits six times ten
    seconds and returns: it lists no container, runs no command and sends
    nothing to the database. *)
Theorem init_replica_no_tasks
    (mongo_service_name : string) (mongo_tasks : list Task)
    (mongo_tasks_ips : list string) (replicaset_name : string) (mongo_port : Z)
    (mongo_root_username mongo_root_password : string) (h : History) :
  mongo_tasks = [] ∨ mongo_tasks_ips = [] →
  init_replica E mongo_service_name mongo_tasks mongo_tasks_ips replicaset_name
    mongo_port mongo_root_username mongo_root_password h
  = (Ok tt, replicate 6 (EvSleep 10)).
Proof.
  intros Hnone. unfold init_replica. cbv zeta.
  rewrite bind_run, wait_for_tasks_nothing by done. done.
Qed.

Lemma reconfig_answers_quiet evs : Forall quiet evs → reconfig_answers evs = [].
Proof. induction 1 as [|ev evs Hev _ IH]; [done|]. by destruct ev. Qed.

Lemma elem_of_reconfig_answers host config force a evs :
  EvReconfig host config force a ∈ evs → a ∈ reconfig_answers evs.
Proof.
  induction evs as [|ev evs IH]; [by intros ?%elem_of_nil|].
  intros [<-|Hin]%elem_of_cons; [apply list_elem_of_here|].
  destruct ev; simpl; try by apply IH. apply list_elem_of_further. by apply IH.
Qed.

(** The two ways a run of [init_replica] can go, with its result: either it
    ends with an initiation refused for lack of authentication and the
    forced reconfiguration, whose answer decides the result; or it sends no
    reconfiguration and returns. *)
Lemma init_replica_run service_name mongo_tasks mongo_tasks_ips replicaset_name
    mongo_port user pwd h :
  let run := init_replica E service_name mongo_tasks mongo_tasks_ips replicaset_name
               mongo_port user pwd h in
  let config := create_mongo_config mongo_tasks_ips replicaset_name mongo_port in
  (∃ cs1 cs2 c res primary_ip answer,
     run.2 = [EvSleep 15; EvContainers cs1; EvContainers cs2]
             ++ [EvExec c (RsInitiate config) res;
                 EvReconfig primary_ip config true answer]
     ∧ initiate_needs_auth res
     ∧ head mongo_tasks_ips = Some primary_ip
     ∧ run.1 = match answer with
               | Ok _ => Ok tt
               | Raise e => if is_OperationFailure e then Ok tt else Raise e
               end)
  ∨ (run.1 = Ok tt ∧ reconfig_answers run.2 = []).
Proof.
  intros run config. subst run.
  destruct (decide (mongo_tasks = [] ∨ mongo_tasks_ips = [])) as [Hnone|Hsome].
  { right. unfold init_replica. cbv zeta.
    rewrite bind_run, wait_for_tasks_nothing by done. cbn [negb ret fst snd app].
    split; [done|]. reflexivity. }
  unfold init_replica. cbv zeta.
  rewrite bind_run, wait_for_tasks_found by done. cbn [negb].
  destruct mongo_tasks_ips as [|primary_ip rest]; [destruct Hsome; by right|].
  fold config.
  rewrite bind_run. simpl. rewrite bind_run.
  unfold try_except. rewrite bind_run. simpl.
  unfold first_container. rewrite !bind_run. simpl.
  set (cs1 := env_containers E _).
  set (cs2 := env_containers E _).
  match goal with |- context [head ?l] => destruct (head l) as [c|] end; simpl.
  2:{ right. by split. }
  rewrite bind_run. simpl.
  set (res := env_exec E _ _ _).
  assert (Hadmin : ∀ h',
            ∃ evs, initialize_mongodb_admin E primary_ip user pwd service_name h'
                   = (Ok tt, evs)
                   ∧ reconfig_answers evs = []).
  { intros h'.
    destruct (initialize_mongodb_admin_attempts_run E 8 primary_ip user pwd
                service_name h') as (retries & final & Hrun & _).
    unfold initialize_mongodb_admin. rewrite Hrun. eexists. split; [reflexivity|].
    pose proof (emits_Forall _ _ _ h'
                  (initialize_mongodb_admin_emits E primary_ip user pwd service_name))
      as Hquiet.
    unfold initialize_mongodb_admin in Hquiet. rewrite Hrun in Hquiet.
    by apply reconfig_answers_quiet. }
  destruct (bool_decide (exit_code res ≠ 0)) eqn:Hexit; simpl.
  - apply bool_decide_eq_true in Hexit.
    destruct (contains "replSetInitiate requires authentication" (output res)) eqn:Hauth;
      simpl.
    + rewrite bind_run. unfold reconfigure_replica_set, try_except, replSetReconfig. simpl.
      set (answer := env_reconfig E _ _ _ _).
      left. exists cs2, cs1, (container_id c), res, primary_ip, answer.
      clearbody answer.
      destruct answer as [[]|e']; simpl; [by repeat split|].
      destruct (is_OperationFailure e'); simpl; by repeat split.
    + match goal with
      | |- context [initialize_mongodb_admin E _ _ _ _ ?h'] =>
          destruct (Hadmin h') as (evs & -> & Hquiet)
      end.
      right. simpl. by split.
  - match goal with
    | |- context [initialize_mongodb_admin E _ _ _ _ ?h'] =>
        destruct (Hadmin h') as (evs & -> & Hquiet)
    end.
    right. simpl. by split.
Qed.

(** Driver exceptions and [init_replica].  The forced reconfiguration of the
    hand-off is the one call to the database whose exception can leave
    [init_replica]: [reconfigure_replica_set] catches an operation failure
    and nothing else.  So an answer to it that is another exception makes
    [init_replica] raise that exception, an operation failure makes it
    return; and whenever an exception of the driver leaves [init_replica],
    the run ends with the initiation refused for lack of authentication and
    that reconfiguration, sent to the first task ip. *)
Theorem init_replica_driver_error
    (mongo_service_name : string) (mongo_tasks : list Task)
    (mongo_tasks_ips : list string) (replicaset_name : string) (mongo_port : Z)
    (mongo_root_username mongo_root_password : string) (h : History) :
  let run := init_replica E mongo_service_name mongo_tasks mongo_tasks_ips
               replicaset_name mongo_port mongo_root_username mongo_root_password h in
  let config := create_mongo_config mongo_tasks_ips replicaset_name mongo_port in
  (∀ host cfg force e,
     EvReconfig host cfg force (Raise e) ∈ run.2 →
     run.1 = if is_OperationFailure e then Ok tt else Raise e)
  ∧ (∀ e, run.1 = Raise e → is_PyMongoError e = true →
          is_OperationFailure e = false
          ∧ ∃ before c res primary_ip,
              run.2 = before ++ [EvExec c (RsInitiate config) res;
                                 EvReconfig primary_ip config true (Raise e)]
              ∧ initiate_needs_auth res
              ∧ head mongo_tasks_ips = Some primary_ip).
Proof.
  intros run config.
  destruct (init_replica_run mongo_service_name mongo_tasks mongo_tasks_ips
              replicaset_name mongo_port mongo_root_username mongo_root_password h)
    as [(cs1 & cs2 & c & res & p & answer & Hevs & Hauth & Hhead & Hres)
       |[Hres Hquiet]]; fold run in Hevs, Hres || fold run in Hres, Hquiet.
  - fold config in Hevs. split.
    + intros host cfg force e Hin. rewrite Hevs in Hin.
      repeat (apply elem_of_cons in Hin as [Heq|Hin]; [discriminate Heq|]).
      apply elem_of_cons in Hin as [Heq|Hin]; [|by apply elem_of_nil in Hin].
      injection Heq as _ _ _ <-. exact Hres.
    + intros e He _. rewrite Hres in He.
      destruct answer as [[]|e']; [discriminate He|].
      destruct (is_OperationFailure e') eqn:Hop; [discriminate He|].
      injection He as ->. split; [done|].
      by exists [EvSleep 15; EvContainers cs1; EvContainers cs2], c, res, p.
  - split.
    + intros host cfg force e Hin.
      apply elem_of_reconfig_answers in Hin. rewrite Hquiet in Hin.
      by apply elem_of_nil in Hin.
    + intros e He. rewrite Hres in He. discriminate He.
Qed.

End InitiatorRuns.

Lemma init_replica_no_tasks_witness :
  (([] : list Task) = [] ∨ ["10.0.0.5"] = [])
  ∧ init_replica fresh_env "mongo" [] ["10.0.0.5"] "rs0" 27017 "admin" "secret" []
    = (Ok tt, replicate 6 (EvSleep 10)).
Proof.
  assert (Hnone : ([] : list Task) = [] ∨ ["10.0.0.5"] = []) by (by left).
  split; [exact Hnone|].
  exact (init_replica_no_tasks fresh_env "mongo" [] ["10.0.0.5"] "rs0" 27017
           "admin" "secret" [] Hnone).
Defined.

(** The redeployment of S2 when the first new ip does not answer the forced
    reconfiguration in time: the time-out leaves [init_replica]. *)
Lemma init_replica_driver_error_witness :
  (init_replica redeployed_unreachable_env "mongo"
     (rs0_task <$> ["10.0.1.5"; "10.0.1.6"; "10.0.1.7"])
     ["10.0.1.5"; "10.0.1.6"; "10.0.1.7"] "rs0" 27017 "admin" "secret" []).1
  = Raise (ServerSelectionTimeoutError "No servers found yet")
  ∧ is_PyMongoError (ServerSelectionTimeoutError "No servers found yet") = true
  ∧ is_OperationFailure (ServerSelectionTimeoutError "No servers found yet") = false
  ∧ ∃ before c res primary_ip,
      (init_replica redeployed_unreachable_env "mongo"
         (rs0_task <$> ["10.0.1.5"; "10.0.1.6"; "10.0.1.7"])
         ["10.0.1.5"; "10.0.1.6"; "10.0.1.7"] "rs0" 27017 "admin" "secret" []).2
      = before
        ++ [EvExec c
              (RsInitiate (create_mongo_config ["10.0.1.5"; "10.0.1.6"; "10.0.1.7"]
                             "rs0" 27017))
              res;
            EvReconfig primary_ip
              (create_mongo_config ["10.0.1.5"; "10.0.1.6"; "10.0.1.7"] "rs0" 27017)
              true (Raise (ServerSelectionTimeoutError "No servers found yet"))]
      ∧ initiate_needs_auth res
      ∧ head ["10.0.1.5"; "10.0.1.6"; "10.0.1.7"] = Some primary_ip.
Proof.
  assert (Hraise : (init_replica redeployed_unreachable_env "mongo"
                      (rs0_task <$> ["10.0.1.5"; "10.0.1.6"; "10.0.1.7"])
                      ["10.0.1.5"; "10.0.1.6"; "10.0.1.7"] "rs0" 27017
                      "admin" "secret" []).1
                   = Raise (ServerSelectionTimeoutError "No servers found yet"))
    by (vm_compute; reflexivity).
  split; [exact Hraise|]. split; [reflexivity|].
  exact (proj2 (init_replica_driver_error redeployed_unreachable_env "mongo" _ _ "rs0"
                  27017 "admin" "secret" []) _ Hraise eq_refl).
Defined.

(** ** The watch loop over two ticks *)

Section WatchLoopInvariant.

Variable E : Env.
Variable set_iter : gset string → list string.

Lemma watch_iteration_primary_member
    (mongo_service : Service) (overlay_network_name : string) (mongo_port : Z)
    (current_member_ips : gset string) (primary_ip : option string) (h : History)
    (current_member_ips' : gset string) (primary_ip' : option string) :
  (∀ s, set_iter s ≡ₚ elements s) →
  (watch_iteration E set_iter mongo_service overlay_network_name mongo_port
     current_member_ips primary_ip h).1 = Ok (current_member_ips', primary_ip') →
  ∀ t, primary_ip' = Some t → t ∈ current_member_ips'.
Proof.
  intros set_iter_perm Hrun t Ht. unfold watch_iteration in Hrun.
  apply bind_Ok in Hrun as ([] & _ & Hrun).
  apply bind_Ok in Hrun as (tasks & _ & Hrun).
  apply bind_Ok in Hrun as (ips & _ & Hrun).
  apply bind_Ok in Hrun as ([] & _ & Hrun).
  apply bind_Ok in Hrun as (p & Hp & Hrun).
  simpl in Hrun. injection Hrun as <- <-.
  match type of Hp with
  | (get_primary_ip _ _ ?h').1 = _ =>
      destruct (get_primary_ip_emits E (set_iter (list_to_set ips)) h') as [_ Hmember]
  end.
  specialize (Hmember p Hp t Ht).
  apply list_elem_of_In, (Permutation_in _ (set_iter_perm _)), list_elem_of_In in Hmember.
  by apply elem_of_elements in Hmember.
Qed.

(** The state a tick of the watch loop leaves behind, and what it means for
    the next tick.  The primary the tick reports, if any, is one of the member
    ips it reports.  So when these are not empty and the next tick finds no
    task ip on the overlay network, the primary is unknown or about to be
    removed, and the next tick ends the loop with [IndexError]. *)
Theorem watch_loop_after_tick
    (mongo_service : Service) (overlay_network_name : string) (mongo_port : Z)
    (current_member_ips : gset string) (primary_ip : option string) (h : History)
    (current_member_ips' : gset string) (primary_ip' : option string) :
  let tick := watch_iteration E set_iter mongo_service overlay_network_name mongo_port
                current_member_ips primary_ip h in
  (∀ s, set_iter s ≡ₚ elements s) →
  tick.1 = Ok (current_member_ips', primary_ip') →
  (∀ t, primary_ip' = Some t → t ∈ current_member_ips')
  ∧ (current_member_ips' ≠ ∅ →
     get_tasks_ips
       (filter (λ t, task_state t = "running")
          (env_tasks E ((h ++ tick.2) ++ [EvSleep 10]) (svc_name mongo_service)
             (Some "running")))
       overlay_network_name
     = Ok [] →
     (watch_iteration E set_iter mongo_service overlay_network_name mongo_port
        current_member_ips' primary_ip' (h ++ tick.2)).1 = Raise IndexError).
Proof.
  intros tick set_iter_perm Htick.
  pose proof (watch_iteration_primary_member _ _ _ _ _ _ _ _ set_iter_perm Htick)
    as Hmember.
  split; [exact Hmember|].
  intros Hcur Hips.
  rewrite watch_iteration_observes. cbv zeta. rewrite Hips.
  cbn [list_to_set foldr].
  rewrite difference_empty_L.
  rewrite bool_decide_eq_true_2.
  2:{ intros Hempty. apply Hcur.
      by destruct (proj1 (empty_union_L _ _) Hempty) as [Hc _]. }
  rewrite bind_run, update_config_nobody_left; [done| |done|].
  - apply Permutation_nil_r. by rewrite set_iter_perm, elements_empty.
  - destruct primary_ip' as [t|]; [|by left].
    right. exists t. split; [done|]. by apply Hmember.
Qed.

End WatchLoopInvariant.

Lemma watch_loop_after_tick_witness :
  (∀ s : gset string, elements s ≡ₚ elements s)
  ∧ (watch_iteration vanishing_env elements mongo_global "mongo_net" 27017
       rs0_ips (Some "10.0.0.5") []).1 = Ok (rs0_ips, Some "10.0.0.5")
  ∧ (∀ t, Some "10.0.0.5" = Some t → t ∈ rs0_ips)
  ∧ (watch_iteration vanishing_env elements mongo_global "mongo_net" 27017
       rs0_ips (Some "10.0.0.5")
       ([] ++ (watch_iteration vanishing_env elements mongo_global "mongo_net" 27017
                 rs0_ips (Some "10.0.0.5") []).2)).1
    = Raise IndexError.
Proof.
  assert (Hperm : ∀ s : gset string, elements s ≡ₚ elements s) by done.
  assert (Htick : (watch_iteration vanishing_env elements mongo_global "mongo_net" 27017
                     rs0_ips (Some "10.0.0.5") []).1 = Ok (rs0_ips, Some "10.0.0.5"))
    by (vm_compute; reflexivity).
  assert (Hin : "10.0.0.5" ∈ rs0_ips) by (by vm_compute).
  assert (Hcur : rs0_ips ≠ ∅).
  { intros Heq. rewrite Heq in Hin. by apply not_elem_of_empty in Hin. }
  destruct (watch_loop_after_tick vanishing_env elements mongo_global "mongo_net" 27017
              rs0_ips (Some "10.0.0.5") [] rs0_ips (Some "10.0.0.5") Hperm Htick)
    as [Hmember Hnext].
  split; [exact Hperm|]. split; [exact Htick|]. split; [exact Hmember|].
  apply Hnext; [exact Hcur|]. vm_compute. reflexivity.
Defined.

(** ** Full redeployment: no wait for a primary *)

Section Redeployment.

Variable E : Env.
Variable set_iter : gset string → list string.

Lemma short_wait_hellos ips answers : Forall short_wait (zip_with EvHello ips answers).
Proof.
  revert answers. induction ips as [|t rest IH]; intros [|a answers]; simpl;
    by constructor.
Qed.

Lemma all_nodes_uninitialized_no_set ips h :
  (∀ h' t, t ∈ ips → reports_no_set (env_hello E h' t)) →
  ∃ answers, all_nodes_uninitialized E ips h = (Ok true, zip_with EvHello ips answers).
Proof.
  revert h. induction ips as [|t rest IH]; intros h Hno.
  { by exists []. }
  destruct (IH (h ++ [EvHello t (env_hello E h t)])) as (answers & Hrest).
  { intros h' t' Ht'. apply Hno. by apply list_elem_of_further. }
  exists (env_hello E h t :: answers).
  pose proof (Hno h t (list_elem_of_here _ _)) as Hhere.
  simpl. unfold bind, try_except, hello, ret. simpl.
  destruct (env_hello E h t) as [topo|e]; simpl in *.
  - rewrite Hhere. simpl. by rewrite Hrest.
  - by rewrite Hrest.
Qed.

Lemma reconfig_with_retry_short_wait attempts host config force :
  emits (reconfig_with_retry E attempts host config force) short_wait (λ _, True).
Proof.
  induction attempts as [|n IH]; simpl.
  - by apply emits_ret.
  - eapply emits_bind with (Q := λ _, True).
    + apply emits_try_except.
      * eapply emits_bind with (Q := λ _, True); [by apply emits_replSetReconfig|].
        intros _ _. by apply emits_ret.
      * intros e _. eapply emits_bind with (Q := λ _, True); [by apply emits_sleep|].
        intros _ _. by apply emits_ret.
    + intros [] _; [by apply emits_ret|exact IH].
Qed.

(** A full redeployment skips the wait for a primary.  When the new ips are
    not empty and every one of them answers [hello] without a set name, or
    not at all, [update_config] never sleeps the ten seconds of the wait for
    an election: its only sleeps are the five seconds after a rejected
    reconfiguration. *)
Theorem update_config_redeployment_skips_wait
    (primary_ip : option string) (current_ips new_ips : gset string) (mongo_port : Z)
    (h : History) :
  (∀ s, set_iter s ≡ₚ elements s) →
  new_ips ≠ ∅ →
  (∀ h' t, t ∈ new_ips → reports_no_set (env_hello E h' t)) →
  Forall short_wait
    (update_config E set_iter primary_ip current_ips new_ips mongo_port h).2.
Proof.
  intros set_iter_perm Hnew Hno.
  assert (Hchoose : emits (choose_new_primary E set_iter new_ips (new_ips ∖ current_ips))
                          short_wait (λ _, True)).
  { intros h'. split; [|done]. apply Forall_forall.
    unfold choose_new_primary. rewrite bind_run.
    destruct (all_nodes_uninitialized_no_set (set_iter new_ips) h') as (answers & ->).
    { intros h'' t Ht. apply Hno.
      apply elem_of_elements. apply list_elem_of_In.
      apply (Permutation_in _ (set_iter_perm new_ips)). by apply list_elem_of_In. }
    assert (Hsize : (0 < size new_ips)%nat).
    { destruct (size new_ips) eqn:Hs; [|lia]. by apply size_empty_inv, leibniz_equiv in Hs. }
    rewrite bind_run, (bool_decide_eq_true_2 _ Hsize). cbn [andb ret].
    destruct (set_iter (new_ips ∖ (new_ips ∖ current_ips))) as [|old olds];
      [destruct (set_iter new_ips) as [|first others]|];
      cbn [raise ret fst snd]; rewrite ?app_nil_r; apply short_wait_hellos. }
  apply emits_Forall with (Q := λ _, True).
  unfold update_config. cbv zeta.
  eapply emits_bind with (Q := λ _, True).
  { destruct (_ && _); [by apply emits_ret|].
    destruct (bool_decide _); [by apply emits_ret|by apply emits_raise]. }
  intros _ _.
  eapply emits_bind with (Q := λ _, True).
  { destruct primary_ip as [p|].
    - destruct (bool_decide (p ∈ current_ips ∖ new_ips)); [|by apply emits_ret].
      eapply emits_bind; [exact Hchoose|]. intros p' _. by apply emits_ret.
    - eapply emits_bind; [exact Hchoose|]. intros p' _. by apply emits_ret. }
  intros [force target] _.
  apply emits_try_except; [|intros e _; by apply emits_ret].
  eapply emits_bind with (Q := λ _, True); [by apply emits_replSetGetConfig|].
  intros config _. apply reconfig_with_retry_short_wait.
Qed.

End Redeployment.

Lemma update_config_redeployment_skips_wait_witness :
  (∀ s : gset string, elements s ≡ₚ elements s)
  ∧ ({["10.0.1.5"; "10.0.1.6"]} : gset string) ≠ ∅
  ∧ (∀ h' t, t ∈ ({["10.0.1.5"; "10.0.1.6"]} : gset string) →
             reports_no_set (env_hello fresh_env h' t))
  ∧ Forall short_wait
      (update_config fresh_env elements None rs0_ips {["10.0.1.5"; "10.0.1.6"]}
         27017 []).2.
Proof.
  assert (Hperm : ∀ s : gset string, elements s ≡ₚ elements s) by done.
  assert (Hnew : ({["10.0.1.5"; "10.0.1.6"]} : gset string) ≠ ∅).
  { intros Heq.
    assert (Hin : "10.0.1.5" ∈ ({["10.0.1.5"; "10.0.1.6"]} : gset string))
      by (by vm_compute).
    rewrite Heq in Hin. by apply not_elem_of_empty in Hin. }
  assert (Hno : ∀ h' t, t ∈ ({["10.0.1.5"; "10.0.1.6"]} : gset string) →
                        reports_no_set (env_hello fresh_env h' t)) by done.
  split; [exact Hperm|]. split; [exact Hnew|]. split; [exact Hno|].
  exact (update_config_redeployment_skips_wait fresh_env elements None rs0_ips
           {["10.0.1.5"; "10.0.1.6"]} 27017 [] Hperm Hnew Hno).
Defined.

(** ** The target of a reconfiguration *)

Lemma elected_cons ev evs : evs ≠ [] → elected (ev :: evs) = elected evs.
Proof. intros Hne. unfold elected. by destruct evs. Qed.

Lemma elected_sleep seconds evs : elected (EvSleep seconds :: evs) = elected evs.
Proof. destruct evs as [|ev evs]; [done|]. by apply elected_cons. Qed.

Lemma elected_app evs rest : rest ≠ [] → elected (evs ++ rest) = elected rest.
Proof.
  intros Hne. induction evs as [|ev evs IH]; [done|].
  simpl. rewrite elected_cons; [exact IH|]. by destruct evs, rest.
Qed.

Lemma hello_event_probe ev : hello_event ev → is_probe ev.
Proof. by destruct ev. Qed.

Section Target.

Variable E : Env.
Variable set_iter : gset string → list string.

(** One poll for the primary: only [hello] probes, and the ip returned is
    the one the poll ended on. *)
Lemma get_primary_ip_poll ips h :
  ∃ r poll,
    get_primary_ip E ips h = (Ok r, poll)
    ∧ Forall hello_event poll
    ∧ elected poll = r
    ∧ (∀ t, r = Some t → t ∈ ips).
Proof.
  revert h. induction ips as [|t rest IH]; intros h.
  { exists None, []. by repeat split. }
  rewrite get_primary_ip_cons. cbv zeta.
  destruct (env_hello E h t) as [topo|e] eqn:Ha.
  - destruct (isWritablePrimary topo) eqn:Hw.
    + exists (Some t), [EvHello t (Ok topo)]. split; [done|].
      split; [by repeat constructor|]. split; [unfold elected; simpl; by rewrite Hw|].
      intros t' [= <-]. apply list_elem_of_here.
    + destruct (IH (h ++ [EvHello t (Ok topo)])) as (r & poll & -> & Hpoll & Hr & Hin).
      exists r, (EvHello t (Ok topo) :: poll). split; [done|].
      split; [by constructor|]. split.
      * destruct poll as [|ev poll]; [|by rewrite elected_cons].
        unfold elected. simpl. by rewrite Hw.
      * intros t' Ht'. apply list_elem_of_further. by apply Hin.
  - destruct (IH (h ++ [EvHello t (Raise e)])) as (r & poll & -> & Hpoll & Hr & Hin).
    exists r, (EvHello t (Raise e) :: poll). split; [done|].
    split; [by constructor|]. split.
    + destruct poll as [|ev poll]; [done|by rewrite elected_cons].
    + intros t' Ht'. apply list_elem_of_further. by apply Hin.
Qed.

Lemma sleep_durations_hellos poll : Forall hello_event poll → sleep_durations poll = [].
Proof. induction 1 as [|ev poll Hev _ IH]; [done|]. by destruct ev. Qed.

(** The wait for a primary: it returns what its last poll returned, and it
    goes on until a poll returns an ip or the attempts are used up. *)
Lemma wait_for_primary_polls attempts new_ips h :
  ∃ r wait,
    wait_for_primary E set_iter attempts None new_ips h = (Ok r, wait)
    ∧ Forall is_probe wait
    ∧ (attempts = 0%nat ∧ wait = [] ∨ ∃ polls, wait = EvSleep 10 :: polls)
    ∧ elected wait = r
    ∧ (r = None → sleep_durations wait = replicate attempts 10).
Proof.
  assert (Hgen : ∀ n p0 h,
            ∃ r wait,
              wait_for_primary E set_iter n p0 new_ips h = (Ok r, wait)
              ∧ Forall is_probe wait
              ∧ ((wait = [] ∧ r = p0 ∧ (n = 0%nat ∨ truthy p0 = true))
                 ∨ ((∃ polls, wait = EvSleep 10 :: polls)
                    ∧ elected wait = r
                    ∧ (truthy r = false → sleep_durations wait = replicate n 10)))).
  { clear h. induction n as [|n IH]; intros p0 h.
    { exists p0, []. split; [done|]. split; [constructor|]. left. repeat split. by left. }
    cbn [wait_for_primary].
    destruct (truthy p0) eqn:Hp0.
    { exists p0, []. split; [done|]. split; [constructor|]. left. repeat split. by right. }
    rewrite bind_run. cbn [sleep]. rewrite bind_run.
    destruct (get_primary_ip_poll (set_iter new_ips) (h ++ [EvSleep 10]))
      as (r' & poll & -> & Hpoll & Hr' & Hin').
    destruct (IH r' ((h ++ [EvSleep 10]) ++ poll)) as (r & wait & -> & Hwait & Hcases).
    exists r, (EvSleep 10 :: poll ++ wait). split; [done|]. split.
    { constructor; [done|]. apply Forall_app. split; [|done].
      eapply Forall_impl; [exact Hpoll|]. apply hello_event_probe. }
    right. split; [by eexists|].
    cbn [sleep_durations]. rewrite sleep_durations_app, (sleep_durations_hellos poll Hpoll).
    destruct Hcases as [(-> & -> & Hend)|((polls & ->) & Hr & Hcount)].
    - rewrite app_nil_r, elected_sleep. split; [done|].
      intros Hfalse. destruct Hend as [->|Htrue]; [done|congruence].
    - rewrite app_comm_cons, elected_app by done. split; [done|].
      intros Hfalse. cbn [app]. by rewrite (Hcount Hfalse). }
  destruct (Hgen attempts None h) as (r & wait & Hrun & Hwait & Hcases).
  exists r, wait. split; [done|]. split; [done|].
  destruct Hcases as [(-> & -> & [->|Htrue])|(Hpolls & Hr & Hcount)].
  - split; [by left|]. by split.
  - discriminate Htrue.
  - split; [by right|]. split; [done|]. intros ->. by apply Hcount.
Qed.

Lemma all_nodes_uninitialized_hellos ips h :
  ∃ (uninitialized : bool) check,
    all_nodes_uninitialized E ips h = (Ok uninitialized, check)
    ∧ Forall hello_event check
    ∧ (uninitialized = true → Forall unjoined check).
Proof.
  revert h. induction ips as [|t rest IH]; intros h.
  { exists true, []. by repeat split. }
  simpl. unfold bind, try_except, hello, ret. simpl.
  destruct (env_hello E h t) as [topo|e]; simpl.
  - destruct (bool_decide (setName topo ≠ None)) eqn:Hset; simpl.
    + exists false, [EvHello t (Ok topo)]. split; [done|].
      split; [by repeat constructor|done].
    + destruct (IH (h ++ [EvHello t (Ok topo)])) as (u & check & -> & Hcheck & Hu).
      exists u, (EvHello t (Ok topo) :: check). split; [done|].
      split; [by constructor|]. intros Htrue. constructor; [|by apply Hu].
      simpl. apply bool_decide_eq_false in Hset.
      by destruct (setName topo) as [name|]; [destruct Hset|].
  - destruct (IH (h ++ [EvHello t (Raise e)])) as (u & check & -> & Hcheck & Hu).
    exists u, (EvHello t (Raise e) :: check). split; [done|].
    split; [by constructor|]. intros Htrue. constructor; [done|by apply Hu].
Qed.

(** The choice of [update_config]: what it returns is decided by the ip its
    wait ended on, if any, and by the two lists it falls back on. *)
Lemma choose_new_primary_run new_ips to_add h :
  ∃ check wait,
    Forall hello_event check
    ∧ Forall is_probe wait
    ∧ ((wait = [] ∧ Forall unjoined check) ∨ ∃ polls, wait = EvSleep 10 :: polls)
    ∧ (elected wait = None → wait = [] ∨ sleep_durations wait = replicate 6 10)
    ∧ choose_new_primary E set_iter new_ips to_add h
      = (match elected wait with
         | Some t => Ok t
         | None => match fallback_target set_iter new_ips to_add with
                   | Some p => Ok p
                   | None => Raise IndexError
                   end
         end,
         check ++ wait).
Proof.
  unfold choose_new_primary. rewrite bind_run.
  destruct (all_nodes_uninitialized_hellos (set_iter new_ips) h)
    as (uninitialized & check & -> & Hcheck & Hun).
  rewrite bind_run.
  assert (Hfall : ∀ h',
            match set_iter (new_ips ∖ to_add) with
            | [] => match set_iter new_ips with
                    | [] => raise IndexError
                    | first :: _ => ret first
                    end
            | old :: _ => ret old
            end h'
            = (match fallback_target set_iter new_ips to_add with
               | Some p => Ok p
               | None => Raise IndexError
               end, [])).
  { intros h'. unfold fallback_target.
    destruct (set_iter (new_ips ∖ to_add)); [|done]. by destruct (set_iter new_ips). }
  destruct (uninitialized && bool_decide (0 < size new_ips)%nat) eqn:Hskip.
  - apply andb_true_iff in Hskip as [-> _].
    exists check, []. split; [done|]. split; [constructor|].
    split; [left; by split; [|apply Hun]|]. split; [by left|].
    cbn [ret]. rewrite Hfall. cbn [elected last]. by destruct (fallback_target _ _ _).
  - destruct (wait_for_primary_polls 6 new_ips (h ++ check))
      as (r & wait & -> & Hwait & Hshape & Hr & Hcount).
    exists check, wait. split; [done|]. split; [done|].
    split; [destruct Hshape as [[? _]|?]; [done|by right]|].
    split; [intros Hnone; right; apply Hcount; congruence|].
    rewrite Hr. destruct r as [t|].
    + cbn [ret]. by rewrite app_nil_r.
    + rewrite Hfall. destruct (fallback_target _ _ _); by rewrite app_nil_r.
Qed.

(** The run of [update_config] when the primary it was given is gone or
    unknown and it gets as far as reading a configuration. *)
Lemma update_config_choice primary_ip current_ips new_ips mongo_port h :
  let to_remove := current_ips ∖ new_ips in
  let to_add := new_ips ∖ current_ips in
  let run := update_config E set_iter primary_ip current_ips new_ips mongo_port h in
  primary_gone primary_ip to_remove →
  Forall is_probe run.2
  ∨ ∃ target rest,
      chosen_target set_iter run.2 new_ips to_add target
      ∧ (∃ sel a, run.2 = sel ++ EvGetConfig target a :: rest ∧ Forall is_probe sel)
      ∧ (∀ host config force answer,
           EvReconfig host config force answer ∈ rest → host = target).
Proof.
  intros to_remove to_add run Hgone. subst run. unfold update_config. cbv zeta.
  fold to_remove to_add. rewrite bind_run.
  destruct (bool_decide (to_remove = ∅ ∧ to_add = ∅) && bool_decide (current_ips ≠ ∅));
    [|destruct (bool_decide (to_remove ≠ ∅ ∨ to_add ≠ ∅)); [|left; constructor]].
  all: cbn [ret fst snd]; rewrite bind_run.
  all: assert (Hmatch :
         match primary_ip with
         | Some p =>
             if bool_decide (p ∈ to_remove)
             then (p' <- choose_new_primary E set_iter new_ips to_add ;; ret (true, p'))
             else ret (bool_decide (1 < size to_remove)%nat
                       || bool_decide (1 < size to_add)%nat, p)
         | None => p' <- choose_new_primary E set_iter new_ips to_add ;; ret (true, p')
         end
         = (p' <- choose_new_primary E set_iter new_ips to_add ;; ret (true, p')))
       by (destruct Hgone as [->|(p & -> & Hp)];
           [done|by rewrite bool_decide_eq_true_2]).
  all: rewrite Hmatch, bind_run.
  all: destruct (choose_new_primary_run new_ips to_add (h ++ []))
         as (check & wait & Hcheck & Hwait & Hshape & Hcount & ->).
  all: assert (Hprobes : Forall is_probe (check ++ wait))
         by (apply Forall_app; split;
             [eapply Forall_impl; [exact Hcheck|apply hello_event_probe]|done]).
  all: destruct (elected wait) as [t|] eqn:Hel;
         [|destruct (fallback_target set_iter new_ips to_add) as [t|] eqn:Hfb;
           [|left; by rewrite app_nil_l]].
  all: cbn [ret fst snd].
  all: match goal with
       | |- context [try_except _ is_Exception _ ?h'] =>
           pose proof (send_config_run E set_iter 3 t to_remove to_add mongo_port true h')
             as Hsend
       end; cbv zeta in Hsend.
  all: right; exists t.
  all: destruct Hsend as [(e & ->)|(config0 & failures & final & -> & _)].
  all: cbn [fst snd app]; rewrite ?app_nil_r, <- ?app_assoc.
  all: eexists; split; [eexists check, wait, _, _; split; [reflexivity|]|].
  all: try (split; [done|]; split; [done|]; split; [done|]; rewrite ?Hel, ?Hfb;
            first [done|split; [by apply Hcount|done]]).
  all: split; [eexists (check ++ wait), _; split;
                 [by rewrite <- app_assoc|done]|].
  all: intros host config force answer Hin.
  all: try by apply elem_of_nil in Hin.
  all: apply elem_of_retry_events in Hin as [Heq|(a' & Heq)];
         [discriminate Heq|by injection Heq as -> _ _ _].
Qed.

End Target.

Section TargetChoice.

Variable E : Env.
Variable set_iter : gset string → list string.

(** C9.  The ip to which a call of [update_config] sends [replSetReconfig] is
    never one of the removed ips.  It is the primary the call was given when
    that one stays.  When that one is removed or unknown, it is an ip of the
    new set, picked as [chosen_target] says: the ip that the wait for a
    primary ended on, if it ended on an ip answering as writable primary;
    otherwise the first old member still there, or, if there is none, the
    first new ip. *)
Theorem update_config_target_not_removed
    (primary_ip : option string) (current_ips new_ips : gset string) (mongo_port : Z)
    (h : History) (host : string) (config : Config) (force : bool) (answer : Res unit) :
  (∀ s, set_iter s ≡ₚ elements s) →
  EvReconfig host config force answer
    ∈ (update_config E set_iter primary_ip current_ips new_ips mongo_port h).2 →
  let to_remove := current_ips ∖ new_ips in
  let to_add := new_ips ∖ current_ips in
  (host ∉ to_remove)
  ∧ (∀ p, primary_ip = Some p → p ∉ to_remove → host = p)
  ∧ (primary_gone primary_ip to_remove →
     host ∈ new_ips
     ∧ chosen_target set_iter
         (update_config E set_iter primary_ip current_ips new_ips mongo_port h).2
         new_ips to_add host).
Proof.
  intros set_iter_perm Hev to_remove to_add.
  pose (T := λ host : string,
          (primary_gone primary_ip to_remove
           ∧ target_candidate set_iter new_ips to_add host)
          ∨ (∃ p, primary_ip = Some p ∧ (p ∉ to_remove) ∧ host = p)).
  destruct (update_config_emits E set_iter T primary_ip current_ips new_ips mongo_port)
    with (h := h) as [Hevs _].
  { intros p Hp Hnot. right. by exists p. }
  { intros p Hgone Hp. by left. }
  assert (Hchoice : primary_gone primary_ip to_remove →
            chosen_target set_iter
              (update_config E set_iter primary_ip current_ips new_ips mongo_port h).2
              new_ips to_add host).
  { intros Hgone.
    destruct (update_config_choice E set_iter primary_ip current_ips new_ips mongo_port
                h Hgone)
      as [Hprobes|(target & rest & Hchosen & (sel & a & Hrun & Hsel) & Hrest)].
    { eapply Forall_forall in Hprobes; [|exact Hev]. done. }
    assert (Hhost : host = target).
    { rewrite Hrun in Hev. apply elem_of_app in Hev as [Hin|Hin].
      { eapply Forall_forall in Hsel; [|exact Hin]. done. }
      apply elem_of_cons in Hin as [Heq|Hin]; [discriminate Heq|].
      by apply Hrest in Hin. }
    by subst target. }
  destruct (Hevs _ Hev) as [[[Hgone Hcandidate]|(p & Hp & Hnot & ->)] _].
  - pose proof (target_candidate_in_new set_iter set_iter_perm _ _ _ Hcandidate) as Hnew.
    split; [by intros [_ ?]%elem_of_difference|]. split; [|by split; [|apply Hchoice]].
    intros p Hp Hnot. destruct Hgone as [Hnone|(q & Hq & Hin)]; [congruence|].
    assert (Hpq : p = q) by congruence. by rewrite Hpq in Hnot.
  - split; [done|]. split.
    + intros q Hq _. congruence.
    + intros [Hnone|(q & Hq & Hin)]; [congruence|].
      assert (Hpq : p = q) by congruence. by rewrite Hpq in Hnot.
Qed.

End TargetChoice.

(** The primary [10.0.0.5] is removed and [10.0.0.6] has been elected: the
    check finds a member of a replica set at once, the first poll of the wait
    ends on [10.0.0.6], and the forced reconfiguration goes there. *)
Example update_config_reelected :
  update_config reelected_env elements (Some "10.0.0.5") rs0_ips
    {["10.0.0.6"; "10.0.0.7"]} 27017 []
  = (Ok tt,
     let member := λ writable,
       Ok {| isWritablePrimary := writable; setName := Some "rs0";
             primary := Some "10.0.0.6:27017" |} in
     [ EvHello "10.0.0.7" (member false);
       EvSleep 10;
       EvHello "10.0.0.7" (member false);
       EvHello "10.0.0.6" (member true);
       EvGetConfig "10.0.0.6" (Ok rs0_config);
       EvReconfig "10.0.0.6"
         {| cfg_id := "rs0";
            cfg_members := [ mkMember 1 "10.0.0.6:27017" [];
                             mkMember 2 "10.0.0.7:27017" [] ];
            cfg_version := 2; cfg_rest := [] |}
         true (Ok tt) ]).
Proof. vm_compute. reflexivity. Qed.

(** The primary [10.0.0.5] is removed and nobody is elected during the six
    polls of the wait: the forced reconfiguration goes to the first old
    member still there. *)
Example update_config_falls_back :
  let new_ips : gset string := {["10.0.0.6"; "10.0.0.7"]} in
  let run := update_config primary_lost_env elements (Some "10.0.0.5") rs0_ips
               new_ips 27017 [] in
  sleep_durations run.2 = replicate 6 10
  ∧ fallback_target elements new_ips (new_ips ∖ rs0_ips) = Some "10.0.0.7"
  ∧ reconfig_answers run.2 = [Ok tt]
  ∧ EvReconfig "10.0.0.7"
      (mutate_config elements rs0_config {["10.0.0.5"]} ∅ 27017) true (Ok tt) ∈ run.2.
Proof.
  split; [vm_compute; reflexivity|]. split; [vm_compute; reflexivity|].
  split; [vm_compute; reflexivity|]. in_events.
Qed.

(** [update_config_target_not_removed] when [10.0.0.6] is re-elected. *)
Lemma update_config_target_not_removed_witness :
  (∀ s : gset string, elements s ≡ₚ elements s)
  ∧ EvReconfig "10.0.0.6"
      (mutate_config elements rs0_config {["10.0.0.5"]} ∅ 27017) true (Ok tt)
    ∈ (update_config reelected_env elements (Some "10.0.0.5") rs0_ips
         {["10.0.0.6"; "10.0.0.7"]} 27017 []).2
  ∧ primary_gone (Some "10.0.0.5") (rs0_ips ∖ {["10.0.0.6"; "10.0.0.7"]})
  ∧ ("10.0.0.6" ∉ rs0_ips ∖ {["10.0.0.6"; "10.0.0.7"]})
  ∧ ("10.0.0.6" ∈ ({["10.0.0.6"; "10.0.0.7"]} : gset string))
  ∧ chosen_target elements
      (update_config reelected_env elements (Some "10.0.0.5") rs0_ips
         {["10.0.0.6"; "10.0.0.7"]} 27017 []).2
      {["10.0.0.6"; "10.0.0.7"]} ({["10.0.0.6"; "10.0.0.7"]} ∖ rs0_ips) "10.0.0.6".
Proof.
  assert (Hperm : ∀ s : gset string, elements s ≡ₚ elements s) by done.
  assert (Hev : EvReconfig "10.0.0.6"
                  (mutate_config elements rs0_config {["10.0.0.5"]} ∅ 27017)
                  true (Ok tt)
                ∈ (update_config reelected_env elements (Some "10.0.0.5") rs0_ips
                     {["10.0.0.6"; "10.0.0.7"]} 27017 []).2) by in_events.
  assert (Hgone : primary_gone (Some "10.0.0.5")
                    (rs0_ips ∖ {["10.0.0.6"; "10.0.0.7"]})).
  { right. exists "10.0.0.5". split; [done|]. by vm_compute. }
  destruct (update_config_target_not_removed reelected_env elements
              (Some "10.0.0.5") rs0_ips {["10.0.0.6"; "10.0.0.7"]} 27017 []
              _ _ _ _ Hperm Hev) as (Hnot & _ & Hchoice).
  destruct (Hchoice Hgone) as [Hnew Hchosen].
  split; [exact Hperm|]. split; [exact Hev|]. split; [exact Hgone|].
  split; [exact Hnot|]. split; [exact Hnew|exact Hchosen].
Defined.
